(** * llm-router: authentication core, usage metering and streaming

    A shallow embedding of the Python sources

    - [llm_router/models/api_key.py], [llm_router/models/usage_log.py]
    - [llm_router/utils/auth.py]      (class [APIKeyManager])
    - [llm_router/utils/tokens.py]    (class [TokenManager])
    - [llm_router/api/dependencies.py], [llm_router/api/auth.py],
      [llm_router/api/token_auth.py]
    - [llm_router/api/chat.py]        (streaming, usage log, cost)
    - [llm_router/providers/clients.py] (class [ClientManager])
    - [llm_router/api/models.py], [llm_router/api/usage.py], and the
      routes of [api/auth.py], [api/token_auth.py] and [api/chat.py]

    The SQL tables are lists of rows in insertion order, the Redis server is
    a finite map from keys to (ttl, value), and every function that touches
    them is written in a state-and-exception monad over the record [world].
    Randomness ([secrets], [uuid]) and the clock ([datetime.utcnow]) are
    explicit arguments.  The settings and the third-party functions the
    code calls ([hashlib.sha256], [jwt.encode], [jwt.decode], [json.dumps])
    are the methods of the class [Env]; every property is proved for all
    environments, and [Demo.env] is one to run the code on. *)

From Stdlib Require Import String Ascii ZArith QArith List Bool Lia DecimalString.
From stdpp Require Import base option list gmap strings.

Local Open Scope Z_scope.

(** ** Python string methods *)

Module Py.

(** [s.startswith(p)] *)
Definition startswith (s p : string) : bool := String.prefix p s.

(** Falsy strings are exactly the empty ones. *)
Definition truthy (s : string) : bool :=
  match s with EmptyString => false | String _ _ => true end.

(** Truthiness of an [Optional[str]]. *)
Definition truthy_opt (o : option string) : bool :=
  match o with Some s => truthy s | None => false end.

(** Cut [s] at the first occurrence of the character [sep]. *)
Fixpoint split_once (sep : ascii) (s : string) : option (string * string) :=
  match s with
  | EmptyString => None
  | String c s' =>
      if Ascii.eqb c sep then Some (EmptyString, s')
      else match split_once sep s' with
           | Some (a, b) => Some (String c a, b)
           | None => None
           end
  end.

(** [s.split(sep, maxsplit)] for a one-character separator. *)
Fixpoint split (sep : ascii) (maxsplit : nat) (s : string) : list string :=
  match maxsplit with
  | O => [s]
  | S n =>
      match split_once sep s with
      | Some (a, rest) => a :: split sep n rest
      | None => [s]
      end
  end.

(** [a, b, c = parts]: unpacking raises [ValueError] unless there are
    exactly three parts. *)
Definition unpack3 (parts : list string) : option (string * string * string) :=
  match parts with
  | [a; b; c] => Some (a, b, c)
  | _ => None
  end.

(** [s.replace(old, new)] for a non-empty [old]: occurrences are replaced
    left to right and do not overlap.  [skip] counts the characters of a
    matched occurrence that are still to be dropped. *)
Fixpoint replace_from (old new : string) (skip : nat) (s : string) : string :=
  match s with
  | EmptyString => EmptyString
  | String c s' =>
      match skip with
      | S k => replace_from old new k s'
      | O =>
          if String.prefix old s
          then new +:+ replace_from old new (String.length old - 1) s'
          else String c (replace_from old new O s')
      end
  end.

Definition replace (s old new : string) : string := replace_from old new O s.

(** White space among the first 256 code points, as removed by
    [str.strip()]. *)
Definition isspace (c : ascii) : bool :=
  let n := nat_of_ascii c in
  ((9 <=? n)%nat && (n <=? 13)%nat) || (n =? 32)%nat
  || ((28 <=? n)%nat && (n <=? 31)%nat) || (n =? 133)%nat || (n =? 160)%nat.

Fixpoint lstrip (s : string) : string :=
  match s with
  | EmptyString => EmptyString
  | String c s' => if isspace c then lstrip s' else s
  end.

Fixpoint rstrip (s : string) : string :=
  match s with
  | EmptyString => EmptyString
  | String c s' =>
      match rstrip s' with
      | EmptyString => if isspace c then EmptyString else String c EmptyString
      | r => String c r
      end
  end.

Definition strip (s : string) : string := rstrip (lstrip s).

(** [s.find(sub)], [None] standing for [-1]. *)
Definition find (s sub : string) : option nat := String.index 0 sub s.

(** [s[i:]] *)
Definition slice_from (s : string) (i : nat) : string :=
  String.substring i (String.length s - i) s.

(** [s[:n]] *)
Definition slice_to (s : string) (n : nat) : string := String.substring 0 n s.

End Py.


(** ** Data model *)

(** Times are seconds on the UTC clock. *)
Definition datetime := Z.

(** [models/api_key.py]: one row of the table [api_keys].  The mapped
    columns are exactly these nine; the timestamp column is called
    [last_used]. *)
Module APIKey.
Record t := mk {
  id : string;                   (* primary key *)
  key_hash : string;             (* unique, not null *)
  name : string;
  description : option string;
  created_at : option datetime;
  last_used : option datetime;
  is_active : bool;
  rate_limit : Z;
  usage_count : Z
}.

Definition set_is_active (v : bool) (r : t) : t :=
  mk (id r) (key_hash r) (name r) (description r) (created_at r)
     (last_used r) v (rate_limit r) (usage_count r).

Definition set_usage_count (v : Z) (r : t) : t :=
  mk (id r) (key_hash r) (name r) (description r) (created_at r)
     (last_used r) (is_active r) (rate_limit r) v.
End APIKey.

(** A Python instance of the mapped class [APIKey]: the column attributes
    loaded from (or destined to) its row, and the plain instance attributes
    that are not mapped to any column.  The source only ever sets one such
    attribute, [last_used_at]. *)
Record APIKeyObj := mkObj {
  columns : APIKey.t;
  last_used_at : option datetime
}.

Definition loaded (r : APIKey.t) : APIKeyObj := mkObj r None.

(** [models/usage_log.py]: one row of the table [usage_logs]. *)
Module UsageLog.
Record t := mk {
  id : string;
  api_key_id : string;
  provider : string;
  model : string;
  endpoint : string;
  tokens_used : Z;
  prompt_tokens : Z;
  completion_tokens : Z;
  cost : Q;
  request_data : option string;
  timestamp : option datetime
}.
End UsageLog.

(** ** The world: SQL store, Redis server, and a log of store reads *)

Inductive db_query :=
| SelectKeyById (key_id : string)
| SelectActiveKeyByHash (key_hash : string)
| SelectActiveKeyById (key_id : string).

Record world := mkWorld {
  api_keys : list APIKey.t;                 (* table api_keys *)
  usage_logs : list UsageLog.t;             (* table usage_logs *)
  redis_store : gmap string (Z * string);   (* key -> (ttl, value) *)
  redis_client : bool;                      (* database.redis_client is not None *)
  db_reads : list db_query                  (* SELECTs issued so far, oldest first *)
}.

Definition set_api_keys (ks : list APIKey.t) (w : world) : world :=
  mkWorld ks (usage_logs w) (redis_store w) (redis_client w) (db_reads w).
Definition set_usage_logs (ls : list UsageLog.t) (w : world) : world :=
  mkWorld (api_keys w) ls (redis_store w) (redis_client w) (db_reads w).
Definition set_redis_store (c : gmap string (Z * string)) (w : world) : world :=
  mkWorld (api_keys w) (usage_logs w) c (redis_client w) (db_reads w).
Definition log_read (q : db_query) (w : world) : world :=
  mkWorld (api_keys w) (usage_logs w) (redis_store w) (redis_client w)
          (db_reads w ++ [q]).

(** The persistent state, i.e. everything but the read log. *)
Definition stored (w : world) :=
  (api_keys w, usage_logs w, redis_store w, redis_client w).

(** ** State and exception monad *)

Inductive exn :=
| HTTPException (status_code : Z) (detail : string)
| IntegrityError
| ValueError (msg : string)
| ValidationError.

Inductive outcome (A : Type) :=
| Ok (a : A)
| Raise (e : exn).
Arguments Ok {A} a.
Arguments Raise {A} e.

Definition M (A : Type) : Type := world -> outcome A * world.

Definition ret {A} (a : A) : M A := fun w => (Ok a, w).
Definition raise {A} (e : exn) : M A := fun w => (Raise e, w).
Definition bind {A B} (m : M A) (k : A -> M B) : M B :=
  fun w => match m w with
           | (Ok a, w') => k a w'
           | (Raise e, w') => (Raise e, w')
           end.
(** [try: m  except ...: h e] *)
Definition try_except {A} (m : M A) (h : exn -> M A) : M A :=
  fun w => match m w with
           | (Ok a, w') => (Ok a, w')
           | (Raise e, w') => h e w'
           end.
Definition get_world : M world := fun w => (Ok w, w).
Definition modify (f : world -> world) : M unit := fun w => (Ok tt, f w).

Declare Scope py_scope.
Delimit Scope py_scope with py.
Notation "x <- m ;; k" := (bind m (fun x => k))
  (at level 100, m at next level, right associativity) : py_scope.
Notation "m ;;; k" := (bind m (fun _ => k))
  (at level 100, right associativity) : py_scope.
Local Open Scope py_scope.

Definition is_http (e : exn) : bool :=
  match e with HTTPException _ _ => true | _ => false end.

Definition exn_str (e : exn) : string :=
  match e with
  | HTTPException _ d => d
  | IntegrityError => "IntegrityError"
  | ValueError m => m
  | ValidationError => "ValidationError"
  end.

(** *** SQL statements on [api_keys] and [usage_logs]

    [first()] without an ordering returns the earliest inserted row that
    matches.  Every instance returned by a query is a fresh snapshot of its
    row. *)

(** [db.query(APIKey).filter(APIKey.id == key_id).first()] *)
Definition query_key_by_id (key_id : string) : M (option APIKeyObj) :=
  fun w => (Ok (loaded <$> List.find (fun r => String.eqb (APIKey.id r) key_id) (api_keys w)),
            log_read (SelectKeyById key_id) w).

(** [db.query(APIKey).filter(APIKey.key_hash == h, APIKey.is_active == True).first()] *)
Definition query_active_key_by_hash (h : string) : M (option APIKeyObj) :=
  fun w => (Ok (loaded <$> List.find (fun r => String.eqb (APIKey.key_hash r) h && APIKey.is_active r)
                       (api_keys w)),
            log_read (SelectActiveKeyByHash h) w).

(** [db.query(APIKey).filter(APIKey.id == key_id, APIKey.is_active == True).first()] *)
Definition query_active_key_by_id (key_id : string) : M (option APIKeyObj) :=
  fun w => (Ok (loaded <$> List.find (fun r => String.eqb (APIKey.id r) key_id && APIKey.is_active r)
                       (api_keys w)),
            log_read (SelectActiveKeyById key_id) w).

(** [db.add(row); db.commit()] on [api_keys]: the primary key and the unique
    index on [key_hash] reject duplicates. *)
Definition insert_key (r : APIKey.t) : M unit :=
  fun w =>
    if existsb (fun r' => String.eqb (APIKey.id r') (APIKey.id r)
                          || String.eqb (APIKey.key_hash r') (APIKey.key_hash r))
               (api_keys w)
    then (Raise IntegrityError, w)
    else (Ok tt, set_api_keys (api_keys w ++ [r]) w).

(** The flush of a dirty instance at [db.commit()]:
    [UPDATE api_keys SET col = v WHERE id = key_id], [set] writing the dirty
    column. *)
Definition update_key (key_id : string) (set : APIKey.t -> APIKey.t) : M unit :=
  modify (fun w =>
    set_api_keys (List.map (fun r => if String.eqb (APIKey.id r) key_id then set r else r)
                           (api_keys w)) w).

(** [db.add(row); db.commit()] on [usage_logs]. *)
Definition insert_usage_log (l : UsageLog.t) : M unit :=
  fun w =>
    if existsb (fun l' => String.eqb (UsageLog.id l') (UsageLog.id l)) (usage_logs w)
    then (Raise IntegrityError, w)
    else (Ok tt, set_usage_logs (usage_logs w ++ [l]) w).

(** *** Redis commands

    A command sent through a present client is answered; connection errors
    (which the manager would swallow, falling back on the store) are left
    out of the model. *)

(** [redis.get(k)] *)
Definition redis_get (k : string) : M (option string) :=
  fun w => (Ok (snd <$> redis_store w !! k), w).

(** [redis.setex(k, ttl, v)] *)
Definition redis_setex (k : string) (ttl : Z) (v : string) : M unit :=
  modify (fun w => set_redis_store (<[k := (ttl, v)]> (redis_store w)) w).

(** ** [config.py] and the third-party libraries *)

Record Settings := mkSettings {
  secret_key : string;
  api_key_prefix : string
}.

Definition default_settings : Settings :=
  mkSettings "change-this-secret-key-in-production" "llm-router-".

(** The claims of a bearer token, as [TokenManager.create_token] writes
    them and [payload.get] reads them. *)
Record payload := mkPayload {
  sub : option string;
  p_name : option string;
  iat : option datetime;
  exp : option datetime;
  jti : option string;
  p_type : option string
}.

(** What [jwt.decode] does: it returns the claims, or raises
    [jwt.ExpiredSignatureError], or another [jwt.InvalidTokenError] (bad
    signature, malformed token, ...), or some other exception. *)
Inductive decode_result :=
| Decoded (p : payload)
| ExpiredSignatureError
| InvalidTokenError
| OtherError.

(** Values handed to [json.dumps]. *)
#[local] Unset Elimination Schemes.
Inductive json :=
| JNull
| JStr (s : string)
| JInt (n : Z)
| JArr (items : list json)
| JObj (fields : list (string * json)).
#[local] Set Elimination Schemes.

(** The environment of the program: its settings and the library functions
    it calls. *)
Class Env := {
  settings : Settings;
  (** [lambda s: hashlib.sha256(s.encode()).hexdigest()] *)
  sha256_hexdigest : string -> string;
  (** [jwt.encode(payload, key, algorithm=alg)] *)
  jwt_encode : payload -> string -> string -> string;
  (** [jwt.decode(token, key, algorithms=algs)] at clock time [now] *)
  jwt_decode : string -> string -> list string -> datetime -> decode_result;
  json_dumps : json -> string
}.

(** [str(b)] for a Python [bool] *)
Definition str_bool (b : bool) : string := if b then "True" else "False".

(** [schemas.py] *)
Record APIKeyRequest := mkAPIKeyRequest {
  req_name : string;
  req_description : option string
}.

Record APIKeyResponse := mkAPIKeyResponse {
  resp_id : string;
  resp_name : string;
  resp_key : string;
  resp_description : string;
  resp_created_at : option datetime;
  resp_rate_limit : Z;
  resp_usage_count : Z
}.

(** ** [utils/auth.py]: class [APIKeyManager] *)

Module utils_auth.
Section APIKeyManager.
Context `{Env}.

(** The manager object: [self.db] is the store of the world, [self.redis]
    is either [None] or the Redis client. *)
Record APIKeyManager := mkManager { self_redis : bool }.

Definition cache_key (key_hash : string) : string := "api_key:" +:+ key_hash.

Definition cache_value (r : APIKey.t) : string :=
  APIKey.id r +:+ ":" +:+ APIKey.name r +:+ ":" +:+ str_bool (APIKey.is_active r).

(** [generate_api_key], [token_urlsafe] being [secrets.token_urlsafe(32)]. *)
Definition generate_api_key (token_urlsafe : string) : string * string :=
  let prefix := api_key_prefix settings in
  let key := prefix +:+ token_urlsafe in
  let key_hash := sha256_hexdigest key in
  (key, key_hash).

(** [create_api_key]; [uuid_hex] is [uuid.uuid4().hex] and [now] the
    store's clock at the insertion. *)
Definition create_api_key (self : APIKeyManager) (request : APIKeyRequest)
    (token_urlsafe uuid_hex : string) (now : datetime) : M APIKeyResponse :=
  let '(key, key_hash) := generate_api_key token_urlsafe in
  let key_id := "ak_" +:+ Py.slice_to uuid_hex 16 in
  let api_key :=
    APIKey.mk key_id key_hash (req_name request) (req_description request)
              (Some now) None true 1000 0 in
  insert_key api_key ;;;
  (if self_redis self
   then try_except
          (redis_setex (cache_key key_hash) 3600 (cache_value api_key))
          (fun _ => ret tt)
   else ret tt) ;;;
  match APIKey.description api_key with
  | Some d =>
      ret (mkAPIKeyResponse (APIKey.id api_key) (APIKey.name api_key) key d
             (APIKey.created_at api_key) (APIKey.rate_limit api_key)
             (APIKey.usage_count api_key))
  | None => raise ValidationError
  end.

(** [verify_api_key].  The first block is the Redis fast path inside its
    [try]; its value is [Some r] when the function returns [r] from inside
    it, and [None] when control goes on to the store query: no entry, a
    falsy entry, a third part other than ["True"], or an exception (the
    unpacking of fewer than three parts raises [ValueError]), which
    [except Exception: pass] swallows. *)
Definition verify_api_key (self : APIKeyManager) (key : string)
    : M (option APIKeyObj) :=
  let key_hash := sha256_hexdigest key in
  returned <-
    (if self_redis self then
       try_except
         (cached <- redis_get (cache_key key_hash) ;;
          match cached with
          | Some cached =>
              if Py.truthy cached then
                match Py.unpack3 (Py.split ":" 2 cached) with
                | Some (key_id, _, is_active) =>
                    if String.eqb is_active "True"
                    then r <- query_key_by_id key_id ;; ret (Some r)
                    else ret None
                | None => raise (ValueError "not enough values to unpack")
                end
              else ret None
          | None => ret None
          end)
         (fun _ => ret None)
     else ret None) ;;
  match returned with
  | Some r => ret r
  | None =>
      api_key <- query_active_key_by_hash key_hash ;;
      match api_key with
      | Some k =>
          (if self_redis self
           then try_except
                  (redis_setex (cache_key key_hash) 3600 (cache_value (columns k)))
                  (fun _ => ret tt)
           else ret tt) ;;;
          ret api_key
      | None => ret api_key
      end
  end.

(** [increment_usage]: the instance is mutated in place (returned here),
    and [db.commit()] flushes the one dirty column, [usage_count];
    [last_used_at] is not a column of [APIKey]. *)
Definition increment_usage (self : APIKeyManager) (api_key : APIKeyObj)
    (now : datetime) : M APIKeyObj :=
  let api_key :=
    mkObj (APIKey.set_usage_count (APIKey.usage_count (columns api_key) + 1)
                                  (columns api_key))
          (last_used_at api_key) in
  let api_key := mkObj (columns api_key) (Some now) in
  update_key (APIKey.id (columns api_key))
             (APIKey.set_usage_count (APIKey.usage_count (columns api_key))) ;;;
  ret api_key.

End APIKeyManager.
End utils_auth.

(** ** [utils/tokens.py]: class [TokenManager] *)

Module tokens.
Section TokenManager.
Context `{Env}.

(** [self.algorithm] and [self.default_expiry] (24 hours, in seconds);
    [self.secret_key] is [settings.secret_key]. *)
Definition algorithm : string := "HS256".
Definition default_expiry : Z := 24 * 3600.

(** The dictionary returned by [create_token]. *)
Record token_response := mkTokenResponse {
  access_token : string;
  token_type : string;
  expires_in : Z;
  expires_at : datetime;
  tr_api_key_id : string;
  tr_api_key_name : string
}.

(** The dictionary returned by a successful [verify_token]. *)
Record token_data := mkTokenData {
  api_key_id : string;
  api_key_name : option string;
  token_id : option string;
  issued_at : option datetime;
  td_expires_at : option datetime;
  api_key_record : APIKeyObj
}.

(** [create_token]; [token_hex] is [secrets.token_hex(16)]. *)
Definition create_token (api_key_id : string) (expires_in : option Z)
    (token_hex : string) (now : datetime) : M token_response :=
  let expires_in := match expires_in with Some d => d | None => default_expiry end in
  api_key <- query_key_by_id api_key_id ;;
  match api_key with
  | Some k =>
      if negb (APIKey.is_active (columns k))
      then raise (ValueError "Invalid or inactive API key")
      else
        let expiry := now + expires_in in
        let payload :=
          mkPayload (Some api_key_id) (Some (APIKey.name (columns k)))
                    (Some now) (Some expiry) (Some token_hex) (Some "access") in
        let token := jwt_encode payload (secret_key settings) algorithm in
        ret (mkTokenResponse token "bearer" expires_in expiry api_key_id
                             (APIKey.name (columns k)))
  | None => raise (ValueError "Invalid or inactive API key")
  end.

(** [verify_token]: every [except] clause, and both early exits of the
    [try] body, return [None]. *)
Definition verify_token (token : string) (now : datetime)
    : M (option token_data) :=
  match jwt_decode token (secret_key settings) [algorithm] now with
  | Decoded payload =>
      let api_key_id := sub payload in
      match api_key_id with
      | Some key_id =>
          if negb (Py.truthy key_id) then ret None
          else
            api_key <- query_active_key_by_id key_id ;;
            match api_key with
            | None => ret None
            | Some k =>
                ret (Some (mkTokenData key_id (p_name payload) (jti payload)
                                       (iat payload) (exp payload) k))
            end
      | None => ret None
      end
  | ExpiredSignatureError => ret None
  | InvalidTokenError => ret None
  | OtherError => ret None
  end.

(** [refresh_token] *)
Definition refresh_token (old_token : string) (token_hex : string)
    (now : datetime) : M (option token_response) :=
  token_data <- verify_token old_token now ;;
  match token_data with
  | None => ret None
  | Some d => r <- create_token (api_key_id d) None token_hex now ;; ret (Some r)
  end.

(** [revoke_token]: [return self.verify_token(token) is not None] *)
Definition revoke_token (token : string) (now : datetime) : M bool :=
  r <- verify_token token now ;;
  ret (match r with Some _ => true | None => false end).

End TokenManager.
End tokens.

(** ** [api/dependencies.py] *)

Module dependencies.
Section Dependencies.
Context `{Env}.

Definition lower_ascii (c : ascii) : ascii :=
  let n := nat_of_ascii c in
  if ((65 <=? n)%nat && (n <=? 90)%nat) then ascii_of_nat (n + 32) else c.

Fixpoint lower (s : string) : string :=
  match s with
  | EmptyString => EmptyString
  | String c s' => String (lower_ascii c) (lower s')
  end.

(** The request, reduced to its header list; [request.headers.get] is
    case-insensitive and returns the first match. *)
Record Request := mkRequest { headers : list (string * string) }.

Definition headers_get (request : Request) (k : string) : option string :=
  snd <$> List.find (fun nv => String.eqb (lower (fst nv)) (lower k)) (headers request).

(** The first half of [verify_api_key]: methods 1 to 5 of finding the
    header value. *)
Definition find_auth_header (request : Request)
    (authorization api_key : option string) : option string :=
  let auth_header := authorization in
  let auth_header :=
    if negb (Py.truthy_opt auth_header) && Py.truthy_opt api_key then
      match api_key with
      | Some k => Some (if Py.startswith k "llm-router-" then k else "Bearer " +:+ k)
      | None => auth_header
      end
    else auth_header in
  let auth_header :=
    if negb (Py.truthy_opt auth_header) then headers_get request "authorization"
    else auth_header in
  let auth_header :=
    if negb (Py.truthy_opt auth_header) then headers_get request "Authorization"
    else auth_header in
  let auth_header :=
    if negb (Py.truthy_opt auth_header) then headers_get request "x-api-key"
    else auth_header in
  auth_header.

(** "Handle different authorization formats"; in the last branch
    [find] returns an index exactly when the prefix occurs in the header. *)
Definition extract_api_key_value (auth_header : string) : option string :=
  if Py.startswith auth_header "Bearer " then
    Some (Py.strip (Py.replace auth_header "Bearer " ""))
  else if Py.startswith auth_header "llm-router-" then
    Some (Py.strip auth_header)
  else
    match Py.find auth_header "llm-router-" with
    | Some start_idx => Some (Py.strip (Py.slice_from auth_header start_idx))
    | None => None
    end.

(** [verify_api_key].  An [HTTPException] whose detail is a dictionary is
    represented by the ["error"] entry of that dictionary. *)
Definition verify_api_key (request : Request)
    (authorization api_key : option string) (now : datetime) : M APIKeyObj :=
  let auth_header := find_auth_header request authorization api_key in
  if negb (Py.truthy_opt auth_header) then
    raise (HTTPException 401 "Missing authorization header")
  else
    let api_key_value :=
      match auth_header with
      | Some h => extract_api_key_value h
      | None => None
      end in
    match api_key_value with
    | Some api_key_value =>
        if negb (Py.truthy api_key_value) then
          raise (HTTPException 401 "Invalid authorization format")
        else
          try_except
            (w <- get_world ;;
             let redis_client := redis_client w in
             let key_manager := utils_auth.mkManager redis_client in
             api_key_record <- utils_auth.verify_api_key key_manager api_key_value ;;
             match api_key_record with
             | None => raise (HTTPException 401 "Invalid or expired API key")
             | Some api_key_record =>
                 if negb (APIKey.is_active (columns api_key_record)) then
                   raise (HTTPException 401 "API key is disabled")
                 else
                   api_key_record <- utils_auth.increment_usage key_manager api_key_record now ;;
                   ret api_key_record
             end)
            (fun e =>
               if is_http e then raise e
               else raise (HTTPException 401
                             ("API key verification failed: " +:+ exn_str e)))
    | None => raise (HTTPException 401 "Invalid authorization format")
    end.

(** [get_current_api_key] *)
Definition get_current_api_key (request : Request)
    (authorization api_key : option string) (now : datetime) : M APIKeyObj :=
  verify_api_key request authorization api_key now.

End Dependencies.
End dependencies.

(** ** [api/auth.py] *)

Module api_auth.
Section Routes.
Context `{Env}.

(** [DELETE /v1/api-keys/{key_id}]: the dependency runs first; then the
    instance is marked inactive and [db.commit()] flushes the dirty
    column [is_active]. *)
Definition delete_api_key (key_id : string) (request : dependencies.Request)
    (authorization api_key : option string) (now : datetime) : M string :=
  current_key <- dependencies.get_current_api_key request authorization api_key now ;;
  try_except
    (if negb (String.eqb key_id (APIKey.id (columns current_key))) then
       raise (HTTPException 403 "You can only delete your own API key")
     else
       let current_key :=
         mkObj (APIKey.set_is_active false (columns current_key))
               (last_used_at current_key) in
       update_key (APIKey.id (columns current_key)) (APIKey.set_is_active false) ;;;
       ret "API key deactivated successfully")
    (fun e =>
       if is_http e then raise e
       else raise (HTTPException 500 ("Failed to delete API key: " +:+ exn_str e))).

End Routes.
End api_auth.

(** ** [api/token_auth.py] *)

Module token_auth.
Section Routes.
Context `{Env}.

(** [POST /auth/verify], returning the ["message"] of the response. *)
Definition verify_token (token : string) (now : datetime) : M string :=
  try_except
    (token_data <- tokens.verify_token token now ;;
     match token_data with
     | None => raise (HTTPException 401 "Invalid or expired token")
     | Some _ => ret "Token is valid"
     end)
    (fun e =>
       if is_http e then raise e
       else raise (HTTPException 500 ("Failed to verify token: " +:+ exn_str e))).

(** [DELETE /auth/revoke], returning the ["message"] of the response. *)
Definition revoke_token (token : string) (now : datetime) : M string :=
  try_except
    (is_valid <- tokens.revoke_token token now ;;
     if negb is_valid then raise (HTTPException 401 "Invalid token")
     else ret "Token revoked successfully")
    (fun e =>
       if is_http e then raise e
       else raise (HTTPException 500 ("Failed to revoke token: " +:+ exn_str e))).

End Routes.
End token_auth.

(** ** [api/chat.py] *)

Module chat.

(** The upstream objects (OpenAI client types). *)
Record CompletionUsage := mkUsage {
  total_tokens : Z;
  prompt_tokens : Z;
  completion_tokens : Z
}.

Record Delta := mkDelta { role : option string; content : option string }.

Record Choice := mkChoice {
  index : Z;
  delta : Delta;
  finish_reason : option string
}.

(** A streamed chunk; [usage] is [None] when the attribute is absent or
    falsy. *)
Record Chunk := mkChunk {
  chunk_id : string;
  created : Z;
  chunk_model : string;
  choices : list Choice;
  usage : option CompletionUsage
}.

(** What [async for chunk in stream] sees: chunks, then the end of the
    iteration or an exception raised by the iterator. *)
Inductive AsyncStream :=
| StreamEnd
| StreamChunk (c : Chunk) (rest : AsyncStream)
| StreamError (e : string).

(** The duck-typed [usage] argument of [log_usage] and [calculate_cost]:
    an object with attributes, or a dictionary. *)
Inductive Usage :=
| UsageObj (u : CompletionUsage)
| UsageDict (d : gmap string Z).

(** [usage.a if hasattr(usage, a) else usage.get(a, 0)] *)
Definition usage_field (attr : CompletionUsage -> Z) (key : string) (usage : Usage) : Z :=
  match usage with
  | UsageObj u => attr u
  | UsageDict d => default 0 (d !! key)
  end.

(** Python floats are idealised as rationals. *)
Definition pricing : gmap string (gmap string Q) :=
  list_to_map
    [ ("openai", list_to_map [ ("gpt-4", 0.03%Q); ("gpt-4-turbo", 0.01%Q);
                              ("gpt-4o", 0.005%Q); ("gpt-4o-mini", 0.0015%Q);
                              ("gpt-3.5-turbo", 0.0015%Q) ]);
      ("groq", list_to_map [ ("default", 0.0001%Q) ]);
      ("gemini", list_to_map [ ("default", 0.001%Q) ]) ].

(** [calculate_cost] *)
Definition calculate_cost (provider model : string) (usage : Usage) : Q :=
  let total_tokens := usage_field total_tokens "total_tokens" usage in
  let provider_pricing := default ∅ (pricing !! provider) in
  let cost_per_1k :=
    default (default 0.001%Q (provider_pricing !! "default")) (provider_pricing !! model) in
  ((inject_Z total_tokens / 1000) * cost_per_1k)%Q.

Section Streaming.
Context `{Env}.

(** The line feed character, as a string. *)
Definition nl : string := String (ascii_of_nat 10) EmptyString.

(** [log_usage]; [uuid_hex] is [uuid.uuid4().hex] and [now] the store's
    clock.  Any exception is logged and swallowed. *)
Definition log_usage (api_key_id provider model : string) (usage : Usage)
    (uuid_hex : string) (now : datetime) : M unit :=
  try_except
    (let usage_log :=
       UsageLog.mk ("log_" +:+ Py.slice_to uuid_hex 16) api_key_id provider model
                   "/v1/chat/completions"
                   (usage_field total_tokens "total_tokens" usage)
                   (usage_field prompt_tokens "prompt_tokens" usage)
                   (usage_field completion_tokens "completion_tokens" usage)
                   (calculate_cost provider model usage)
                   None (Some now) in
     insert_usage_log usage_log)
    (fun e => ret tt).

Definition json_opt (o : option string) : json :=
  match o with Some s => JStr s | None => JNull end.

(** The dictionary [chunk_data] built for a chunk. *)
Definition chunk_data (provider : string) (chunk : Chunk) : json :=
  JObj [ ("id", JStr (chunk_id chunk));
         ("object", JStr "chat.completion.chunk");
         ("created", JInt (created chunk));
         ("model", JStr (chunk_model chunk));
         ("provider", JStr provider);
         ("choices",
          JArr (List.map
                  (fun choice =>
                     JObj [ ("index", JInt (index choice));
                            ("delta", JObj [ ("role", json_opt (role (delta choice)));
                                             ("content", json_opt (content (delta choice))) ]);
                            ("finish_reason", json_opt (finish_reason choice)) ])
                  (choices chunk))) ].

Definition data_line (provider : string) (chunk : Chunk) : string :=
  "data: " +:+ json_dumps (chunk_data provider chunk) +:+ nl +:+ nl.

Definition done_line : string := "data: [DONE]" +:+ nl +:+ nl.

Definition error_line (e : string) : string :=
  "data: " +:+ json_dumps (JObj [ ("error", JStr e) ]) +:+ nl +:+ nl.

(** How the [async for] loop is left. *)
Inductive loop_exit :=
| LoopDone (total_tokens : Z)
| LoopRaised (e : string).

(** The [async for] loop: the lines yielded, in order, and the way the
    loop ends.  A chunk with an empty [choices] list is skipped whole,
    its usage included. *)
Fixpoint stream_loop (provider : string) (stream : AsyncStream) (total : Z)
    : list string * loop_exit :=
  match stream with
  | StreamEnd => ([], LoopDone total)
  | StreamError e => ([], LoopRaised e)
  | StreamChunk chunk rest =>
      match choices chunk with
      | [] => stream_loop provider rest total
      | _ :: _ =>
          let line := data_line provider chunk in
          let total :=
            match usage chunk with
            | Some u => total_tokens u
            | None => total
            end in
          let '(lines, exit) := stream_loop provider rest total in
          (line :: lines, exit)
      end
  end.

(** The dictionary the generator hands to [log_usage]. *)
Definition streamed_usage (total_tokens : Z) : Usage :=
  UsageDict (list_to_map [ ("total_tokens", total_tokens);
                           ("prompt_tokens", 0);
                           ("completion_tokens", total_tokens) ]).

(** The result of awaiting [client.chat.completions.create] on the request. *)
Inductive CreateResult :=
| CreateRaises (e : string)
| CreateReturns (stream : AsyncStream).

(** [stream_chat_completion], as the list of everything the generator
    yields.  [request_model] is [request_data["model"]]. *)
Definition stream_chat_completion (create : CreateResult) (request_model : string)
    (provider api_key_id : string) (uuid_hex : string) (now : datetime)
    : M (list string) :=
  match create with
  | CreateRaises e => ret [error_line e]
  | CreateReturns stream =>
      let '(yielded, exit) := stream_loop provider stream 0 in
      match exit with
      | LoopRaised e => ret (yielded ++ [error_line e])
      | LoopDone total_tokens =>
          let yielded := yielded ++ [done_line] in
          try_except
            ((if 0 <? total_tokens then
                log_usage api_key_id provider request_model
                  (streamed_usage total_tokens) uuid_hex now
              else ret tt) ;;;
             ret yielded)
            (fun e => ret (yielded ++ [error_line (exn_str e)]))
      end
  end.

End Streaming.
End chat.

(** ** [api/token_auth.py], the routes that issue tokens *)

Module token_routes.
Section Routes.
Context `{Env}.

(** [TokenRequest].  The bounds [ge=1], [le=168] on [expires_in_hours] are
    checked when the object is constructed: the body of a request is
    validated before the route function is called, so the function is
    called only with requests on which [valid_hours] holds (a body out of
    these bounds is answered 422 without calling it), and the statements
    on what the route issues assume it. *)
Record TokenRequest := mkTokenRequest {
  api_key : string;
  expires_in_hours : option Z
}.

Definition valid_hours (h : option Z) : bool :=
  match h with
  | Some n => (1 <=? n) && (n <=? 168)
  | None => true
  end.

(** [POST /auth/token].  The key manager is built without the Redis
    client.  [timedelta(hours=None)] raises a [TypeError], of which only
    the message is used; it is written here as a [ValueError]. *)
Definition create_token (request : TokenRequest) (token_hex : string)
    (now : datetime) : M tokens.token_response :=
  try_except
    (let key_manager := utils_auth.mkManager false in
     api_key_record <- utils_auth.verify_api_key key_manager (api_key request) ;;
     match api_key_record with
     | None => raise (HTTPException 401 "Invalid API key")
     | Some api_key_record =>
         if negb (APIKey.is_active (columns api_key_record)) then
           raise (HTTPException 401 "API key is disabled")
         else
           match expires_in_hours request with
           | None =>
               raise (ValueError
                        "unsupported type for timedelta hours component: NoneType")
           | Some hours =>
               let expires_in := hours * 3600 in
               token_data <- tokens.create_token (APIKey.id (columns api_key_record))
                               (Some expires_in) token_hex now ;;
               utils_auth.increment_usage key_manager api_key_record now ;;;
               ret token_data
           end
     end)
    (fun e =>
       if is_http e then raise e
       else raise (HTTPException 500 ("Failed to create token: " +:+ exn_str e))).

(** [POST /auth/token/form]: the request object is built inside the route,
    so a value out of bounds raises there. *)
Definition create_token_form (api_key : string) (expires_in_hours : Z)
    (token_hex : string) (now : datetime) : M tokens.token_response :=
  if valid_hours (Some expires_in_hours)
  then create_token (mkTokenRequest api_key (Some expires_in_hours)) token_hex now
  else raise ValidationError.

(** [POST /auth/refresh] *)
Definition refresh_token (token : string) (token_hex : string) (now : datetime)
    : M tokens.token_response :=
  try_except
    (new_token_data <- tokens.refresh_token token token_hex now ;;
     match new_token_data with
     | None => raise (HTTPException 401 "Invalid or expired token")
     | Some r => ret r
     end)
    (fun e =>
       if is_http e then raise e
       else raise (HTTPException 500 ("Failed to refresh token: " +:+ exn_str e))).

End Routes.
End token_routes.

(** ** [providers/clients.py]: class [ClientManager] *)

Module clients.

(** A Python [dict] keyed by strings: the entries in insertion order; an
    assignment to a key that is present replaces the value where it is. *)
Definition pydict (V : Type) : Type := list (string * V).

Fixpoint dict_get {V} (d : pydict V) (k : string) : option V :=
  match d with
  | [] => None
  | (k', v) :: d' => if String.eqb k' k then Some v else dict_get d' k
  end.

Fixpoint dict_set {V} (d : pydict V) (k : string) (v : V) : pydict V :=
  match d with
  | [] => [(k, v)]
  | (k', v') :: d' =>
      if String.eqb k' k then (k, v) :: d' else (k', v') :: dict_set d' k v
  end.

(** [k in d] *)
Definition dict_in {V} (k : string) (d : pydict V) : bool :=
  match dict_get d k with Some _ => true | None => false end.

(** [list(d.keys())] *)
Definition dict_keys {V} (d : pydict V) : list string := List.map fst d.

(** [x in l] for a list of strings *)
Definition list_in (x : string) (l : list string) : bool :=
  existsb (String.eqb x) l.

(** [repr] of a list of strings, for strings that hold no quote, no
    backslash and no control character, as all model names of the
    catalogues below are. *)
Definition repr_str (s : string) : string := "'" +:+ s +:+ "'".

Definition repr_list (l : list string) : string :=
  "[" +:+ String.concat ", " (List.map repr_str l) +:+ "]".

(** [config.py]: the settings of the providers. *)
Record ProviderSettings := mkProviderSettings {
  openai_api_key : option string;
  gemini_api_key : option string;
  groq_api_key : option string;
  gemini_base_url : string;
  groq_base_url : string
}.

(** An [openai.AsyncOpenAI] client, as the arguments it was built from. *)
Record AsyncOpenAI := mkAsyncOpenAI {
  base_url : option string;
  api_key : string;
  timeout : option Q;
  max_retries : option Z
}.

Record ClientManager := mkClientManager {
  clients : pydict AsyncOpenAI;
  model_to_provider : pydict string;
  provider_models : pydict (list string)
}.

Definition openai_models : list string :=
  ["gpt-4"; "gpt-4-turbo"; "gpt-4o"; "gpt-4o-mini"; "gpt-3.5-turbo"; "gpt-3.5-turbo-16k"].
Definition openai_models_minimal : list string := ["gpt-3.5-turbo"; "gpt-4"].
Definition gemini_models : list string :=
  ["gemini-1.5-pro"; "gemini-1.5-flash"; "gemini-pro"].
Definition gemini_models_minimal : list string := ["gemini-pro"].
Definition groq_models : list string :=
  ["llama3-8b-8192"; "llama3-70b-8192"; "mixtral-8x7b-32768"; "gemma-7b-it";
   "llama2-70b-4096"].
Definition groq_models_minimal : list string := ["llama3-8b-8192"].

Section Setup.
(** Whether [from openai import AsyncOpenAI] succeeds, and whether the
    constructor returns (rather than raises) on given arguments. *)
Variable openai_importable : bool.
Variable init_ok : AsyncOpenAI -> bool.

(** [self.clients[name] = client; self.provider_models[name] = models] *)
Definition register (name : string) (client : AsyncOpenAI) (models : list string)
    (self : ClientManager) : ClientManager :=
  mkClientManager (dict_set (clients self) name client)
                  (model_to_provider self)
                  (dict_set (provider_models self) name models).

(** One provider block of [setup_clients]: nothing without a key; else the
    full construction with the full catalogue; if its constructor raises,
    the minimal construction with the minimal catalogue; if that raises
    too, nothing. *)
Definition setup_provider (name : string) (key : option string)
    (full minimal : string -> AsyncOpenAI) (models models_minimal : list string)
    (self : ClientManager) : ClientManager :=
  match key with
  | Some key =>
      if Py.truthy key then
        if init_ok (full key) then register name (full key) models self
        else if init_ok (minimal key)
             then register name (minimal key) models_minimal self
             else self
      else self
  | None => self
  end.

(** The loop that fills [model_to_provider]. *)
Definition index_models (self : ClientManager) : ClientManager :=
  mkClientManager
    (clients self)
    (fold_left
       (fun index '(provider, models) =>
          fold_left (fun index model => dict_set index model provider) models index)
       (provider_models self) (model_to_provider self))
    (provider_models self).

(** [setup_clients] *)
Definition setup_clients (settings : ProviderSettings) (self : ClientManager)
    : ClientManager :=
  if negb openai_importable then self
  else
    let self :=
      setup_provider "openai" (openai_api_key settings)
        (fun key => mkAsyncOpenAI None key (Some 60%Q) (Some 2))
        (fun key => mkAsyncOpenAI None key None None)
        openai_models openai_models_minimal self in
    let self :=
      setup_provider "gemini" (gemini_api_key settings)
        (fun key => mkAsyncOpenAI (Some (gemini_base_url settings)) key (Some 60%Q) (Some 2))
        (fun key => mkAsyncOpenAI (Some (gemini_base_url settings)) key None None)
        gemini_models gemini_models_minimal self in
    let self :=
      setup_provider "groq" (groq_api_key settings)
        (fun key => mkAsyncOpenAI (Some (groq_base_url settings)) key (Some 60%Q) (Some 2))
        (fun key => mkAsyncOpenAI (Some (groq_base_url settings)) key None None)
        groq_models groq_models_minimal self in
    index_models self.

(** [ClientManager()] *)
Definition new (settings : ProviderSettings) : ClientManager :=
  setup_clients settings (mkClientManager [] [] []).

End Setup.

(** [get_client_for_model].  In the first branch [preferred_provider] is a
    string that is not empty. *)
Definition get_client_for_model (self : ClientManager) (model : string)
    (preferred_provider : option string) : outcome (AsyncOpenAI * string) :=
  if Py.truthy_opt preferred_provider then
    let preferred_provider := default "" preferred_provider in
    match dict_get (clients self) preferred_provider with
    | Some client =>
        if list_in model (default [] (dict_get (provider_models self) preferred_provider))
        then Ok (client, preferred_provider)
        else
          let available := default [] (dict_get (provider_models self) preferred_provider) in
          Raise (HTTPException 400
                   ("Model '" +:+ model +:+ "' not available for provider '"
                    +:+ preferred_provider +:+ "'. Available: " +:+ repr_list available))
    | None =>
        Raise (HTTPException 400
                 ("Provider '" +:+ preferred_provider +:+ "' not configured or available"))
    end
  else
    let provider := dict_get (model_to_provider self) model in
    match (if Py.truthy_opt provider
           then dict_get (clients self) (default "" provider) else None) with
    | Some client => Ok (client, default "" provider)
    | None =>
        let available_models := dict_keys (model_to_provider self) in
        Raise (HTTPException 400
                 ("Model '" +:+ model +:+ "' not available. Available models: "
                  +:+ repr_list available_models))
    end.

(** [get_available_models] *)
Definition get_available_models (self : ClientManager) : pydict (list string) :=
  List.filter (fun pm => dict_in (fst pm) (clients self)) (provider_models self).

(** [is_provider_available] *)
Definition is_provider_available (self : ClientManager) (provider : string) : bool :=
  dict_in provider (clients self).

(** [get_model_provider] *)
Definition get_model_provider (self : ClientManager) (model : string) : option string :=
  dict_get (model_to_provider self) model.

End clients.

(** ** [api/auth.py], the route that creates keys *)

Module api_keys.
Section Routes.
Context `{Env}.

(** [POST /v1/api-keys/]: any exception of the manager, the validation
    error of the response included, becomes a 500. *)
Definition create_api_key (request : APIKeyRequest) (token_urlsafe uuid_hex : string)
    (now : datetime) : M APIKeyResponse :=
  try_except
    (w <- get_world ;;
     let redis_client := redis_client w in
     let key_manager := utils_auth.mkManager redis_client in
     api_key <- utils_auth.create_api_key key_manager request token_urlsafe uuid_hex now ;;
     ret api_key)
    (fun e => raise (HTTPException 500 ("Failed to create API key: " +:+ exn_str e))).

End Routes.
End api_keys.

(** ** [api/models.py] *)

Module models_api.

Record ModelInfo := mkModelInfo {
  id : string;
  object : string;
  provider : string;
  owned_by : string
}.

Section Routes.
Context `{Env}.
(** The module-level [client_manager] of [providers/clients.py]. *)
Variable client_manager : clients.ClientManager.

(** [GET /v1/models/] *)
Definition list_models (request : dependencies.Request)
    (authorization api_key : option string) (now : datetime) : M (list ModelInfo) :=
  current_key <- dependencies.get_current_api_key request authorization api_key now ;;
  try_except
    (let available_models := clients.get_available_models client_manager in
     let models_list :=
       flat_map (fun '(provider, model_list) =>
                   List.map (fun model => mkModelInfo model "model" provider provider)
                            model_list)
                available_models in
     ret models_list)
    (fun e => raise (HTTPException 500 ("Failed to list models: " +:+ exn_str e))).

(** [GET /v1/models/{model_id}] *)
Definition get_model_info (model_id : string) (request : dependencies.Request)
    (authorization api_key : option string) (now : datetime) : M ModelInfo :=
  current_key <- dependencies.get_current_api_key request authorization api_key now ;;
  try_except
    (let provider := clients.get_model_provider client_manager model_id in
     if negb (Py.truthy_opt provider) then
       let available_models :=
         clients.dict_keys (clients.model_to_provider client_manager) in
       raise (HTTPException 404
                ("Model '" +:+ model_id +:+ "' not found. Available models: "
                 +:+ clients.repr_list available_models))
     else
       let provider := default "" provider in
       ret (mkModelInfo model_id "model" provider provider))
    (fun e =>
       if is_http e then raise e
       else raise (HTTPException 500 ("Failed to get model info: " +:+ exn_str e))).

End Routes.
End models_api.

(** ** [api/chat.py], the route *)

Module chat_api.

(** [schemas.py] *)
Record ChatMessage := mkChatMessage { role : string; content : string }.

Record ChatCompletionRequest := mkChatCompletionRequest {
  model : string;
  messages : list ChatMessage;
  max_tokens : option Z;
  temperature : option Q;
  top_p : option Q;
  stream : option bool;
  provider : option string
}.

Record ChatCompletionChoice := mkChatCompletionChoice {
  index : Z;
  message : ChatMessage;
  finish_reason : string
}.

Record ChatCompletionUsage := mkChatCompletionUsage {
  prompt_tokens : Z;
  completion_tokens : Z;
  total_tokens : Z
}.

Record ChatCompletionResponse := mkChatCompletionResponse {
  id : string;
  object : string;
  created : Z;
  response_model : string;
  response_provider : string;
  choices : list ChatCompletionChoice;
  usage : ChatCompletionUsage
}.

(** The dictionary [openai_request]; the entry [top_p] is absent when
    [openai_top_p] is [None]. *)
Record OpenAIRequest := mkOpenAIRequest {
  openai_model : string;
  openai_messages : list (string * string);   (* role, content *)
  openai_max_tokens : option Z;
  openai_temperature : option Q;
  openai_stream : option bool;
  openai_top_p : option Q
}.

(** The upstream's answer to a request that is not streamed (OpenAI client
    types): message contents and finish reasons may be missing, and so may
    the usage. *)
Record ChatCompletionMessage := mkChatCompletionMessage {
  upstream_role : string;
  upstream_content : option string
}.

Record UpstreamChoice := mkUpstreamChoice {
  upstream_index : Z;
  upstream_message : ChatCompletionMessage;
  upstream_finish_reason : option string
}.

Record ChatCompletion := mkChatCompletion {
  upstream_id : string;
  upstream_created : Z;
  upstream_model : string;
  upstream_choices : list UpstreamChoice;
  upstream_usage : option chat.CompletionUsage
}.

(** The result of awaiting [client.chat.completions.create] on a request
    that is not streamed; [e] is the text of the exception. *)
Inductive CompletionResult :=
| CompletionRaises (e : string)
| CompletionReturns (response : ChatCompletion).

(** What the route hands back: a [StreamingResponse] (with everything its
    generator yields) or the response object. *)
Inductive Response :=
| Streaming (body : list string)
| Completed (response : ChatCompletionResponse).

(** One element of the list comprehension that converts the choices:
    [ChatMessage] and [ChatCompletionChoice] refuse [None] for [content]
    and [finish_reason]. *)
Definition convert_choice (choice : UpstreamChoice) : option ChatCompletionChoice :=
  match upstream_content (upstream_message choice), upstream_finish_reason choice with
  | Some content, Some finish_reason =>
      Some (mkChatCompletionChoice
              (upstream_index choice)
              (mkChatMessage (upstream_role (upstream_message choice)) content)
              finish_reason)
  | _, _ => None
  end.

Fixpoint convert_choices (l : list UpstreamChoice) : option (list ChatCompletionChoice) :=
  match l with
  | [] => Some []
  | choice :: l' =>
      match convert_choice choice with
      | Some c =>
          match convert_choices l' with
          | Some cs => Some (c :: cs)
          | None => None
          end
      | None => None
      end
  end.

Section Routes.
Context `{Env}.
(** The module-level [client_manager], and the upstream: what awaiting
    [client.chat.completions.create] gives for a request that is not
    streamed, and for one that is. *)
Variable client_manager : clients.ClientManager.
Variable create : clients.AsyncOpenAI -> OpenAIRequest -> CompletionResult.
Variable create_stream : clients.AsyncOpenAI -> OpenAIRequest -> chat.CreateResult.

Definition openai_request_of (request : ChatCompletionRequest) : OpenAIRequest :=
  mkOpenAIRequest (model request)
    (List.map (fun msg => (role msg, content msg)) (messages request))
    (max_tokens request) (temperature request) (stream request) (top_p request).

(** [POST /v1/chat/completions].  The dependency runs first.  An exception
    of the upstream is not an [HTTPException]; it is written as a
    [ValueError] carrying its text, and so is the [AttributeError] of
    [response.usage.prompt_tokens] on a missing usage.  With a missing
    usage [log_usage] raises inside its own [try], which swallows it.  The
    generator of a streamed answer runs when the response is sent; it
    raises nothing. *)
Definition create_chat_completion (request : ChatCompletionRequest)
    (http_request : dependencies.Request) (authorization api_key : option string)
    (uuid_hex : string) (now : datetime) : M Response :=
  current_key <- dependencies.get_current_api_key http_request authorization api_key now ;;
  try_except
    (match clients.get_client_for_model client_manager (model request) (provider request) with
     | Raise e => raise e
     | Ok (client, provider) =>
         let openai_request := openai_request_of request in
         if default false (stream request) then
           body <- chat.stream_chat_completion (create_stream client openai_request)
                     (openai_model openai_request) provider
                     (APIKey.id (columns current_key)) uuid_hex now ;;
           ret (Streaming body)
         else
           match create client openai_request with
           | CompletionRaises e => raise (ValueError e)
           | CompletionReturns response =>
               match upstream_usage response with
               | Some usage =>
                   chat.log_usage (APIKey.id (columns current_key)) provider
                     (model request) (chat.UsageObj usage) uuid_hex now
               | None => ret tt
               end ;;;
               match convert_choices (upstream_choices response) with
               | None => raise ValidationError
               | Some choices =>
                   match upstream_usage response with
                   | None =>
                       raise (ValueError
                                "'NoneType' object has no attribute 'prompt_tokens'")
                   | Some usage =>
                       ret (Completed
                              (mkChatCompletionResponse
                                 (upstream_id response) "chat.completion"
                                 (upstream_created response) (upstream_model response)
                                 provider choices
                                 (mkChatCompletionUsage
                                    (chat.prompt_tokens usage)
                                    (chat.completion_tokens usage)
                                    (chat.total_tokens usage))))
                   end
               end
           end
     end)
    (fun e =>
       if is_http e then raise e
       else raise (HTTPException 500 ("Chat completion failed: " +:+ exn_str e))).

End Routes.
End chat_api.

(** ** [api/usage.py] *)

Module usage_api.

(** [schemas.py] *)
Record ProviderUsage := mkProviderUsage {
  requests : Z;
  tokens : Z;
  cost : Q
}.

Record UsageResponse := mkUsageResponse {
  api_key_id : string;
  total_requests : Z;
  total_tokens : Z;
  total_cost : Q;
  provider_breakdown : gmap string ProviderUsage
}.

(** [db.query(UsageLog).filter(UsageLog.api_key_id == key_id).all()]
    (the read log of the world records the reads of [api_keys] only). *)
Definition query_logs_by_key (key_id : string) : M (list UsageLog.t) :=
  fun w => (Ok (List.filter (fun l => String.eqb (UsageLog.api_key_id l) key_id)
                            (usage_logs w)), w).

(** One row added to its group of [GROUP BY provider], with the aggregates
    [count(id)], [sum(tokens_used)] and [sum(cost)]. *)
Definition add_to_group (stats : gmap string ProviderUsage) (l : UsageLog.t)
    : gmap string ProviderUsage :=
  let s := default (mkProviderUsage 0 0 0%Q) (stats !! UsageLog.provider l) in
  <[UsageLog.provider l :=
      mkProviderUsage (requests s + 1) (tokens s + UsageLog.tokens_used l)
                      (cost s + UsageLog.cost l)%Q]> stats.

(** The grouped query together with the loop that writes
    [provider_breakdown]: one entry per provider of the key's rows. *)
Definition query_provider_stats (key_id : string) : M (gmap string ProviderUsage) :=
  fun w => (Ok (fold_left add_to_group
                  (List.filter (fun l => String.eqb (UsageLog.api_key_id l) key_id)
                               (usage_logs w)) ∅), w).

Section Routes.
Context `{Env}.

(** [GET /v1/usage/]; the columns [tokens_used] and [cost] of a row are
    never [NULL] here, so [x or 0] is [x]. *)
Definition get_usage (request : dependencies.Request)
    (authorization api_key : option string) (now : datetime) : M UsageResponse :=
  api_key <- dependencies.verify_api_key request authorization api_key now ;;
  try_except
    (logs <- query_logs_by_key (APIKey.id (columns api_key)) ;;
     let total_requests := Z.of_nat (List.length logs) in
     let total_tokens := fold_left Z.add (List.map UsageLog.tokens_used logs) 0 in
     let total_cost := fold_left Qplus (List.map UsageLog.cost logs) 0%Q in
     provider_breakdown <- query_provider_stats (APIKey.id (columns api_key)) ;;
     ret (mkUsageResponse (APIKey.id (columns api_key)) total_requests total_tokens
            total_cost provider_breakdown))
    (fun e => raise (HTTPException 500 ("Failed to get usage stats: " +:+ exn_str e))).

(** [GET /v1/usage/summary], as the values of ["api_key_id"],
    ["rate_limit"] and ["current_usage"]. *)
Definition get_usage_summary (request : dependencies.Request)
    (authorization api_key : option string) (now : datetime) : M (string * Z * Z) :=
  api_key <- dependencies.verify_api_key request authorization api_key now ;;
  ret (APIKey.id (columns api_key), APIKey.rate_limit (columns api_key),
       APIKey.usage_count (columns api_key)).

End Routes.
End usage_api.

(** ** A small environment and small worlds to run the code on *)

Module Demo.

(** A stand-in for SHA-256 that is visibly injective. *)
Definition digest (s : string) : string := "sha256(" +:+ s +:+ ")".

Definition alice_claims : payload :=
  mkPayload (Some "ak_alice") (Some "alice") (Some 0) (Some 86400)
            (Some "jti-1") (Some "access").

(** A decoder that knows one token, ["alice.jwt"], signed with the default
    secret and expiring at time 86400; everything else is invalid. *)
Definition decode (token key : string) (algorithms : list string)
    (now : datetime) : decode_result :=
  if String.eqb token "alice.jwt" then
    if String.eqb key (secret_key default_settings) then
      if now <? 86400 then Decoded alice_claims else ExpiredSignatureError
    else InvalidTokenError
  else InvalidTokenError.

Definition encode (p : payload) (key alg : string) : string := "alice.jwt".

Fixpoint join (sep : string) (l : list string) : string :=
  match l with
  | [] => ""
  | [x] => x
  | x :: l' => x +:+ sep +:+ join sep l'
  end.

Definition quote (s : string) : string :=
  String (ascii_of_nat 34) s +:+ String (ascii_of_nat 34) EmptyString.

(** A JSON printer without escapes. *)
Fixpoint dumps (j : json) : string :=
  match j with
  | JNull => "null"
  | JStr s => quote s
  | JInt n => DecimalString.NilZero.string_of_int (Z.to_int n)
  | JArr items => "[" +:+ join ", " (List.map dumps items) +:+ "]"
  | JObj fields =>
      "{" +:+ join ", " (List.map (fun kv => quote (fst kv) +:+ ": " +:+ dumps (snd kv)) fields)
          +:+ "}"
  end.

#[export] Instance env : Env :=
  {| settings := default_settings;
     sha256_hexdigest := digest;
     jwt_encode := encode;
     jwt_decode := decode;
     json_dumps := dumps |}.

(** An upstream that sends one chunk and then fails. *)
Definition broken_stream : chat.CreateResult :=
  chat.CreateReturns
    (chat.StreamChunk
       (chat.mkChunk "chunk_1" 0 "gpt-4"
          [chat.mkChoice 0 (chat.mkDelta None (Some "Hel")) None] None)
       (chat.StreamError "connection reset")).

Definition alice_secret : string := "llm-router-alice-secret".

Definition alice_row (active : bool) (count : Z) : APIKey.t :=
  APIKey.mk "ak_alice" (digest alice_secret) "alice" (Some "") (Some 0) None active 1000 count.

(** Alice's key is active and nothing is cached. *)
Definition active_world : world := mkWorld [alice_row true 0] [] ∅ true [].

(** Alice's key has been deactivated; the cache still says ["True"]. *)
Definition revoked_world : world :=
  mkWorld [alice_row false 0] []
          {[ "api_key:" +:+ digest alice_secret := (3600, "ak_alice:alice:True") ]}
          true [].

(** Alice's key is active in the store; the cache entry says ["False"]. *)
Definition false_entry_world : world :=
  mkWorld [alice_row true 0] []
          {[ "api_key:" +:+ digest alice_secret := (3600, "ak_alice:alice:False") ]}
          true [].

End Demo.

(** ** Specification-side definitions *)

(** The pricing lookup as the specification words it: the exact model entry
    under the request's provider; else that provider's default entry; else
    the global default rate. *)
Module PricingSpec.

Definition global_default_rate : Q := 0.001%Q.

Definition rate (provider model : string) : Q :=
  match chat.pricing !! provider with
  | Some table =>
      match table !! model with
      | Some exact => exact
      | None =>
          match table !! "default" with
          | Some provider_default => provider_default
          | None => global_default_rate
          end
      end
  | None => global_default_rate
  end.

Definition cost (provider model : string) (total_tokens : Z) : Q :=
  (inject_Z total_tokens / 1000 * rate provider model)%Q.

End PricingSpec.

(** What the gateway receives from upstream before the stream ends or
    fails, and the failure, if any. *)
Module StreamSpec.
Import chat.

Fixpoint received (s : AsyncStream) : list Chunk :=
  match s with
  | StreamEnd => []
  | StreamChunk c rest => c :: received rest
  | StreamError _ => []
  end.

Fixpoint failure (s : AsyncStream) : option string :=
  match s with
  | StreamEnd => None
  | StreamChunk _ rest => failure rest
  | StreamError e => Some e
  end.

Definition chunks_of (create : CreateResult) : list Chunk :=
  match create with
  | CreateRaises _ => []
  | CreateReturns s => received s
  end.

Definition failure_of (create : CreateResult) : option string :=
  match create with
  | CreateRaises e => Some e
  | CreateReturns s => failure s
  end.

Definition has_choices (c : Chunk) : bool :=
  match choices c with [] => false | _ :: _ => true end.

(** The chunks that are forwarded to the caller. *)
Definition forwarded (create : CreateResult) : list Chunk :=
  List.filter has_choices (chunks_of create).

(** The [total_tokens] figures carried by forwarded chunks. *)
Definition forwarded_totals (create : CreateResult) : list Z :=
  omap (fun c => total_tokens <$> usage c) (forwarded create).

(** The same upstream result with every chunk that has no choices
    removed. *)
Fixpoint drop_empty (s : AsyncStream) : AsyncStream :=
  match s with
  | StreamEnd => StreamEnd
  | StreamChunk c rest =>
      if has_choices c then StreamChunk c (drop_empty rest) else drop_empty rest
  | StreamError e => StreamError e
  end.

(** What the caller reads, written out character by character and without
    the functions of [chat]: every element of the body is one server-sent
    event, the text [data: ], a payload and an empty line. *)
Definition line_feed : string := String (ascii_of_nat 10) EmptyString.

Definition sse_event (payload : string) : string :=
  "data: " +:+ payload +:+ line_feed +:+ line_feed.

(** The sentinel completion marker. *)
Definition sentinel : string := sse_event "[DONE]".

(** The in-band error chunk: the JSON text of an object whose one entry,
    [error], is the text of the failure. *)
Definition error_chunk `{Env} (e : string) : string :=
  sse_event (json_dumps (JObj [ ("error", JStr e) ])).

Definition string_or_null (o : option string) : json :=
  match o with Some s => JStr s | None => JNull end.

Definition choice_object (c : Choice) : json :=
  JObj [ ("index", JInt (index c));
         ("delta", JObj [ ("role", string_or_null (role (delta c)));
                          ("content", string_or_null (content (delta c))) ]);
         ("finish_reason", string_or_null (finish_reason c)) ].

(** A received chunk as it is passed on: the JSON text of an object with
    the chunk's own [id], [created], [model] and choices, and the name of
    the provider. *)
Definition chunk_object (provider : string) (c : Chunk) : json :=
  JObj [ ("id", JStr (chunk_id c));
         ("object", JStr "chat.completion.chunk");
         ("created", JInt (created c));
         ("model", JStr (chunk_model c));
         ("provider", JStr provider);
         ("choices", JArr (List.map choice_object (choices c))) ].

Definition forwarded_chunk `{Env} (provider : string) (c : Chunk) : string :=
  sse_event (json_dumps (chunk_object provider c)).

(** [json.dumps] writes an object as a text that opens with a brace. *)
Definition dumps_objects_in_braces `{Env} : Prop :=
  forall fields, Py.startswith (json_dumps (JObj fields)) "{" = true.

End StreamSpec.

(** The number of occurrences of a character in a string. *)
Fixpoint count_char (c : ascii) (s : string) : nat :=
  match s with
  | EmptyString => O
  | String c' s' => (if Ascii.eqb c' c then 1 else 0) + count_char c s'
  end.

(** The store lookup of [verify_api_key]: by hash, active rows only. *)
Definition active_row_with_hash (h : string) (w : world) : option APIKey.t :=
  List.find (fun r => String.eqb (APIKey.key_hash r) h && APIKey.is_active r) (api_keys w).

Section KeySpec.
Context `{Env}.

(** Every stored hash is the digest of one of the [secrets], and every
    cache entry is for the hash of a stored row.  This holds of the empty
    store and is kept by [create_api_key] and [verify_api_key]. *)
Definition issued_from (secrets : list string) (w : world) : Prop :=
  (forall r, In r (api_keys w) ->
     exists s, In s secrets /\ APIKey.key_hash r = sha256_hexdigest s)
  /\ (forall h, is_Some (redis_store w !! utils_auth.cache_key h) ->
        exists r, In r (api_keys w) /\ APIKey.key_hash r = h).

(** The row [create_api_key] inserts. *)
Definition new_row (request : APIKeyRequest) (token_urlsafe uuid_hex : string)
    (now : datetime) : APIKey.t :=
  APIKey.mk ("ak_" +:+ Py.slice_to uuid_hex 16)
            (sha256_hexdigest (api_key_prefix settings +:+ token_urlsafe))
            (req_name request) (req_description request) (Some now) None true 1000 0.

End KeySpec.

(** Several callers presenting the same key. *)

(** A caller's request passes through the two manager calls that the
    credential dependency makes, one after the other: [load] (the call of
    [verify_api_key] and the two checks on its result) and [commit] (the
    call of [increment_usage]).  Callers have sessions of their own, so each
    holds its own instance of the row it loaded; a schedule says in which
    order the calls of the callers reach the store. *)
Module Callers.
Section Callers.
Context `{Env}.

Definition load (api_key_value : string) : M APIKeyObj :=
  w <- get_world ;;
  let redis_client := redis_client w in
  let key_manager := utils_auth.mkManager redis_client in
  api_key_record <- utils_auth.verify_api_key key_manager api_key_value ;;
  match api_key_record with
  | None => raise (HTTPException 401 "Invalid or expired API key")
  | Some api_key_record =>
      if negb (APIKey.is_active (columns api_key_record)) then
        raise (HTTPException 401 "API key is disabled")
      else ret api_key_record
  end.

Definition commit (api_key_record : APIKeyObj) (now : datetime) : M APIKeyObj :=
  w <- get_world ;;
  let key_manager := utils_auth.mkManager (redis_client w) in
  utils_auth.increment_usage key_manager api_key_record now.

Inductive event :=
| Load (caller : nat)
| Commit (caller : nat).

(** Run a schedule in which every call succeeds: the records handed to the
    handlers, in the order of the commits, and the final world.  [None] if
    some call fails or a caller commits before it has loaded. *)
Fixpoint run_schedule (key : string) (now : datetime) (schedule : list event)
    (held : gmap nat APIKeyObj) (w : world) : option (list APIKeyObj * world) :=
  match schedule with
  | [] => Some ([], w)
  | Load i :: rest =>
      match load key w with
      | (Ok r, w1) => run_schedule key now rest (<[i := r]> held) w1
      | (Raise _, _) => None
      end
  | Commit i :: rest =>
      match held !! i with
      | Some r =>
          match commit r now w with
          | (Ok r', w1) =>
              match run_schedule key now rest held w1 with
              | Some (rs, w2) => Some (r' :: rs, w2)
              | None => None
              end
          | (Raise _, _) => None
          end
      | None => None
      end
  end.

(** [n] callers, numbered from [k], one after the other. *)
Fixpoint sequential (k n : nat) : list event :=
  match n with
  | O => []
  | S n' => Load k :: Commit k :: sequential (S k) n'
  end.

(** The stored [usage_count] of the key with the given id. *)
Definition usage_of (key_id : string) (w : world) : option Z :=
  APIKey.usage_count <$> List.find (fun r => String.eqb (APIKey.id r) key_id) (api_keys w).

End Callers.
End Callers.

(** ** Definitions used to state the further properties *)

(** The claims [create_token] signs. *)
Definition issued_claims (key_id name : string) (now expiry : datetime)
    (token_hex : string) : payload :=
  mkPayload (Some key_id) (Some name) (Some now) (Some expiry) (Some token_hex)
            (Some "access").

(** No white space at all in a string. *)
Fixpoint no_space (s : string) : bool :=
  match s with
  | EmptyString => true
  | String c s' => negb (Py.isspace c) && no_space s'
  end.

(** The fast path of [verify_api_key], read off the cache: the key id of
    the entry for hash [h] when the manager has a Redis client and the
    entry splits into three parts of which the third is ["True"]. *)
Definition cache_hit (has_redis : bool) (h : string) (store : gmap string (Z * string))
    : option string :=
  if has_redis then
    match store !! ("api_key:" +:+ h) with
    | Some (_, cached) =>
        if Py.truthy cached then
          match Py.unpack3 (Py.split ":" 2 cached) with
          | Some (key_id, _, flag) => if String.eqb flag "True" then Some key_id else None
          | None => None
          end
        else None
    | None => None
    end
  else None.

(** The key value that the dependency extracts from what a request
    presents, when it extracts one that is not empty. *)
Definition presented_key `{Env} (request : dependencies.Request)
    (authorization api_key : option string) : option string :=
  match dependencies.find_auth_header request authorization api_key with
  | Some h =>
      if Py.truthy h then
        match dependencies.extract_api_key_value h with
        | Some v => if Py.truthy v then Some v else None
        | None => None
        end
      else None
  | None => None
  end.

(** The row that [verify_api_key] returns for a key value: the row with
    the cached id on the fast path, the active row with the hash
    otherwise. *)
Definition looked_up `{Env} (key : string) (w : world) : option APIKey.t :=
  match cache_hit (redis_client w) (sha256_hexdigest key) (redis_store w) with
  | Some key_id => List.find (fun r => String.eqb (APIKey.id r) key_id) (api_keys w)
  | None => active_row_with_hash (sha256_hexdigest key) w
  end.

(** The usage rows of a key, and sums over rows. *)
Definition rows_of (key_id : string) (w : world) : list UsageLog.t :=
  List.filter (fun l => String.eqb (UsageLog.api_key_id l) key_id) (usage_logs w).

Definition sum_tokens (rows : list UsageLog.t) : Z :=
  fold_right (fun l acc => UsageLog.tokens_used l + acc) 0 rows.

(** A sum over the entries of a provider breakdown. *)
Definition sum_over (f : usage_api.ProviderUsage -> Z)
    (m : gmap string usage_api.ProviderUsage) : Z :=
  map_fold (fun _ s acc => acc + f s) 0 m.

(** What a provider block of [setup_clients] leaves of a provider: nothing,
    or a client with the full or with the minimal catalogue. *)
Inductive provider_state :=
| NotSet
| Full (client : clients.AsyncOpenAI)
| Minimal (client : clients.AsyncOpenAI).

Definition placed (name : string) (st : provider_state)
    (models models_minimal : list string) (self : clients.ClientManager)
    : clients.ClientManager :=
  match st with
  | NotSet => self
  | Full client => clients.register name client models self
  | Minimal client => clients.register name client models_minimal self
  end.

(** The manager with the three providers in given states. *)
Definition built (openai gemini groq : provider_state) : clients.ClientManager :=
  clients.index_models
    (placed "groq" groq clients.groq_models clients.groq_models_minimal
       (placed "gemini" gemini clients.gemini_models clients.gemini_models_minimal
          (placed "openai" openai clients.openai_models clients.openai_models_minimal
             (clients.mkClientManager [] [] [])))).

(** [model] is in the catalogue of [provider]. *)
Definition lists (self : clients.ClientManager) (provider model : string) : bool :=
  clients.list_in model (default [] (clients.dict_get (clients.provider_models self) provider)).

(** The row that [log_usage] writes for a usage object. *)
Definition usage_row (key_id provider model : string) (u : chat.CompletionUsage)
    (uuid_hex : string) (now : datetime) : UsageLog.t :=
  UsageLog.mk ("log_" +:+ Py.slice_to uuid_hex 16) key_id provider model
    "/v1/chat/completions" (chat.total_tokens u) (chat.prompt_tokens u)
    (chat.completion_tokens u)
    (chat.calculate_cost provider model (chat.UsageObj u)) None (Some now).

(** No usage row has the id that [log_usage] would give with [uuid_hex]. *)
Definition fresh_log_id (uuid_hex : string) (w : world) : bool :=
  negb (existsb (fun l => String.eqb (UsageLog.id l) ("log_" +:+ Py.slice_to uuid_hex 16))
                (usage_logs w)).

(** A manager, an upstream and requests to run the chat route on: OpenAI
    and Groq are configured; the upstream answers ["gpt-4o"], answers
    ["gpt-4"] with a choice that has no content, and fails otherwise. *)
Module DemoChat.

Definition provider_settings : clients.ProviderSettings :=
  clients.mkProviderSettings (Some "sk-openai") None (Some "gsk-groq")
    "https://generativelanguage.googleapis.com/v1" "https://api.groq.com/openai/v1".

Definition manager : clients.ClientManager :=
  clients.new true (fun _ => true) provider_settings.

Definition answer (content : option string) : chat_api.ChatCompletion :=
  chat_api.mkChatCompletion "chatcmpl-1" 100 "gpt-4o-2024"
    [chat_api.mkUpstreamChoice 0
       (chat_api.mkChatCompletionMessage "assistant" content) (Some "stop")]
    (Some (chat.mkUsage 30 10 20)).

Definition create (client : clients.AsyncOpenAI) (request : chat_api.OpenAIRequest)
    : chat_api.CompletionResult :=
  if String.eqb (chat_api.openai_model request) "gpt-4o"
  then chat_api.CompletionReturns (answer (Some "Hello"))
  else if String.eqb (chat_api.openai_model request) "gpt-4"
       then chat_api.CompletionReturns (answer None)
       else chat_api.CompletionRaises "upstream down".

Definition create_stream (client : clients.AsyncOpenAI) (request : chat_api.OpenAIRequest)
    : chat.CreateResult :=
  chat.CreateRaises "upstream down".

Definition ask (model : string) (provider : option string) : chat_api.ChatCompletionRequest :=
  chat_api.mkChatCompletionRequest model [chat_api.mkChatMessage "user" "Hi"]
    (Some 150) (Some 0.7%Q) (Some 1%Q) (Some false) provider.

(** The usage row of Alice's first completed request, and a world that
    holds it. *)
Definition row : UsageLog.t :=
  usage_row "ak_alice" "openai" "gpt-4o" (chat.mkUsage 30 10 20) "0123456789abcdef0123" 5.

Definition metered_world : world := set_usage_logs [row] Demo.active_world.

(** A store with nothing in it, and a Redis client. *)
Definition empty_world : world := mkWorld [] [] ∅ true [].

(** A second key, with a usage row of its own, and a world in which both
    keys have usage rows. *)
Definition bob_secret : string := "llm-router-bob-secret".

Definition bob_row : APIKey.t :=
  APIKey.mk "ak_bob" (Demo.digest bob_secret) "bob" (Some "") (Some 0) None true 1000 0.

Definition bob_usage : UsageLog.t :=
  usage_row "ak_bob" "groq" "llama3-8b-8192" (chat.mkUsage 500 200 300)
    "fedcba98765432100123" 6.

Definition shared_world : world :=
  mkWorld [Demo.alice_row true 0; bob_row] [bob_usage; row; bob_usage] ∅ true [].

End DemoChat.

(** One call of the API, with what the environment contributes to it
    (random values, the client manager, the upstream). *)
Inductive api_call :=
| CreateKey (request : APIKeyRequest) (token_urlsafe uuid_hex : string)
| DeleteKey (key_id : string) (request : dependencies.Request)
    (authorization api_key : option string)
| ExchangeToken (request : token_routes.TokenRequest) (token_hex : string)
| ExchangeTokenForm (api_key : string) (expires_in_hours : Z) (token_hex : string)
| RefreshToken (token token_hex : string)
| VerifyToken (token : string)
| RevokeToken (token : string)
| ChatCompletion (client_manager : clients.ClientManager)
    (create : clients.AsyncOpenAI -> chat_api.OpenAIRequest -> chat_api.CompletionResult)
    (create_stream : clients.AsyncOpenAI -> chat_api.OpenAIRequest -> chat.CreateResult)
    (request : chat_api.ChatCompletionRequest) (http_request : dependencies.Request)
    (authorization api_key : option string) (uuid_hex : string)
| ListModels (client_manager : clients.ClientManager) (request : dependencies.Request)
    (authorization api_key : option string)
| GetModelInfo (client_manager : clients.ClientManager) (model_id : string)
    (request : dependencies.Request) (authorization api_key : option string)
| GetUsage (request : dependencies.Request) (authorization api_key : option string)
| GetUsageSummary (request : dependencies.Request) (authorization api_key : option string).

(** The world after a call served at time [now]. *)
Definition run_call `{Env} (call : api_call) (now : datetime) (w : world) : world :=
  match call with
  | CreateKey request token_urlsafe uuid_hex =>
      snd (api_keys.create_api_key request token_urlsafe uuid_hex now w)
  | DeleteKey key_id request authorization api_key =>
      snd (api_auth.delete_api_key key_id request authorization api_key now w)
  | ExchangeToken request token_hex =>
      snd (token_routes.create_token request token_hex now w)
  | ExchangeTokenForm api_key expires_in_hours token_hex =>
      snd (token_routes.create_token_form api_key expires_in_hours token_hex now w)
  | RefreshToken token token_hex =>
      snd (token_routes.refresh_token token token_hex now w)
  | VerifyToken token => snd (token_auth.verify_token token now w)
  | RevokeToken token => snd (token_auth.revoke_token token now w)
  | ChatCompletion client_manager create create_stream request http_request
      authorization api_key uuid_hex =>
      snd (chat_api.create_chat_completion client_manager create create_stream request
             http_request authorization api_key uuid_hex now w)
  | ListModels client_manager request authorization api_key =>
      snd (models_api.list_models client_manager request authorization api_key now w)
  | GetModelInfo client_manager model_id request authorization api_key =>
      snd (models_api.get_model_info client_manager model_id request authorization
             api_key now w)
  | GetUsage request authorization api_key =>
      snd (usage_api.get_usage request authorization api_key now w)
  | GetUsageSummary request authorization api_key =>
      snd (usage_api.get_usage_summary request authorization api_key now w)
  end.

(** Calls served one after the other, each at its time. *)
Definition run_calls `{Env} (calls : list (api_call * datetime)) (w : world) : world :=
  fold_left (fun w c => run_call (fst c) (snd c) w) calls w.

(** How the tables of [w'] come from those of [w] when rows are only ever
    added, and rewritten in place without touching id, hash or name and
    without setting [is_active] back to true. *)
Definition tables_grow (w w' : world) : Prop :=
  exists (f : APIKey.t -> APIKey.t) (new_keys : list APIKey.t) (new_logs : list UsageLog.t),
    api_keys w' = List.map f (api_keys w) ++ new_keys
    /\ (forall r, APIKey.id (f r) = APIKey.id r
                  /\ APIKey.key_hash (f r) = APIKey.key_hash r
                  /\ APIKey.name (f r) = APIKey.name r
                  /\ (APIKey.is_active (f r) = true -> APIKey.is_active r = true))
    /\ (forall n r, In n new_keys -> In r (api_keys w) -> APIKey.id n <> APIKey.id r)
    /\ usage_logs w' = usage_logs w ++ new_logs.

(** Calls that follow the deactivation of Alice's key: a key is created,
    and Alice's secret is presented twice. *)
Definition calls_after_deactivation : list (api_call * datetime) :=
  [(CreateKey (mkAPIKeyRequest "bob" (Some "d")) "tok" "0123456789abcdef0123", 7);
   (GetUsage (dependencies.mkRequest []) None (Some Demo.alice_secret), 8);
   (ExchangeToken (token_routes.mkTokenRequest Demo.alice_secret (Some 1)) "jti-9", 9)].

(** * Properties *)

(** Unfold the monad operations and compute. *)
Ltac run := unfold bind, ret, raise, try_except, modify, get_world; simpl.

(** ** Python string methods, on examples *)

Example split_three : Py.split ":" 2 "ak_1:alice:True" = ["ak_1"; "alice"; "True"].
Proof. reflexivity. Qed.

Example split_colon_in_name :
  Py.split ":" 2 "ak_1:a:b:True" = ["ak_1"; "a"; "b:True"].
Proof. reflexivity. Qed.

Example replace_bearer :
  Py.strip (Py.replace "Bearer llm-router-abc " "Bearer " "") = "llm-router-abc".
Proof. reflexivity. Qed.

Example find_prefix : Py.find "Token llm-router-abc" "llm-router-" = Some 6%nat.
Proof. reflexivity. Qed.

(** ** Pricing *)

Example cost_exact_model :
  (chat.calculate_cost "openai" "gpt-4" (chat.UsageDict {[ "total_tokens" := 2000%Z ]})
   == 0.06)%Q.
Proof. vm_compute. reflexivity. Qed.

Example cost_provider_default :
  (chat.calculate_cost "groq" "llama3-8b" (chat.UsageObj (chat.mkUsage 500 100 400))
   == 0.00005)%Q.
Proof. vm_compute. reflexivity. Qed.

Example cost_global_default_listed_provider :
  (chat.calculate_cost "openai" "o1" (chat.UsageObj (chat.mkUsage 3000 1 2)) == 0.003)%Q.
Proof. vm_compute. reflexivity. Qed.

Example cost_global_default_unlisted_provider :
  (chat.calculate_cost "mistral" "default" (chat.UsageObj (chat.mkUsage 3000 1 2)) == 0.003)%Q.
Proof. vm_compute. reflexivity. Qed.


(** ** Streaming *)

Section StreamingProperties.
Context `{Env}.
Import chat StreamSpec.

Lemma last_cons_default {A} (l : list A) (x d d' : A) :
  List.last (x :: l) d = List.last (x :: l) d'.
Proof.
  revert x. induction l as [|y l IH]; intros x; [reflexivity|].
  change (List.last (y :: l) d = List.last (y :: l) d'). apply IH.
Qed.

Lemma last_cons_in {A} (l : list A) (x d : A) : In (List.last (x :: l) d) (x :: l).
Proof.
  revert x. induction l as [|y l IH]; intros x; [now left|].
  right. change (In (List.last (y :: l) d) (y :: l)). apply IH.
Qed.

(** The figure the loop ends with: the last one carried by a forwarded
    chunk, or the initial value. *)
Lemma stream_loop_spec provider s t :
  stream_loop provider s t
  = (List.map (data_line provider) (List.filter has_choices (received s)),
     match failure s with
     | Some e => LoopRaised e
     | None =>
         LoopDone (List.last (omap (fun c => total_tokens <$> usage c)
                                   (List.filter has_choices (received s))) t)
     end).
Proof.
  revert t. induction s as [|c rest IH|e]; intros t; simpl; try reflexivity.
  destruct (choices c) as [|ch chs] eqn:Hc.
  - replace (has_choices c) with false by (unfold has_choices; now rewrite Hc).
    apply IH.
  - replace (has_choices c) with true by (unfold has_choices; now rewrite Hc).
    rewrite IH. simpl. f_equal.
    destruct (failure rest); [reflexivity|]. f_equal.
    destruct (usage c) as [u|]; simpl; [|reflexivity].
    change (list_omap Chunk Z) with (@omap list _ Chunk Z).
    clear IH. destruct (omap _ _) as [|x l]; [reflexivity|].
    apply last_cons_default.
Qed.

Lemma stream_loop_drop_empty provider s t :
  stream_loop provider (drop_empty s) t = stream_loop provider s t.
Proof.
  revert t. induction s as [|c rest IH|e]; intros t; simpl; try reflexivity.
  unfold has_choices. destruct (choices c) as [|ch chs] eqn:Hc; [apply IH|].
  simpl. rewrite Hc, IH. reflexivity.
Qed.

(** [log_usage] swallows its exceptions: it returns normally, and writes at
    most one row. *)
Lemma log_usage_returns key provider model u uuid now w :
  exists w', log_usage key provider model u uuid now w = (Ok tt, w')
    /\ api_keys w' = api_keys w /\ redis_store w' = redis_store w
    /\ (usage_logs w' = usage_logs w
        \/ usage_logs w' =
             usage_logs w ++
               [UsageLog.mk ("log_" +:+ Py.slice_to uuid 16) key provider model
                  "/v1/chat/completions"
                  (usage_field total_tokens "total_tokens" u)
                  (usage_field prompt_tokens "prompt_tokens" u)
                  (usage_field completion_tokens "completion_tokens" u)
                  (calculate_cost provider model u) None (Some now)]).
Proof.
  unfold log_usage, insert_usage_log. run.
  destruct (existsb _ _); simpl; eexists; (split; [reflexivity|]); simpl; auto.
Qed.

Lemma streamed_usage_fields t :
  usage_field total_tokens "total_tokens" (streamed_usage t) = t
  /\ usage_field prompt_tokens "prompt_tokens" (streamed_usage t) = 0
  /\ usage_field completion_tokens "completion_tokens" (streamed_usage t) = t.
Proof. repeat split. Qed.

Lemma object_event_not_sentinel (payload : string) :
  Py.startswith payload "{" = true -> sse_event payload <> sentinel.
Proof.
  unfold Py.startswith. intros Hbrace Heq.
  destruct payload as [|a rest]; [discriminate|].
  change (String.prefix "{" (String a rest))
    with (if ascii_dec "{" a then String.prefix "" rest else false) in Hbrace.
  destruct (ascii_dec "{" a) as [<-|]; [|discriminate].
  cbv in Heq. discriminate.
Qed.

(** C6. For every streaming completion the body delivered to the caller
    is, event by event: the chunks received from upstream that have
    choices, each as the event [data: <JSON text of the chunk>], in the
    order received, followed by exactly one final event, which is the
    in-band error chunk [data: <JSON text of the object with the one entry
    error, the text of the failure>] when the upstream call or the stream
    failed and the sentinel [data: [DONE]] otherwise.  With a [json.dumps]
    that writes objects in braces, neither an error chunk nor a forwarded
    chunk is the sentinel, so the sentinel is in the body exactly when
    nothing failed: a failure is never delivered as a completed or a
    truncated stream. *)
Theorem stream_in_order_then_sentinel_or_error
    (create : CreateResult) (model provider key uuid : string) (now : datetime) (w : world) :
  exists body,
    fst (stream_chat_completion create model provider key uuid now w) = Ok body
    /\ body = List.map (forwarded_chunk provider) (forwarded create)
              ++ [match failure_of create with
                  | Some e => error_chunk e
                  | None => sentinel
                  end]
    /\ (dumps_objects_in_braces ->
        (forall e, error_chunk e <> sentinel)
        /\ (forall c, forwarded_chunk provider c <> sentinel)
        /\ (In sentinel body <-> failure_of create = None)).
Proof.
  eexists. split; [|split; [reflexivity|]].
  - change (forwarded_chunk provider) with (data_line provider).
    change error_chunk with error_line. change sentinel with done_line.
    unfold stream_chat_completion, forwarded.
    destruct create as [e|s]; simpl; [reflexivity|].
    rewrite stream_loop_spec.
    destruct (failure s) as [e|]; simpl; [reflexivity|].
    run. set (t := List.last _ 0).
    destruct (0 <? t); simpl; [|reflexivity].
    destruct (log_usage_returns key provider model (streamed_usage t) uuid now w)
      as (w' & Hlog & _).
    rewrite Hlog. reflexivity.
  - intros Hbraces.
    assert (Herr : forall e, error_chunk e <> sentinel)
      by (intros e; apply object_event_not_sentinel, Hbraces).
    assert (Hfwd : forall c, forwarded_chunk provider c <> sentinel)
      by (intros c; apply object_event_not_sentinel, Hbraces).
    split; [exact Herr|]. split; [exact Hfwd|]. split.
    + intros Hin. apply in_app_or in Hin. destruct Hin as [Hin|[Hlast|[]]].
      * apply in_map_iff in Hin. destruct Hin as (c & Hc & _).
        destruct (Hfwd c Hc).
      * destruct (failure_of create) as [e|]; [|reflexivity].
        destruct (Herr e Hlast).
    + intros ->. apply in_or_app. right. left. reflexivity.
Qed.

(** C10. For every streamed completion: chunks without choices have no
    effect on what is stored, so usage is captured only from chunks whose
    [choices] list is non-empty; the stream writes at most one usage row,
    and a row it writes carries a positive [total_tokens] figure of a
    forwarded chunk as [tokens_used], [prompt_tokens = 0] and
    [completion_tokens = tokens_used]; and when no forwarded chunk carried
    a positive figure, no row is written. *)
Theorem stream_usage_record
    (create : CreateResult) (model provider key uuid : string) (now : datetime) (w : world) :
  let w' := snd (stream_chat_completion create model provider key uuid now w) in
  (forall s, create = CreateReturns s ->
     snd (stream_chat_completion (CreateReturns (drop_empty s)) model provider key uuid now w)
     = w')
  /\ (usage_logs w' = usage_logs w
      \/ exists row t,
           usage_logs w' = usage_logs w ++ [row]
           /\ In t (forwarded_totals create) /\ 0 < t
           /\ UsageLog.tokens_used row = t
           /\ UsageLog.prompt_tokens row = 0
           /\ UsageLog.completion_tokens row = t)
  /\ ((forall t, In t (forwarded_totals create) -> t <= 0) ->
      usage_logs w' = usage_logs w).
Proof.
  cbv zeta. split.
  { intros s ->. unfold stream_chat_completion.
    rewrite stream_loop_drop_empty. reflexivity. }
  unfold stream_chat_completion, forwarded_totals, forwarded.
  destruct create as [e|s]; simpl; [split; auto|].
  rewrite stream_loop_spec.
  destruct (failure s) as [e|]; simpl; [split; auto|].
  run. set (l := omap _ _). set (t := List.last l 0).
  destruct (0 <? t) eqn:Ht; simpl.
  - apply Z.ltb_lt in Ht.
    assert (Hin : In t l).
    { subst t. destruct l as [|x l']; [simpl in Ht; lia|]. apply last_cons_in. }
    destruct (log_usage_returns key provider model (streamed_usage t) uuid now w)
      as (w' & Hlog & _ & _ & Hrows).
    rewrite Hlog. simpl. split.
    + destruct Hrows as [Hrows|Hrows]; [now left|].
      right. eexists _, t. split; [exact Hrows|].
      repeat split; auto.
    + intros Hle. specialize (Hle t Hin). lia.
  - split; auto.
Qed.

End StreamingProperties.

Section StreamingRuns.
#[local] Existing Instance Demo.env.
Import chat StreamSpec.

Lemma demo_dumps_objects_in_braces : dumps_objects_in_braces.
Proof.
  intros fields. unfold Py.startswith. simpl.
  destruct (Demo.join _ _); reflexivity.
Qed.

Lemma stream_failure_is_delivered_in_band_witness :
  exists body,
    fst (stream_chat_completion Demo.broken_stream "gpt-4" "openai" "ak_alice"
           "0123456789abcdef0123" 0 Demo.active_world) = Ok body
    /\ List.length body = 2%nat
    /\ List.last body "" = error_chunk "connection reset"
    /\ ~ In sentinel body.
Proof.
  destruct (stream_in_order_then_sentinel_or_error Demo.broken_stream "gpt-4" "openai"
              "ak_alice" "0123456789abcdef0123" 0 Demo.active_world)
    as (body & Hrun & Hbody & Hshape).
  destruct (Hshape demo_dumps_objects_in_braces) as (_ & _ & Hiff).
  exists body. split; [exact Hrun|].
  split; [rewrite Hbody; reflexivity|].
  split; [rewrite Hbody; reflexivity|].
  intros Hin. apply Hiff in Hin. discriminate Hin.
Defined.

End StreamingRuns.

(** ** Bearer tokens *)

Section TokenProperties.
Context `{Env}.

(** Looking up a key that is missing or inactive finds nothing. *)
Lemma find_active_by_id_none (keys : list APIKey.t) (key_id : string) :
  (forall r, In r keys -> APIKey.id r = key_id -> APIKey.is_active r = false) ->
  List.find (fun r => String.eqb (APIKey.id r) key_id && APIKey.is_active r) keys = None.
Proof.
  intros Hoff. induction keys as [|r keys IH]; [reflexivity|]. simpl.
  destruct (String.eqb_spec (APIKey.id r) key_id) as [Heq|Hne]; simpl.
  - rewrite (Hoff r (or_introl eq_refl) Heq). apply IH.
    intros r' Hr'. apply Hoff. now right.
  - apply IH. intros r' Hr'. apply Hoff. now right.
Qed.

(** [verify_token] only reads. *)
Lemma verify_token_stored token now w :
  stored (snd (tokens.verify_token token now w)) = stored w.
Proof.
  unfold tokens.verify_token.
  destruct (jwt_decode _ _ _ _) as [p| | |]; try reflexivity.
  destruct (sub p) as [key_id|]; [|reflexivity].
  destruct (Py.truthy key_id); [|reflexivity].
  run. unfold query_active_key_by_id.
  destruct (List.find _ _); reflexivity.
Qed.

(** Its result depends on the world through the table of keys only. *)
Lemma verify_token_reads_keys token now w1 w2 :
  api_keys w1 = api_keys w2 ->
  fst (tokens.verify_token token now w1) = fst (tokens.verify_token token now w2).
Proof.
  intros Hk. unfold tokens.verify_token.
  destruct (jwt_decode _ _ _ _) as [p| | |]; try reflexivity.
  destruct (sub p) as [key_id|]; [|reflexivity].
  destruct (Py.truthy key_id); [|reflexivity].
  run. unfold query_active_key_by_id. rewrite Hk.
  destruct (List.find _ _); reflexivity.
Qed.

Lemma revoke_token_stored token now w :
  stored (snd (tokens.revoke_token token now w)) = stored w.
Proof.
  unfold tokens.revoke_token. run.
  pose proof (verify_token_stored token now w) as Hs.
  destruct (tokens.verify_token token now w) as [[r|e] w']; exact Hs.
Qed.

Lemma revoke_route_stored token now w :
  stored (snd (token_auth.revoke_token token now w)) = stored w.
Proof.
  unfold token_auth.revoke_token. run.
  pose proof (revoke_token_stored token now w) as Hs.
  destruct (tokens.revoke_token token now w) as [[[|]|e] w']; simpl; try exact Hs.
  destruct (is_http e); exact Hs.
Qed.

Lemma stored_api_keys w1 w2 : stored w1 = stored w2 -> api_keys w1 = api_keys w2.
Proof. unfold stored. congruence. Qed.

(** The route surfaces a failed verification as one and the same error. *)
Lemma verify_route_of_none token now w :
  fst (tokens.verify_token token now w) = Ok None ->
  fst (token_auth.verify_token token now w)
  = Raise (HTTPException 401 "Invalid or expired token").
Proof.
  unfold token_auth.verify_token. run.
  destruct (tokens.verify_token token now w) as [[[d|]|e] w']; simpl; congruence.
Qed.

Lemma verify_token_rejected token now w :
  (forall p, jwt_decode token (secret_key settings) [tokens.algorithm] now <> Decoded p) ->
  fst (tokens.verify_token token now w) = Ok None.
Proof.
  intros Hrej. unfold tokens.verify_token.
  destruct (jwt_decode _ _ _ _) as [p| | |]; try reflexivity.
  now destruct (Hrej p).
Qed.

Lemma verify_token_key_not_active token now w p key_id :
  jwt_decode token (secret_key settings) [tokens.algorithm] now = Decoded p ->
  sub p = Some key_id ->
  (forall r, In r (api_keys w) -> APIKey.id r = key_id -> APIKey.is_active r = false) ->
  fst (tokens.verify_token token now w) = Ok None.
Proof.
  intros Hdec Hsub Hoff. unfold tokens.verify_token. rewrite Hdec, Hsub.
  destruct (Py.truthy key_id); [|reflexivity].
  run. unfold query_active_key_by_id.
  rewrite (find_active_by_id_none _ _ Hoff). reflexivity.
Qed.

(** A successful [DELETE /v1/api-keys/{key_id}] leaves no active row with
    that id. *)
Lemma delete_api_key_deactivates key_id request authorization api_key now w msg w1 :
  api_auth.delete_api_key key_id request authorization api_key now w = (Ok msg, w1) ->
  forall r, In r (api_keys w1) -> APIKey.id r = key_id -> APIKey.is_active r = false.
Proof.
  unfold api_auth.delete_api_key. run.
  destruct (dependencies.get_current_api_key _ _ _ _ _) as [[k|e] wm]; [|discriminate].
  destruct (String.eqb_spec key_id (APIKey.id (columns k))) as [Heq|Hne]; simpl;
    [|discriminate].
  unfold update_key. run. intros Hok. injection Hok as _ <-. simpl.
  intros r Hin Hid. apply in_map_iff in Hin as (r0 & Hr0 & _).
  destruct (String.eqb_spec (APIKey.id r0) (APIKey.id (columns k))) as [E|NE].
  - subst r. reflexivity.
  - subst r. congruence.
Qed.

End TokenProperties.

(** C1 (amended). For every bearer token that [jwt.decode] accepts
    (signature verifies, not expired) with subject [key_id]: if no row with
    that id is active, [TokenManager.verify_token] fails, and it fails with
    the same undistinguished [None] (the same 401 at the route) that it
    returns for every token the library rejects; and after a successful
    revocation of the key, the token fails on its next check. *)
Theorem verify_token_fails_alike_when_key_not_active `{Env}
    (token : string) (now : datetime) (w : world) (p : payload) (key_id : string) :
  jwt_decode token (secret_key settings) [tokens.algorithm] now = Decoded p ->
  sub p = Some key_id ->
  ((forall r, In r (api_keys w) -> APIKey.id r = key_id -> APIKey.is_active r = false) ->
     fst (tokens.verify_token token now w) = Ok None
     /\ fst (token_auth.verify_token token now w)
        = Raise (HTTPException 401 "Invalid or expired token"))
  /\ (forall token' now',
        (forall p', jwt_decode token' (secret_key settings) [tokens.algorithm] now'
                    <> Decoded p') ->
        fst (tokens.verify_token token' now' w) = Ok None
        /\ fst (token_auth.verify_token token' now' w)
           = Raise (HTTPException 401 "Invalid or expired token"))
  /\ (forall request authorization api_key t msg w1,
        api_auth.delete_api_key key_id request authorization api_key t w = (Ok msg, w1) ->
        fst (tokens.verify_token token now w1) = Ok None).
Proof.
  intros Hdec Hsub. repeat split.
  - now apply (verify_token_key_not_active token now w p key_id).
  - apply verify_route_of_none.
    now apply (verify_token_key_not_active token now w p key_id).
  - now apply verify_token_rejected.
  - apply verify_route_of_none. now apply verify_token_rejected.
  - intros request authorization api_key t msg w1 Hdel.
    apply (verify_token_key_not_active token now w1 p key_id Hdec Hsub).
    exact (delete_api_key_deactivates _ _ _ _ _ _ _ _ Hdel).
Qed.

(** C4. For every token and every state, token revocation (the manager
    method and the route) changes nothing that is stored: keys, usage
    rows and cache are the same afterwards, so every verification gives the
    same result as before; in particular a token that verified before the
    call verifies afterwards at every time at which [jwt.decode] still
    returns its claims. *)
Theorem revoke_token_is_verify_only `{Env} (token : string) (t1 : datetime) (w : world) :
  let w1 := snd (tokens.revoke_token token t1 w) in
  let w2 := snd (token_auth.revoke_token token t1 w) in
  stored w1 = stored w
  /\ stored w2 = stored w
  /\ (forall token' t,
        fst (tokens.verify_token token' t w1) = fst (tokens.verify_token token' t w)
        /\ fst (tokens.verify_token token' t w2) = fst (tokens.verify_token token' t w))
  /\ (forall t0 t2 d,
        fst (tokens.verify_token token t0 w) = Ok (Some d) ->
        jwt_decode token (secret_key settings) [tokens.algorithm] t2
        = jwt_decode token (secret_key settings) [tokens.algorithm] t0 ->
        fst (tokens.verify_token token t2 w1) = Ok (Some d)
        /\ fst (tokens.verify_token token t2 w2) = Ok (Some d)).
Proof.
  cbv zeta.
  pose proof (revoke_token_stored token t1 w) as H1.
  pose proof (revoke_route_stored token t1 w) as H2.
  assert (Hsame : forall token' t,
             fst (tokens.verify_token token' t (snd (tokens.revoke_token token t1 w)))
             = fst (tokens.verify_token token' t w)
             /\ fst (tokens.verify_token token' t (snd (token_auth.revoke_token token t1 w)))
                = fst (tokens.verify_token token' t w)).
  { intros token' t.
    split; apply verify_token_reads_keys; now apply stored_api_keys. }
  split; [exact H1|]. split; [exact H2|]. split; [exact Hsame|].
  intros t0 t2 d Hv Hdec.
  destruct (Hsame token t2) as [E1 E2]. rewrite E1, E2.
  assert (Hv2 : fst (tokens.verify_token token t2 w) = Ok (Some d)).
  { rewrite <- Hv. unfold tokens.verify_token. rewrite Hdec. reflexivity. }
  now split.
Qed.

(** Runs of the two theorems above in the small environment. *)
Section TokenRuns.
#[local] Existing Instance Demo.env.

Lemma verify_token_fails_alike_witness :
  jwt_decode "alice.jwt" (secret_key settings) [tokens.algorithm] 100
  = Decoded Demo.alice_claims
  /\ sub Demo.alice_claims = Some "ak_alice"
  /\ fst (tokens.verify_token "alice.jwt" 100 Demo.revoked_world) = Ok None
  /\ fst (token_auth.verify_token "alice.jwt" 100 Demo.revoked_world)
     = Raise (HTTPException 401 "Invalid or expired token").
Proof.
  split; [reflexivity|]. split; [reflexivity|].
  destruct (verify_token_fails_alike_when_key_not_active
              "alice.jwt" 100 Demo.revoked_world Demo.alice_claims "ak_alice")
    as [Hfails _]; [reflexivity | reflexivity |].
  apply Hfails. intros r [<-|[]] _. reflexivity.
Defined.

Lemma revoke_token_is_verify_only_witness :
  let d := tokens.mkTokenData "ak_alice" (Some "alice") (Some "jti-1") (Some 0)
             (Some 86400) (loaded (Demo.alice_row true 0)) in
  fst (tokens.verify_token "alice.jwt" 10 Demo.active_world) = Ok (Some d)
  /\ fst (tokens.verify_token "alice.jwt" 20
            (snd (token_auth.revoke_token "alice.jwt" 15 Demo.active_world)))
     = Ok (Some d).
Proof.
  cbv zeta. split; [reflexivity|].
  destruct (revoke_token_is_verify_only "alice.jwt" 15 Demo.active_world)
    as (_ & _ & _ & Hstill).
  apply (Hstill 10 20); reflexivity.
Defined.

(** The token of a revoked key and a token with a bad signature get the
    same answer, from the manager and from the route. *)
Lemma revoked_key_token_not_distinguished :
  jwt_decode "alice.jwt" (secret_key settings) [tokens.algorithm] 100
  = Decoded Demo.alice_claims
  /\ jwt_decode "forged.jwt" (secret_key settings) [tokens.algorithm] 100
     = InvalidTokenError
  /\ List.map APIKey.is_active (api_keys Demo.revoked_world) = [false]
  /\ fst (tokens.verify_token "alice.jwt" 100 Demo.revoked_world)
     = fst (tokens.verify_token "forged.jwt" 100 Demo.revoked_world)
  /\ fst (token_auth.verify_token "alice.jwt" 100 Demo.revoked_world)
     = fst (token_auth.verify_token "forged.jwt" 100 Demo.revoked_world).
Proof. repeat split. Qed.

End TokenRuns.

(** ** Splitting cache entries *)


Lemma count_char_app c s1 s2 :
  count_char c (s1 +:+ s2) = (count_char c s1 + count_char c s2)%nat.
Proof. induction s1 as [|c' s1 IH]; simpl; [reflexivity|]. rewrite IH. lia. Qed.

Lemma split_once_some sep s a b :
  Py.split_once sep s = Some (a, b) ->
  s = a +:+ String sep b /\ count_char sep a = O.
Proof.
  revert a. induction s as [|c s IH]; intros a; simpl; [discriminate|].
  destruct (Ascii.eqb_spec c sep) as [->|Hne].
  - intros [= <- <-]. split; reflexivity.
  - destruct (Py.split_once sep s) as [[a' b']|]; [|discriminate].
    intros [= <- <-]. destruct (IH a' eq_refl) as [-> Hc]. simpl.
    split; [reflexivity|].
    destruct (Ascii.eqb_spec c sep); [contradiction|]. exact Hc.
Qed.

Lemma split_once_first sep a b :
  count_char sep a = O -> Py.split_once sep (a +:+ String sep b) = Some (a, b).
Proof.
  induction a as [|c a IH]; simpl.
  - intros _. now rewrite Ascii.eqb_refl.
  - destruct (Ascii.eqb c sep); [discriminate|]. simpl. intros Hc.
    now rewrite (IH Hc).
Qed.

(** Three parts come out of [split(sep, 2)] exactly when two separators
    are found. *)
Lemma unpack3_split sep s a b c :
  Py.unpack3 (Py.split sep 2 s) = Some (a, b, c) ->
  s = a +:+ String sep (b +:+ String sep c)
  /\ count_char sep a = O /\ count_char sep b = O.
Proof.
  simpl. destruct (Py.split_once sep s) as [[a' rest]|] eqn:H1; [|discriminate].
  destruct (Py.split_once sep rest) as [[b' c']|] eqn:H2; [|discriminate].
  intros [= <- <- <-].
  destruct (split_once_some _ _ _ _ H1) as [-> Ha].
  destruct (split_once_some _ _ _ _ H2) as [-> Hb]. auto.
Qed.

(** If the third part of [id:name:flag] is a flag without separator, the
    first part is the id. *)
Lemma unpack3_first_part (key_id name flag a b c : string) :
  Py.unpack3 (Py.split ":" 2 (key_id +:+ ":" +:+ name +:+ ":" +:+ flag)) = Some (a, b, c) ->
  count_char ":" c = O ->
  a = key_id.
Proof.
  intros Hsplit Hc.
  pose proof (unpack3_split _ _ _ _ _ Hsplit) as (Heq & Ha & Hb).
  assert (Hcount : count_char ":" key_id = O).
  { apply (f_equal (count_char ":")) in Heq.
    rewrite !count_char_app in Heq. simpl in Heq.
    rewrite !count_char_app in Heq. simpl in Heq.
    rewrite ?count_char_app in Heq. simpl in Heq. lia. }
  change (key_id +:+ ":" +:+ name +:+ ":" +:+ flag)
    with (key_id +:+ String ":" (name +:+ ":" +:+ flag)) in Hsplit.
  simpl in Hsplit. rewrite (split_once_first _ _ _ Hcount) in Hsplit.
  destruct (Py.split_once ":" _) as [[b' c']|]; [|discriminate].
  now injection Hsplit as ->.
Qed.

(** ** API keys *)

Section KeyProperties.
Context `{Env}.
Import utils_auth.
#[local] Arguments Py.split : simpl never.


(** What [verify_api_key] does once the Redis fast path is left without a
    return. *)
Lemma verify_api_key_store_path self key w :
  (self_redis self = true ->
   forall ttl cached,
     redis_store w !! cache_key (sha256_hexdigest key) = Some (ttl, cached) ->
     Py.truthy cached = true ->
     forall key_id name flag,
       Py.unpack3 (Py.split ":" 2 cached) = Some (key_id, name, flag) ->
       String.eqb flag "True" = false) ->
  let res := verify_api_key self key w in
  fst res = Ok (loaded <$> active_row_with_hash (sha256_hexdigest key) w)
  /\ db_reads (snd res) = db_reads w ++ [SelectActiveKeyByHash (sha256_hexdigest key)]
  /\ api_keys (snd res) = api_keys w
  /\ usage_logs (snd res) = usage_logs w.
Proof.
  intros Hmiss. cbv zeta. unfold verify_api_key, active_row_with_hash.
  assert (Hstore :
    forall w0, api_keys w0 = api_keys w -> usage_logs w0 = usage_logs w ->
               db_reads w0 = db_reads w ->
    let res := (api_key <- query_active_key_by_hash (sha256_hexdigest key) ;;
                match api_key with
                | Some k =>
                    (if self_redis self
                     then redis_setex (cache_key (sha256_hexdigest key)) 3600
                            (cache_value (columns k))
                     else ret tt) ;;; ret api_key
                | None => ret api_key
                end) w0 in
    fst res = Ok (loaded <$> List.find
                    (fun r => String.eqb (APIKey.key_hash r) (sha256_hexdigest key)
                              && APIKey.is_active r) (api_keys w))
    /\ db_reads (snd res) = db_reads w ++ [SelectActiveKeyByHash (sha256_hexdigest key)]
    /\ api_keys (snd res) = api_keys w
    /\ usage_logs (snd res) = usage_logs w).
  { intros w0 Hk Hu Hr. unfold query_active_key_by_hash, redis_setex. run.
    rewrite Hk.
    destruct (List.find _ (api_keys w)) as [r|]; simpl.
    - destruct (self_redis self); simpl; rewrite Hr; auto.
    - rewrite Hr; auto. }
  run. destruct (self_redis self) eqn:Hredis; [|now apply Hstore].
  specialize (Hmiss eq_refl). unfold redis_get. simpl.
  destruct (redis_store w !! cache_key (sha256_hexdigest key)) as [[ttl cached]|];
    simpl; [|now apply Hstore].
  specialize (Hmiss ttl cached eq_refl).
  destruct (Py.truthy cached); [|now apply Hstore].
  destruct (Py.unpack3 (Py.split ":" 2 cached)) as [[[key_id name] flag]|];
    [|now apply Hstore].
  rewrite (Hmiss eq_refl key_id name flag eq_refl).
  now apply Hstore.
Qed.

(** C2 (amended). When the cache entry for the presented secret's hash
    records an [is_active] field of ["False"], [verify_api_key] does not
    reject at once: it performs the store lookup by hash among active rows
    and returns what that lookup finds, so it rejects exactly when the
    store has no active row with that hash. *)
Theorem false_cache_entry_falls_through_to_store
    (key : string) (w : world) (ttl : Z) (cached key_id name : string) :
  redis_store w !! cache_key (sha256_hexdigest key) = Some (ttl, cached) ->
  Py.unpack3 (Py.split ":" 2 cached) = Some (key_id, name, "False") ->
  let res := verify_api_key (mkManager true) key w in
  fst res = Ok (loaded <$> active_row_with_hash (sha256_hexdigest key) w)
  /\ db_reads (snd res) = db_reads w ++ [SelectActiveKeyByHash (sha256_hexdigest key)]
  /\ (fst res = Ok None <-> active_row_with_hash (sha256_hexdigest key) w = None).
Proof.
  intros Hget Hparts.
  destruct (verify_api_key_store_path (mkManager true) key w) as (Hres & Hreads & _).
  { intros _ ttl' cached' Hget' _ key_id' name' flag Hparts'.
    rewrite Hget in Hget'. injection Hget' as _ <-.
    rewrite Hparts in Hparts'. now injection Hparts' as _ _ <-. }
  cbv zeta. rewrite Hres. split; [reflexivity|]. split; [exact Hreads|].
  destruct (active_row_with_hash _ w); simpl; split; congruence.
Qed.

End KeyProperties.

Section KeyRuns.
#[local] Existing Instance Demo.env.

Lemma false_cache_entry_falls_through_witness :
  let res := utils_auth.verify_api_key (utils_auth.mkManager true) Demo.alice_secret
               Demo.false_entry_world in
  fst res = Ok (Some (loaded (Demo.alice_row true 0)))
  /\ db_reads (snd res) = [SelectActiveKeyByHash (sha256_hexdigest Demo.alice_secret)].
Proof.
  cbv zeta.
  destruct (false_cache_entry_falls_through_to_store
              Demo.alice_secret Demo.false_entry_world 3600
              "ak_alice:alice:False" "ak_alice" "alice")
    as (Hres & Hreads & _); [reflexivity | reflexivity |].
  rewrite Hres, Hreads. split; reflexivity.
Defined.

(** The cache says [is_active = False] for the presented secret, and yet the
    verification succeeds, after a lookup in the store. *)
Lemma false_cache_entry_not_rejected :
  let res := utils_auth.verify_api_key (utils_auth.mkManager true) Demo.alice_secret
               Demo.false_entry_world in
  redis_store Demo.false_entry_world
    !! utils_auth.cache_key (sha256_hexdigest Demo.alice_secret)
  = Some (3600, "ak_alice:alice:False")
  /\ fst res = Ok (Some (loaded (Demo.alice_row true 0)))
  /\ db_reads Demo.false_entry_world = []
  /\ db_reads (snd res) = [SelectActiveKeyByHash (sha256_hexdigest Demo.alice_secret)].
Proof. cbv zeta. repeat split. Qed.

End KeyRuns.

(** ** The credential dependency *)

Section DependencyProperties.
Context `{Env}.
#[local] Arguments Py.split : simpl never.

(** [verify_api_key] never writes to the tables. *)
Lemma verify_api_key_tables self key w :
  api_keys (snd (utils_auth.verify_api_key self key w)) = api_keys w
  /\ usage_logs (snd (utils_auth.verify_api_key self key w)) = usage_logs w
  /\ redis_client (snd (utils_auth.verify_api_key self key w)) = redis_client w.
Proof.
  unfold utils_auth.verify_api_key, redis_get, query_key_by_id,
    query_active_key_by_hash, redis_setex. run.
  destruct (utils_auth.self_redis self); simpl.
  - destruct (redis_store w !! _) as [[ttl cached]|]; simpl.
    + destruct (Py.truthy cached); simpl.
      * destruct (Py.unpack3 _) as [[[key_id name] flag]|]; simpl.
        -- destruct (String.eqb flag "True"); simpl; [auto|].
           destruct (List.find _ _); simpl; auto.
        -- destruct (List.find _ _); simpl; auto.
      * destruct (List.find _ _); simpl; auto.
    + destruct (List.find _ _); simpl; auto.
  - destruct (List.find _ _); simpl; auto.
Qed.

(** [increment_usage] writes the column [usage_count] and no other. *)
Lemma increment_usage_effect self k now w :
  utils_auth.increment_usage self k now w
  = (Ok (mkObj (APIKey.set_usage_count (APIKey.usage_count (columns k) + 1) (columns k))
               (Some now)),
     set_api_keys
       (List.map (fun r => if String.eqb (APIKey.id r) (APIKey.id (columns k))
                           then APIKey.set_usage_count
                                  (APIKey.usage_count (columns k) + 1) r
                           else r)
                 (api_keys w)) w).
Proof. reflexivity. Qed.

Lemma increment_usage_leaves_last_used self k now w :
  List.map APIKey.last_used (api_keys (snd (utils_auth.increment_usage self k now w)))
  = List.map APIKey.last_used (api_keys w).
Proof.
  rewrite increment_usage_effect. simpl. rewrite List.map_map.
  apply List.map_ext. intros r. now destruct (String.eqb _ _).
Qed.

(** Whatever the outcome, the dependency leaves the stored [last_used] of
    every key as it was. *)
Lemma dependency_leaves_last_used request authorization api_key now w :
  List.map APIKey.last_used
    (api_keys (snd (dependencies.verify_api_key request authorization api_key now w)))
  = List.map APIKey.last_used (api_keys w).
Proof.
  unfold dependencies.verify_api_key.
  destruct (negb (Py.truthy_opt _)); [reflexivity|].
  destruct (dependencies.find_auth_header _ _ _) as [h|]; [|reflexivity].
  destruct (dependencies.extract_api_key_value h) as [v|]; [|reflexivity].
  destruct (negb (Py.truthy v)); [reflexivity|]. run.
  pose proof (verify_api_key_tables (utils_auth.mkManager (redis_client w)) v w) as [Hk _].
  destruct (utils_auth.verify_api_key _ v w) as [[[k|]|e] w1]; simpl in *.
  - destruct (APIKey.is_active (columns k)); simpl.
    + rewrite List.map_map, <- Hk. apply List.map_ext. intros r.
      now destruct (String.eqb _ _).
    + now rewrite Hk.
  - now rewrite Hk.
  - destruct (is_http e); simpl; now rewrite Hk.
Qed.

End DependencyProperties.

(** C9. For every request, a key record that the credential dependency
    hands to the handler has [is_active] true; and whenever the key manager
    returns a record whose [is_active] is false, as it can on the cache-hit
    path, the dependency raises the 401 "API key is disabled". *)
Theorem dependency_hands_out_active_keys_only `{Env}
    (request : dependencies.Request) (authorization api_key : option string)
    (now : datetime) (w : world) :
  (forall r w',
     dependencies.get_current_api_key request authorization api_key now w = (Ok r, w') ->
     APIKey.is_active (columns r) = true)
  /\ (forall h v k w1,
        dependencies.find_auth_header request authorization api_key = Some h ->
        dependencies.extract_api_key_value h = Some v ->
        Py.truthy v = true ->
        utils_auth.verify_api_key (utils_auth.mkManager (redis_client w)) v w
        = (Ok (Some k), w1) ->
        APIKey.is_active (columns k) = false ->
        dependencies.get_current_api_key request authorization api_key now w
        = (Raise (HTTPException 401 "API key is disabled"), w1)).
Proof.
  unfold dependencies.get_current_api_key, dependencies.verify_api_key. split.
  - intros r w'.
    destruct (negb (Py.truthy_opt _)); [discriminate|].
    destruct (dependencies.find_auth_header _ _ _) as [h|]; [|discriminate].
    destruct (dependencies.extract_api_key_value h) as [v|]; [|discriminate].
    destruct (negb (Py.truthy v)); [discriminate|]. run.
    destruct (utils_auth.verify_api_key _ v w) as [[[k|]|e] w1]; simpl.
    + destruct (APIKey.is_active (columns k)) eqn:Hactive; simpl; [|discriminate].
      intros [= <- _]. exact Hactive.
    + discriminate.
    + destruct (is_http e); discriminate.
  - intros h v k w1 Hh Hv Htruthy Hverify Hinactive.
    rewrite Hh. destruct h as [|c h]; [discriminate|]. simpl.
    change (dependencies.extract_api_key_value (String c h) = Some v) in Hv.
    rewrite Hv, Htruthy. run. rewrite Hverify. simpl. rewrite Hinactive. reflexivity.
Qed.

Section DependencyRuns.
#[local] Existing Instance Demo.env.

(** The cache still says ["True"] for a key deactivated in the store: the
    manager fetches the row by id and returns it, inactive as it is, and the
    dependency turns it away. *)
Lemma dependency_rejects_revoked_key_on_cache_hit :
  let manager_result :=
    utils_auth.verify_api_key (utils_auth.mkManager true) Demo.alice_secret
      Demo.revoked_world in
  fst manager_result = Ok (Some (loaded (Demo.alice_row false 0)))
  /\ db_reads (snd manager_result) = [SelectKeyById "ak_alice"]
  /\ fst (dependencies.get_current_api_key (dependencies.mkRequest [])
            (Some "Bearer llm-router-alice-secret") None 50 Demo.revoked_world)
     = Raise (HTTPException 401 "API key is disabled").
Proof.
  cbv zeta. split; [reflexivity|]. split; [reflexivity|].
  destruct (dependency_hands_out_active_keys_only (dependencies.mkRequest [])
              (Some "Bearer llm-router-alice-secret") None 50 Demo.revoked_world)
    as [_ Hreject].
  erewrite (Hreject "Bearer llm-router-alice-secret" Demo.alice_secret);
    reflexivity.
Defined.

(** C8 (the code at a verified use). Alice presents her key at time 50; the
    verification succeeds; the instance handed on carries the attribute
    [last_used_at = 50] and the stored row has its [usage_count]
    incremented, but the stored [last_used] is still unset. *)
Lemma verified_use_leaves_last_used_unset :
  let res :=
    dependencies.verify_api_key (dependencies.mkRequest [])
      (Some "Bearer llm-router-alice-secret") None 50 Demo.active_world in
  fst res = Ok (mkObj (Demo.alice_row true 1) (Some 50))
  /\ api_keys (snd res) = [Demo.alice_row true 1]
  /\ List.map APIKey.last_used (api_keys (snd res)) = [None].
Proof. cbv zeta. repeat split. Qed.

End DependencyRuns.

(** ** Creation followed by verification *)

Section CreateVerify.
Context `{Env}.
Import utils_auth.
#[local] Arguments Py.split : simpl never.


Lemma cache_key_inj h1 h2 : cache_key h1 = cache_key h2 -> h1 = h2.
Proof. unfold cache_key. intros Heq. cbv in Heq. congruence. Qed.

Lemma existsb_false_forall {A} (f : A -> bool) (l : list A) :
  existsb f l = false -> forall x, In x l -> f x = false.
Proof.
  intros Hex x Hin. destruct (f x) eqn:Hfx; [|reflexivity].
  assert (existsb f l = true) by (apply existsb_exists; eauto). congruence.
Qed.

Lemma find_app_last {A} (f : A -> bool) (l : list A) (x : A) :
  (forall y, In y l -> f y = false) -> f x = true ->
  List.find f (l ++ [x]) = Some x.
Proof.
  intros Hl Hx. induction l as [|y l IH]; simpl; [now rewrite Hx|].
  rewrite (Hl y (or_introl eq_refl)). apply IH. intros z Hz. apply Hl. now right.
Qed.

Lemma find_none_forall {A} (f : A -> bool) (l : list A) :
  (forall y, In y l -> f y = false) -> List.find f l = None.
Proof.
  intros Hl. induction l as [|y l IH]; [reflexivity|]. simpl.
  rewrite (Hl y (or_introl eq_refl)). apply IH. intros z Hz. apply Hl. now right.
Qed.

(** What a successful [create_api_key] has done. *)
Lemma create_api_key_ok self request token uuid now w resp w1 :
  create_api_key self request token uuid now w = (Ok resp, w1) ->
  let row := new_row request token uuid now in
  resp_key resp = api_key_prefix settings +:+ token
  /\ resp_id resp = APIKey.id row
  /\ (forall r, In r (api_keys w) ->
        String.eqb (APIKey.id r) (APIKey.id row) = false
        /\ String.eqb (APIKey.key_hash r) (APIKey.key_hash row) = false)
  /\ api_keys w1 = api_keys w ++ [row]
  /\ redis_store w1
     = (if self_redis self
        then <[cache_key (APIKey.key_hash row) := (3600, cache_value row)]> (redis_store w)
        else redis_store w).
Proof.
  unfold create_api_key, generate_api_key, insert_key, redis_setex, new_row. run.
  destruct (existsb _ (api_keys w)) eqn:Hfresh; [discriminate|].
  assert (Hold : forall r, In r (api_keys w) ->
            String.eqb (APIKey.id r) ("ak_" +:+ Py.slice_to uuid 16) = false
            /\ String.eqb (APIKey.key_hash r)
                 (sha256_hexdigest (api_key_prefix settings +:+ token)) = false).
  { intros r Hr. pose proof (existsb_false_forall _ _ Hfresh r Hr) as Hf.
    simpl in Hf. now apply orb_false_elim in Hf. }
  destruct (self_redis self); simpl;
    (destruct (req_description request); simpl; [|discriminate]);
    intros [= <- <-]; simpl; auto.
Qed.

(** The Redis fast path, when the cached flag is ["True"]. *)
Lemma verify_api_key_hit_path self key w ttl cached key_id name flag :
  self_redis self = true ->
  redis_store w !! cache_key (sha256_hexdigest key) = Some (ttl, cached) ->
  Py.truthy cached = true ->
  Py.unpack3 (Py.split ":" 2 cached) = Some (key_id, name, flag) ->
  String.eqb flag "True" = true ->
  verify_api_key self key w
  = (Ok (loaded <$> List.find (fun r => String.eqb (APIKey.id r) key_id) (api_keys w)),
     log_read (SelectKeyById key_id) w).
Proof.
  intros Hredis Hget Htruthy Hparts Hflag.
  unfold verify_api_key, redis_get, query_key_by_id. run.
  rewrite Hredis. simpl. rewrite Hget. simpl.
  rewrite Htruthy, Hparts, Hflag. reflexivity.
Qed.

End CreateVerify.

Section VerifyAfterCreate.
Context `{Env}.
Import utils_auth.
#[local] Arguments Py.split : simpl never.

(** The created secret verifies with any manager; only a manager with
    Redis that verifies a key created without Redis needs the cache to have
    held no entry for the new hash. *)
Lemma verify_created_key self self' request token uuid now w resp w1 :
  create_api_key self request token uuid now w = (Ok resp, w1) ->
  (self_redis self' = true -> self_redis self = false ->
   redis_store w !! cache_key (sha256_hexdigest (resp_key resp)) = None) ->
  exists r w2,
    verify_api_key self' (resp_key resp) w1 = (Ok (Some r), w2)
    /\ APIKey.id (columns r) = resp_id resp.
Proof.
  intros Hcreate Hclean.
  destruct (create_api_key_ok _ _ _ _ _ _ _ _ Hcreate)
    as (Hkey & Hid & Hfresh & Hkeys & Hcache).
  set (row := new_row request token uuid now) in *.
  assert (Hhash : sha256_hexdigest (resp_key resp) = APIKey.key_hash row)
    by now rewrite Hkey.
  assert (Hbyhash : active_row_with_hash (APIKey.key_hash row) w1 = Some row).
  { unfold active_row_with_hash. rewrite Hkeys. apply find_app_last.
    - intros y Hy. destruct (Hfresh y Hy) as [_ ->]. reflexivity.
    - now rewrite String.eqb_refl. }
  assert (Hbyid : List.find (fun r => String.eqb (APIKey.id r) (APIKey.id row))
                            (api_keys w1) = Some row).
  { rewrite Hkeys. apply find_app_last.
    - intros y Hy. now destruct (Hfresh y Hy) as [-> _].
    - now rewrite String.eqb_refl. }
  assert (Hstore :
            (self_redis self' = true ->
             forall ttl cached,
               redis_store w1 !! cache_key (sha256_hexdigest (resp_key resp))
               = Some (ttl, cached) ->
               Py.truthy cached = true ->
               forall key_id name flag,
                 Py.unpack3 (Py.split ":" 2 cached) = Some (key_id, name, flag) ->
                 String.eqb flag "True" = false) ->
            exists r w2,
              verify_api_key self' (resp_key resp) w1 = (Ok (Some r), w2)
              /\ APIKey.id (columns r) = resp_id resp).
  { intros Hmiss.
    destruct (verify_api_key_store_path self' (resp_key resp) w1 Hmiss) as (Hres & _).
    rewrite Hhash, Hbyhash in Hres.
    destruct (verify_api_key self' (resp_key resp) w1) as [o w2].
    simpl in Hres. subst o. exists (loaded row), w2. now split. }
  destruct (self_redis self') eqn:Hredis'; [|apply Hstore; congruence].
  destruct (self_redis self) eqn:Hredis.
  - assert (Hget : redis_store w1 !! cache_key (sha256_hexdigest (resp_key resp))
                   = Some (3600, cache_value row)).
    { rewrite Hcache, Hhash. apply lookup_insert_eq. }
    destruct (Py.unpack3 (Py.split ":" 2 (cache_value row)))
      as [[[key_id name] flag]|] eqn:Hparts.
    + destruct (String.eqb flag "True") eqn:Hflag.
      * apply String.eqb_eq in Hflag. subst flag.
        assert (key_id = APIKey.id row) as ->
          by exact (unpack3_first_part _ _ _ _ _ _ Hparts eq_refl).
        exists (loaded row), (log_read (SelectKeyById (APIKey.id row)) w1).
        rewrite (verify_api_key_hit_path self' (resp_key resp) w1 3600
                   (cache_value row) (APIKey.id row) name "True"
                   Hredis' Hget eq_refl Hparts eq_refl).
        rewrite Hbyid. now split.
      * apply Hstore. intros _ ttl cached Hget' _ key_id' name' flag' Hparts'.
        rewrite Hget in Hget'. injection Hget' as _ <-.
        rewrite Hparts in Hparts'. now injection Hparts' as _ _ <-.
    + apply Hstore. intros _ ttl cached Hget' _ key_id' name' flag' Hparts'.
      rewrite Hget in Hget'. injection Hget' as _ <-. congruence.
  - apply Hstore. intros _ ttl cached Hget'.
    rewrite Hcache, (Hclean eq_refl eq_refl) in Hget'. discriminate.
Qed.

(** C3. For every creation that succeeds, verifying the raw secret it
    returned, next and with the same manager, succeeds and returns a record
    with the id of the created key; and verifying any secret that differs
    from every secret issued so far fails, provided its digest does not
    collide with theirs. *)
Theorem verify_after_create
    (self : utils_auth.APIKeyManager) (request : APIKeyRequest)
    (token uuid : string) (now : datetime) (w : world)
    (resp : APIKeyResponse) (w1 : world) :
  utils_auth.create_api_key self request token uuid now w = (Ok resp, w1) ->
  (exists r w2,
     utils_auth.verify_api_key self (resp_key resp) w1 = (Ok (Some r), w2)
     /\ APIKey.id (columns r) = resp_id resp)
  /\ (forall secrets self' key',
        issued_from secrets w ->
        ~ In key' (resp_key resp :: secrets) ->
        (forall s, In s (resp_key resp :: secrets) ->
                   sha256_hexdigest s = sha256_hexdigest key' -> s = key') ->
        fst (utils_auth.verify_api_key self' key' w1) = Ok None).
Proof.
  intros Hcreate. split.
  - apply (verify_created_key self self request token uuid now w resp w1 Hcreate).
    congruence.
  - destruct (create_api_key_ok _ _ _ _ _ _ _ _ Hcreate)
      as (Hkey & Hid & Hfresh & Hkeys & Hcache).
    set (row := new_row request token uuid now) in *.
    assert (Hhash : sha256_hexdigest (resp_key resp) = APIKey.key_hash row)
      by now rewrite Hkey.
    intros secrets self' key' [Hrows Hcached] Hnotin Hnocoll.
    assert (Hnohash : forall r, In r (api_keys w1) ->
              String.eqb (APIKey.key_hash r) (sha256_hexdigest key') = false).
    { rewrite Hkeys. intros r Hr. apply String.eqb_neq. intros Heq.
      apply Hnotin. apply in_app_or in Hr as [Hr|[<-|[]]].
      - destruct (Hrows r Hr) as (s & Hs & Hh). right.
        rewrite <- (Hnocoll s (or_intror Hs)); [exact Hs|congruence].
      - left. apply Hnocoll; [now left|congruence]. }
    assert (Hnocache : redis_store w1 !! cache_key (sha256_hexdigest key') = None).
    { assert (Hold : redis_store w !! cache_key (sha256_hexdigest key') = None).
      { destruct (redis_store w !! cache_key (sha256_hexdigest key')) as [e|] eqn:He;
          [|reflexivity].
        destruct (Hcached (sha256_hexdigest key')) as (r & Hr & Hh);
          [rewrite He; eauto|].
        assert (Hin : In r (api_keys w1)) by (rewrite Hkeys; apply in_or_app; now left).
        pose proof (Hnohash r Hin) as Hne. apply String.eqb_neq in Hne. contradiction. }
      rewrite Hcache. destruct (utils_auth.self_redis self); [|exact Hold].
      rewrite lookup_insert_ne; [exact Hold|].
      intros Heq. apply cache_key_inj in Heq.
      assert (Hin : In row (api_keys w1))
        by (rewrite Hkeys; apply in_or_app; right; now left).
      pose proof (Hnohash row Hin) as Hne. apply String.eqb_neq in Hne. contradiction. }
    destruct (verify_api_key_store_path self' key' w1) as (Hres & _).
    { intros _ ttl cached Hget. rewrite Hnocache in Hget. discriminate. }
    rewrite Hres. unfold active_row_with_hash.
    rewrite find_none_forall; [reflexivity|].
    intros y Hy. now rewrite (Hnohash y Hy).
Qed.

(** In a store that satisfies [issued_from], the created secret verifies
    with every manager, whether it has the Redis client or not. *)
Lemma verify_after_create_any_manager self self' request token uuid now w resp w1 secrets :
  issued_from secrets w ->
  create_api_key self request token uuid now w = (Ok resp, w1) ->
  exists r w2,
    verify_api_key self' (resp_key resp) w1 = (Ok (Some r), w2)
    /\ APIKey.id (columns r) = resp_id resp.
Proof.
  intros [_ Hcached] Hcreate.
  apply (verify_created_key self self' request token uuid now w resp w1 Hcreate).
  intros _ _.
  destruct (create_api_key_ok _ _ _ _ _ _ _ _ Hcreate) as (Hkey & _ & Hfresh & _).
  destruct (redis_store w !! cache_key (sha256_hexdigest (resp_key resp))) as [e|] eqn:He;
    [|reflexivity].
  destruct (Hcached (sha256_hexdigest (resp_key resp))) as (r & Hr & Hh);
    [rewrite He; eauto|].
  destruct (Hfresh r Hr) as [_ Hne]. apply String.eqb_neq in Hne.
  exfalso. apply Hne. rewrite Hh, Hkey. reflexivity.
Qed.

(** [issued_from] is an invariant of the key manager. *)
Lemma issued_from_empty logs client reads :
  issued_from [] (mkWorld [] logs ∅ client reads).
Proof.
  split; simpl; [intros r []|].
  intros h [e He]. now rewrite lookup_empty in He.
Qed.

Lemma create_keeps_issued_from self request token uuid now w resp w1 secrets :
  issued_from secrets w ->
  create_api_key self request token uuid now w = (Ok resp, w1) ->
  issued_from (resp_key resp :: secrets) w1.
Proof.
  intros [Hrows Hcached] Hcreate.
  destruct (create_api_key_ok _ _ _ _ _ _ _ _ Hcreate)
    as (Hkey & _ & _ & Hkeys & Hcache).
  set (row := new_row request token uuid now) in *.
  split.
  - rewrite Hkeys. intros r Hr. apply in_app_or in Hr as [Hr|[<-|[]]].
    + destruct (Hrows r Hr) as (s & Hs & Hh). exists s. split; [now right|exact Hh].
    + exists (resp_key resp). split; [now left|now rewrite Hkey].
  - intros h Hsome. rewrite Hkeys.
    assert (Hold : is_Some (redis_store w !! cache_key h) ->
                   exists r, In r (api_keys w ++ [row]) /\ APIKey.key_hash r = h).
    { intros Hs. destruct (Hcached h Hs) as (r & Hr & Hh).
      exists r. split; [apply in_or_app; now left|exact Hh]. }
    rewrite Hcache in Hsome. destruct (self_redis self); [|now apply Hold].
    destruct (decide (cache_key (APIKey.key_hash row) = cache_key h)) as [Heq|Hne].
    + apply cache_key_inj in Heq. exists row.
      split; [apply in_or_app; right; now left|exact Heq].
    + rewrite lookup_insert_ne in Hsome by exact Hne. now apply Hold.
Qed.

Lemma update_key_keeps_issued_from key_id (set : APIKey.t -> APIKey.t) w secrets :
  (forall r, APIKey.key_hash (set r) = APIKey.key_hash r) ->
  issued_from secrets w ->
  issued_from secrets (snd (update_key key_id set w)).
Proof.
  intros Hset [Hrows Hcached]. unfold update_key. run. split; simpl.
  - intros r Hr. apply in_map_iff in Hr as (r0 & <- & Hr0).
    destruct (Hrows r0 Hr0) as (s & Hs & Hh). exists s. split; [exact Hs|].
    destruct (String.eqb _ _); [now rewrite Hset|exact Hh].
  - intros h Hsome. destruct (Hcached h Hsome) as (r & Hr & Hh).
    exists (if String.eqb (APIKey.id r) key_id then set r else r).
    split.
    + apply in_map_iff. exists r. now split.
    + destruct (String.eqb _ _); [now rewrite Hset|exact Hh].
Qed.

Lemma verify_keeps_issued_from self key w secrets :
  issued_from secrets w ->
  issued_from secrets (snd (verify_api_key self key w)).
Proof.
  intros [Hrows Hcached].
  destruct (verify_api_key_tables self key w) as [Hkeys _].
  split; rewrite Hkeys; [exact Hrows|].
  assert (Hstore : forall w0, api_keys w0 = api_keys w -> redis_store w0 = redis_store w ->
    forall h,
      is_Some (redis_store
                 (snd ((api_key <- query_active_key_by_hash (sha256_hexdigest key) ;;
                        match api_key with
                        | Some k =>
                            (if self_redis self
                             then redis_setex (cache_key (sha256_hexdigest key)) 3600
                                    (cache_value (columns k))
                             else ret tt) ;;; ret api_key
                        | None => ret api_key
                        end) w0)) !! cache_key h) ->
      exists r, In r (api_keys w) /\ APIKey.key_hash r = h).
  { intros w0 Hk Hc h. unfold query_active_key_by_hash, redis_setex. run. rewrite Hk.
    destruct (List.find _ (api_keys w)) as [r|] eqn:Hfind; simpl;
      [|rewrite Hc; apply Hcached].
    destruct (self_redis self); simpl; rewrite Hc; [|apply Hcached].
    destruct (decide (cache_key (sha256_hexdigest key) = cache_key h)) as [Heq|Hne].
    - intros _. apply cache_key_inj in Heq. apply find_some in Hfind as [Hin Hp].
      apply andb_prop in Hp as [Hp _]. apply String.eqb_eq in Hp.
      exists r. split; [exact Hin|congruence].
    - rewrite lookup_insert_ne by exact Hne. apply Hcached. }
  unfold verify_api_key, redis_get, query_key_by_id. run.
  destruct (self_redis self) eqn:Hredis; simpl; [|now apply Hstore].
  destruct (redis_store w !! _) as [[ttl cached]|]; simpl; [|now apply Hstore].
  destruct (Py.truthy cached); [|now apply Hstore].
  destruct (Py.unpack3 _) as [[[key_id name] flag]|]; [|now apply Hstore].
  destruct (String.eqb flag "True"); [|now apply Hstore].
  simpl. apply Hcached.
Qed.

End VerifyAfterCreate.

Section CreateRuns.
#[local] Existing Instance Demo.env.

(** Bob's key is created next to Alice's; his secret verifies, and a
    secret with one changed character does not. *)
Lemma verify_after_create_witness :
  let self := utils_auth.mkManager true in
  let created :=
    utils_auth.create_api_key self (mkAPIKeyRequest "bob" (Some "test key"))
      "bob-token" "0123456789abcdef0123456789abcdef" 7 Demo.active_world in
  fst created
  = Ok (mkAPIKeyResponse "ak_0123456789abcdef" "bob" "llm-router-bob-token" "test key"
          (Some 7) 1000 0)
  /\ (exists r w2,
       utils_auth.verify_api_key self "llm-router-bob-token" (snd created)
       = (Ok (Some r), w2)
       /\ APIKey.id (columns r) = "ak_0123456789abcdef")
  /\ fst (utils_auth.verify_api_key self "llm-router-bob-tokem" (snd created)) = Ok None.
Proof.
  cbv zeta. split; [reflexivity|].
  destruct (verify_after_create (utils_auth.mkManager true)
              (mkAPIKeyRequest "bob" (Some "test key"))
              "bob-token" "0123456789abcdef0123456789abcdef" 7 Demo.active_world
              (mkAPIKeyResponse "ak_0123456789abcdef" "bob" "llm-router-bob-token"
                 "test key" (Some 7) 1000 0)
              (snd (utils_auth.create_api_key (utils_auth.mkManager true)
                      (mkAPIKeyRequest "bob" (Some "test key"))
                      "bob-token" "0123456789abcdef0123456789abcdef" 7
                      Demo.active_world)))
    as [Hsame Hother]; [reflexivity|].
  split; [exact Hsame|].
  apply (Hother [Demo.alice_secret]).
  - split.
    + intros r [<-|[]]. exists Demo.alice_secret. split; [now left|reflexivity].
    + intros h [e He]. simpl in He. now rewrite lookup_empty in He.
  - intros [Heq|[Heq|[]]]; discriminate Heq.
  - intros s [<-|[<-|[]]] Heq; discriminate Heq.
Defined.

End CreateRuns.

(** ** Several callers presenting the same key *)

Section CallersProperties.
Context `{Env}.
Import Callers.
#[local] Arguments Py.split : simpl never.

(** The dependency is [load] followed by [commit], inside its [try]. *)
Lemma dependency_is_load_then_commit request authorization api_key now h v w :
  dependencies.find_auth_header request authorization api_key = Some h ->
  dependencies.extract_api_key_value h = Some v ->
  Py.truthy v = true ->
  dependencies.verify_api_key request authorization api_key now w
  = try_except (r <- load v ;; commit r now)
      (fun e => if is_http e then raise e
                else raise (HTTPException 401
                              ("API key verification failed: " +:+ exn_str e))) w.
Proof.
  intros Hh Hv Htruthy. unfold dependencies.verify_api_key. rewrite Hh.
  destruct h as [|c h]; [discriminate|]. simpl.
  change (dependencies.extract_api_key_value (String c h) = Some v) in Hv.
  rewrite Hv, Htruthy. unfold load, commit. run.
  destruct (utils_auth.verify_api_key _ v w) as [[[k|]|e] w1];
    simpl; try reflexivity.
  destruct (APIKey.is_active (columns k)); reflexivity.
Qed.

(** Whatever path it takes, [verify_api_key] returns a row of the table. *)
Lemma verify_api_key_finds self key w :
  exists f, fst (utils_auth.verify_api_key self key w)
            = Ok (loaded <$> List.find f (api_keys w)).
Proof.
  assert (Hstore : forall w0 : world,
    api_keys w0 = api_keys w ->
    exists f,
      fst ((api_key <- query_active_key_by_hash (sha256_hexdigest key) ;;
            match api_key with
            | Some k =>
                (if utils_auth.self_redis self
                 then redis_setex (utils_auth.cache_key (sha256_hexdigest key)) 3600
                        (utils_auth.cache_value (columns k))
                 else ret tt) ;;; ret api_key
            | None => ret api_key
            end) w0)
      = Ok (loaded <$> List.find f (api_keys w))).
  { intros w0 Hk.
    exists (fun r => String.eqb (APIKey.key_hash r) (sha256_hexdigest key)
                     && APIKey.is_active r).
    unfold query_active_key_by_hash, redis_setex. run. rewrite Hk.
    destruct (List.find _ (api_keys w)); simpl; [|reflexivity].
    destruct (utils_auth.self_redis self); reflexivity. }
  unfold utils_auth.verify_api_key, redis_get, query_key_by_id. run.
  destruct (utils_auth.self_redis self) eqn:Hredis; simpl; [|now apply Hstore].
  destruct (redis_store w !! _) as [[ttl cached]|]; simpl; [|now apply Hstore].
  destruct (Py.truthy cached); [|now apply Hstore].
  destruct (Py.unpack3 _) as [[[key_id name] flag]|]; [|now apply Hstore].
  destruct (String.eqb flag "True"); [|now apply Hstore].
  simpl. eexists. reflexivity.
Qed.

Lemma load_ok key w r w1 :
  load key w = (Ok r, w1) ->
  api_keys w1 = api_keys w
  /\ exists r0, In r0 (api_keys w) /\ r = loaded r0.
Proof.
  unfold load. run.
  pose proof (verify_api_key_tables (utils_auth.mkManager (redis_client w)) key w) as [Hk _].
  destruct (verify_api_key_finds (utils_auth.mkManager (redis_client w)) key w) as [f Hf].
  destruct (utils_auth.verify_api_key _ key w) as [[[k|]|e] w']; simpl in *;
    try discriminate.
  destruct (APIKey.is_active (columns k)); simpl; [|discriminate].
  intros [= <- <-]. split; [exact Hk|].
  destruct (List.find f (api_keys w)) as [r0|] eqn:Hfind; [|discriminate].
  apply find_some in Hfind as [Hin _]. exists r0. split; [exact Hin|].
  simpl in Hf. congruence.
Qed.

Lemma find_map_same {A} (p : A -> bool) (g : A -> A) (l : list A) :
  (forall x, p (g x) = p x) ->
  List.find p (List.map g l) = g <$> List.find p l.
Proof.
  intros Hp. induction l as [|x l IH]; [reflexivity|]. simpl.
  rewrite Hp. now destruct (p x).
Qed.

(** Ids are a primary key: the row with a given id is the one found. *)
Lemma find_by_id_unique (keys : list APIKey.t) (r0 : APIKey.t) :
  List.NoDup (List.map APIKey.id keys) -> In r0 keys ->
  List.find (fun r => String.eqb (APIKey.id r) (APIKey.id r0)) keys = Some r0.
Proof.
  induction keys as [|x keys IH]; intros Hnd Hin; [destruct Hin|].
  simpl in *. apply NoDup_cons_iff in Hnd as [Hx Hnd].
  destruct (String.eqb_spec (APIKey.id x) (APIKey.id r0)) as [Heq|Hne].
  - destruct Hin as [->|Hin]; [reflexivity|]. exfalso. apply Hx.
    rewrite Heq. now apply in_map.
  - destruct Hin as [->|Hin]; [contradiction|]. now apply IH.
Qed.

(** Served one after the other, [n] successful verifications of the key
    add [n] to its stored counter. *)
Lemma sequential_count (key : string) (now : datetime) (n : nat) :
  forall (k : nat) (held : gmap nat APIKeyObj) (w : world)
         (rs : list APIKeyObj) (w' : world) (key_id : string) (c : Z),
    List.NoDup (List.map APIKey.id (api_keys w)) ->
    usage_of key_id w = Some c ->
    run_schedule key now (sequential k n) held w = Some (rs, w') ->
    Forall (fun r => APIKey.id (columns r) = key_id) rs ->
    length rs = n /\ usage_of key_id w' = Some (c + Z.of_nat n).
Proof.
  induction n as [|n IH]; intros k held w rs w' key_id c Hnd Hc Hrun Hall.
  - simpl in Hrun. injection Hrun as <- <-. split; [reflexivity|].
    now rewrite Z.add_0_r.
  - simpl in Hrun.
    destruct (load key w) as [[r|e] w1] eqn:Hload; [|discriminate].
    rewrite lookup_insert_eq in Hrun.
    destruct (run_schedule key now (sequential (S k) n) _ _) as [[rs' w3]|] eqn:Hrest;
      [|discriminate].
    injection Hrun as <- <-. apply Forall_cons_iff in Hall as [Hid Hall]. simpl in Hid.
    destruct (load_ok _ _ _ _ Hload) as (Hkeys & r0 & Hin & ->). simpl in *.
    subst key_id. rewrite <- Hkeys in Hin, Hnd.
    assert (Hc0 : c = APIKey.usage_count r0).
    { unfold usage_of in Hc. rewrite <- Hkeys, (find_by_id_unique _ _ Hnd Hin) in Hc.
      simpl in Hc. congruence. }
    set (w2 := set_api_keys _ w1) in Hrest.
    assert (Hnd' : List.NoDup (List.map APIKey.id (api_keys w2))).
    { subst w2. simpl. rewrite List.map_map.
      erewrite List.map_ext; [exact Hnd|]. intros x. now destruct (String.eqb _ _). }
    assert (Hc' : usage_of (APIKey.id r0) w2 = Some (c + 1)).
    { subst w2. unfold usage_of. simpl.
      rewrite (find_map_same (fun r => String.eqb (APIKey.id r) (APIKey.id r0))).
      - rewrite (find_by_id_unique _ _ Hnd Hin). simpl.
        rewrite String.eqb_refl. simpl. now rewrite Hc0.
      - intros x.
        destruct (String.eqb (APIKey.id x) (APIKey.id r0)) eqn:E; simpl; exact E. }
    destruct (IH _ _ _ _ _ _ _ Hnd' Hc' Hrest Hall) as [Hlen Hcount].
    split; [simpl; now rewrite Hlen|]. rewrite Hcount. f_equal. lia.
Qed.


(** [commit] writes the count of the caller's instance plus one, whatever
    count is stored. *)
Lemma commit_writes_loaded_count (r : APIKeyObj) (now : datetime) (w : world) (c : Z) :
  usage_of (APIKey.id (columns r)) w = Some c ->
  usage_of (APIKey.id (columns r)) (snd (commit r now w))
  = Some (APIKey.usage_count (columns r) + 1).
Proof.
  unfold usage_of, commit. run. intros Hc.
  rewrite (find_map_same (fun x => String.eqb (APIKey.id x) (APIKey.id (columns r)))).
  - destruct (List.find _ (api_keys w)) as [x|] eqn:Hfind; [|discriminate].
    apply find_some in Hfind as [_ Hx]. simpl. now rewrite Hx.
  - intros x.
    destruct (String.eqb (APIKey.id x) (APIKey.id (columns r))) eqn:E; simpl; exact E.
Qed.

(** C5 (amended). When [n] callers present the key one after the other,
    every call succeeding and returning the key with id [key_id], the
    stored [usage_count] of that key ends exactly [n] above its start; and
    the increment is a read-modify-write on the caller's instance: the
    commit stores the count that instance was loaded with, plus one,
    whatever count the store holds by then. *)
Theorem sequential_verifications_count (key : string) (now : datetime) (n : nat) :
  (forall (k : nat) (held : gmap nat APIKeyObj) (w : world)
          (rs : list APIKeyObj) (w' : world) (key_id : string) (c : Z),
     List.NoDup (List.map APIKey.id (api_keys w)) ->
     usage_of key_id w = Some c ->
     run_schedule key now (sequential k n) held w = Some (rs, w') ->
     Forall (fun r => APIKey.id (columns r) = key_id) rs ->
     length rs = n /\ usage_of key_id w' = Some (c + Z.of_nat n))
  /\ (forall (r : APIKeyObj) (w : world) (c : Z),
        usage_of (APIKey.id (columns r)) w = Some c ->
        usage_of (APIKey.id (columns r)) (snd (commit r now w))
        = Some (APIKey.usage_count (columns r) + 1)).
Proof.
  split.
  - apply sequential_count.
  - intros r w c. apply commit_writes_loaded_count.
Qed.

End CallersProperties.

Section CallersRuns.
#[local] Existing Instance Demo.env.
Import Callers.

Lemma sequential_verifications_count_witness :
  exists rs w',
    run_schedule Demo.alice_secret 50 (sequential 0 3) ∅ Demo.active_world = Some (rs, w')
    /\ length rs = 3%nat
    /\ usage_of "ak_alice" w' = Some 3.
Proof.
  destruct (run_schedule Demo.alice_secret 50 (sequential 0 3) ∅ Demo.active_world)
    as [[rs w']|] eqn:Hrun; [|discriminate Hrun].
  exists rs, w'. split; [reflexivity|].
  destruct (sequential_verifications_count Demo.alice_secret 50 3) as [Hseq _].
  apply (Hseq 0%nat ∅ Demo.active_world rs w' "ak_alice" 0).
  - repeat constructor. simpl. intros [].
  - reflexivity.
  - exact Hrun.
  - injection Hrun as <- _. repeat constructor.
Defined.

(** Two callers present Alice's key; both load it before either commits.
    Both verifications succeed, and the counter ends at 1. *)
Lemma interleaved_verifications_lose_an_update :
  usage_of "ak_alice" Demo.active_world = Some 0
  /\ exists r1 r2 w',
       run_schedule Demo.alice_secret 50 [Load 0; Load 1; Commit 0; Commit 1]%nat ∅
         Demo.active_world
       = Some ([r1; r2], w')
       /\ APIKey.id (columns r1) = "ak_alice"
       /\ APIKey.id (columns r2) = "ak_alice"
       /\ usage_of "ak_alice" w' = Some 1.
Proof.
  split; [reflexivity|]. do 3 eexists. split; [vm_compute; reflexivity|].
  repeat split.
Qed.

End CallersRuns.

(** * Further properties: tokens, credentials, routing, metering *)

(** ** Properties of issuing, verifying and refreshing tokens *)

Section TokenIssueProperties.
Context `{Env}.

(** [create_token], step by step. *)
Lemma create_token_run key_id expires_in token_hex now w :
  tokens.create_token key_id expires_in token_hex now w
  = (match List.find (fun r => String.eqb (APIKey.id r) key_id) (api_keys w) with
     | Some k =>
         if APIKey.is_active k then
           let d := match expires_in with Some d => d | None => tokens.default_expiry end in
           Ok (tokens.mkTokenResponse
                 (jwt_encode (issued_claims key_id (APIKey.name k) now (now + d) token_hex)
                             (secret_key settings) tokens.algorithm)
                 "bearer" d (now + d) key_id (APIKey.name k))
         else Raise (ValueError "Invalid or inactive API key")
     | None => Raise (ValueError "Invalid or inactive API key")
     end,
     log_read (SelectKeyById key_id) w).
Proof.
  unfold tokens.create_token, query_key_by_id. run.
  destruct (List.find _ (api_keys w)) as [k|]; simpl; [|reflexivity].
  destruct (APIKey.is_active k); reflexivity.
Qed.

(** [verify_token], step by step. *)
Lemma verify_token_run token now w :
  tokens.verify_token token now w
  = match jwt_decode token (secret_key settings) [tokens.algorithm] now with
    | Decoded p =>
        match sub p with
        | Some key_id =>
            if Py.truthy key_id then
              (Ok (tokens.mkTokenData key_id (p_name p) (jti p) (iat p) (exp p)
                     <$> (loaded <$> List.find
                            (fun r => String.eqb (APIKey.id r) key_id && APIKey.is_active r)
                            (api_keys w))),
               log_read (SelectActiveKeyById key_id) w)
            else (Ok None, w)
        | None => (Ok None, w)
        end
    | _ => (Ok None, w)
    end.
Proof.
  unfold tokens.verify_token, query_active_key_by_id.
  destruct (jwt_decode _ _ _ _) as [p| | |]; try reflexivity.
  destruct (sub p) as [key_id|]; [|reflexivity].
  destruct (Py.truthy key_id); [|reflexivity]. run.
  destruct (List.find _ (api_keys w)); reflexivity.
Qed.

Lemma find_exists {A} (f : A -> bool) (l : list A) (x : A) :
  In x l -> f x = true -> exists y, List.find f l = Some y.
Proof.
  intros Hin Hfx. destruct (List.find f l) as [y|] eqn:Hfind; [eauto|].
  now rewrite (find_none _ _ Hfind x Hin) in Hfx.
Qed.

(** The first row with an id, when active, is the first active row with
    that id. *)
Lemma find_active_of_first (keys : list APIKey.t) (key_id : string) (k : APIKey.t) :
  List.find (fun r => String.eqb (APIKey.id r) key_id) keys = Some k ->
  APIKey.is_active k = true ->
  List.find (fun r => String.eqb (APIKey.id r) key_id && APIKey.is_active r) keys = Some k.
Proof.
  induction keys as [|x keys IH]; [discriminate|]. simpl.
  destruct (String.eqb (APIKey.id x) key_id); simpl; [|exact IH].
  intros [= ->] Hact. now rewrite Hact.
Qed.

(** With ids a primary key, the first active row with an id is the row with
    that id. *)
Lemma find_first_of_active (keys : list APIKey.t) (key_id : string) (k : APIKey.t) :
  List.NoDup (List.map APIKey.id keys) ->
  List.find (fun r => String.eqb (APIKey.id r) key_id && APIKey.is_active r) keys = Some k ->
  List.find (fun r => String.eqb (APIKey.id r) key_id) keys = Some k
  /\ APIKey.is_active k = true /\ APIKey.id k = key_id.
Proof.
  intros Hnd Hfind. apply find_some in Hfind as [Hin Hk].
  apply andb_prop in Hk as [Hid Hact]. apply String.eqb_eq in Hid. subst key_id.
  split; [now apply find_by_id_unique|]. now split.
Qed.

Lemma verify_token_returns_data (token : string) (now : datetime) (w : world) :
  (forall d, fst (tokens.verify_token token now w) = Ok (Some d) ->
     exists p,
       jwt_decode token (secret_key settings) [tokens.algorithm] now = Decoded p
       /\ sub p = Some (tokens.api_key_id d)
       /\ tokens.api_key_id d <> ""
       /\ In (columns (tokens.api_key_record d)) (api_keys w)
       /\ APIKey.id (columns (tokens.api_key_record d)) = tokens.api_key_id d
       /\ APIKey.is_active (columns (tokens.api_key_record d)) = true
       /\ tokens.td_expires_at d = exp p /\ tokens.token_id d = jti p)
  /\ (forall p key_id r,
        jwt_decode token (secret_key settings) [tokens.algorithm] now = Decoded p ->
        sub p = Some key_id -> key_id <> "" ->
        In r (api_keys w) -> APIKey.id r = key_id -> APIKey.is_active r = true ->
        exists d, fst (tokens.verify_token token now w) = Ok (Some d)
                  /\ tokens.api_key_id d = key_id).
Proof.
  rewrite verify_token_run. split.
  - intros d. destruct (jwt_decode _ _ _ _) as [p| | |]; try discriminate.
    destruct (sub p) as [key_id|] eqn:Hsub; [|discriminate].
    destruct key_id as [|c key_id]; [discriminate|]. simpl.
    destruct (List.find _ (api_keys w)) as [k|] eqn:Hfind; [|discriminate].
    simpl. intros [= <-]. simpl. apply find_some in Hfind as [Hin Hk].
    apply andb_prop in Hk as [Hid Hact]. apply String.eqb_eq in Hid.
    exists p. split; [reflexivity|]. split; [exact Hsub|].
    split; [discriminate|]. auto.
  - intros p key_id r -> -> Hne Hin Hid Hact.
    destruct key_id as [|c key_id]; [contradiction|]. simpl.
    destruct (find_exists
                (fun r => String.eqb (APIKey.id r) (String c key_id) && APIKey.is_active r)
                (api_keys w) r Hin) as [k Hk].
    { rewrite Hid, String.eqb_refl, Hact. reflexivity. }
    rewrite Hk. simpl. eexists. split; reflexivity.
Qed.

Lemma verify_token_never_raises (token : string) (now : datetime) (w : world) (e : exn) :
  fst (tokens.verify_token token now w) <> Raise e.
Proof.
  rewrite verify_token_run.
  destruct (jwt_decode _ _ _ _) as [p| | |]; try discriminate.
  destruct (sub p) as [key_id|]; [|discriminate].
  destruct (Py.truthy key_id); [|discriminate]. simpl.
  destruct (List.find _ (api_keys w)); discriminate.
Qed.

(** X1. [verify_token] returns data exactly when the library accepts the
    token, its subject is a non-empty id, and the store has an active row
    with that id; the data then carry that id and an active row with it.
    In every other case it returns [None]: it returns [None] exactly when
    there is no such decoded payload and row, and it never raises. *)
Theorem verify_token_sound_and_complete (token : string) (now : datetime) (w : world) :
  (forall d, fst (tokens.verify_token token now w) = Ok (Some d) ->
     exists p,
       jwt_decode token (secret_key settings) [tokens.algorithm] now = Decoded p
       /\ sub p = Some (tokens.api_key_id d)
       /\ tokens.api_key_id d <> ""
       /\ In (columns (tokens.api_key_record d)) (api_keys w)
       /\ APIKey.id (columns (tokens.api_key_record d)) = tokens.api_key_id d
       /\ APIKey.is_active (columns (tokens.api_key_record d)) = true
       /\ tokens.td_expires_at d = exp p /\ tokens.token_id d = jti p)
  /\ (forall p key_id r,
        jwt_decode token (secret_key settings) [tokens.algorithm] now = Decoded p ->
        sub p = Some key_id -> key_id <> "" ->
        In r (api_keys w) -> APIKey.id r = key_id -> APIKey.is_active r = true ->
        exists d, fst (tokens.verify_token token now w) = Ok (Some d)
                  /\ tokens.api_key_id d = key_id)
  /\ (fst (tokens.verify_token token now w) = Ok None
      <-> ~ (exists p r,
               jwt_decode token (secret_key settings) [tokens.algorithm] now = Decoded p
               /\ sub p = Some (APIKey.id r) /\ APIKey.id r <> ""
               /\ In r (api_keys w) /\ APIKey.is_active r = true))
  /\ ((exists d, fst (tokens.verify_token token now w) = Ok (Some d))
      \/ fst (tokens.verify_token token now w) = Ok None).
Proof.
  destruct (verify_token_returns_data token now w) as [Hsound Hcomplete].
  pose proof (verify_token_never_raises token now w) as Hraise.
  split; [exact Hsound|]. split; [exact Hcomplete|].
  destruct (fst (tokens.verify_token token now w)) as [[d|]|e].
  - split; [|left; exists d; reflexivity]. split; [discriminate|].
    intros Hno. exfalso. apply Hno.
    destruct (Hsound d eq_refl) as (p & Hdec & Hsub & Hne & Hin & Hid & Hact & _).
    exists p, (columns (tokens.api_key_record d)).
    rewrite Hid. auto.
  - split; [|right; reflexivity]. split; [|reflexivity].
    intros _ (p & r & Hdec & Hsub & Hne & Hin & Hact).
    destruct (Hcomplete p (APIKey.id r) r Hdec Hsub Hne Hin eq_refl Hact) as (d & Hd & _).
    discriminate Hd.
  - destruct (Hraise e eq_refl).
Qed.

(** X2. A token just issued verifies: if [create_token] succeeds for a
    non-empty key id and the library decodes the token to the claims that
    were signed, then [verify_token] returns data for the same key, with
    the token id and the expiry that [create_token] chose. *)
Theorem issued_token_verifies (key_id : string) (expires_in : option Z)
    (token_hex : string) (t0 t : datetime) (w : world)
    (r : tokens.token_response) (w1 : world) :
  tokens.create_token key_id expires_in token_hex t0 w = (Ok r, w1) ->
  key_id <> "" ->
  jwt_decode (tokens.access_token r) (secret_key settings) [tokens.algorithm] t
  = Decoded (issued_claims key_id (tokens.tr_api_key_name r) t0
               (tokens.expires_at r) token_hex) ->
  stored w1 = stored w
  /\ tokens.expires_at r = t0 + tokens.expires_in r
  /\ tokens.expires_in r = default tokens.default_expiry expires_in
  /\ exists d,
       fst (tokens.verify_token (tokens.access_token r) t w1) = Ok (Some d)
       /\ tokens.api_key_id d = key_id
       /\ tokens.api_key_name d = Some (tokens.tr_api_key_name r)
       /\ tokens.token_id d = Some token_hex
       /\ tokens.td_expires_at d = Some (tokens.expires_at r)
       /\ APIKey.is_active (columns (tokens.api_key_record d)) = true.
Proof.
  rewrite create_token_run.
  destruct (List.find _ (api_keys w)) as [k|] eqn:Hfind; [|discriminate].
  destruct (APIKey.is_active k) eqn:Hact; [|discriminate].
  intros [= <- <-] Hne Hdec. simpl in *.
  split; [reflexivity|]. split; [reflexivity|].
  split; [now destruct expires_in|].
  rewrite verify_token_run, Hdec. simpl.
  destruct key_id as [|c key_id]; [contradiction|]. simpl.
  rewrite (find_active_of_first _ _ _ Hfind Hact). simpl.
  eexists. split; [reflexivity|]. simpl. auto.
Qed.

(** What a call of [verify_token] can have done. *)
Lemma verify_token_cases token now w o w1 :
  tokens.verify_token token now w = (o, w1) ->
  stored w1 = stored w
  /\ match o with
     | Ok (Some d) =>
         List.find (fun r => String.eqb (APIKey.id r) (tokens.api_key_id d)
                             && APIKey.is_active r) (api_keys w)
         = Some (columns (tokens.api_key_record d))
     | Ok None => True
     | Raise _ => False
     end.
Proof.
  rewrite verify_token_run.
  destruct (jwt_decode _ _ _ _) as [p| | |]; try (intros [= <- <-]; now split).
  destruct (sub p) as [key_id|]; [|intros [= <- <-]; now split].
  destruct (Py.truthy key_id); [|intros [= <- <-]; now split].
  destruct (List.find _ (api_keys w)) as [k|] eqn:Hfind; intros [= <- <-];
    simpl; now split.
Qed.

(** X3. With ids a primary key, [refresh_token] never raises: it returns
    [None] exactly when [verify_token] does, and otherwise a token for the
    subject of the old one, signed with the manager's default window of 24
    hours from now, whatever window the old token had.  Nothing stored
    changes, and the route answers 401 in the first case. *)
Theorem refresh_token_same_subject_default_window
    (old_token token_hex : string) (now : datetime) (w : world) :
  List.NoDup (List.map APIKey.id (api_keys w)) ->
  stored (snd (tokens.refresh_token old_token token_hex now w)) = stored w
  /\ match fst (tokens.verify_token old_token now w) with
     | Ok (Some d) =>
         let name := APIKey.name (columns (tokens.api_key_record d)) in
         let r := tokens.mkTokenResponse
                    (jwt_encode (issued_claims (tokens.api_key_id d) name now
                                   (now + 86400) token_hex)
                                (secret_key settings) tokens.algorithm)
                    "bearer" 86400 (now + 86400) (tokens.api_key_id d) name in
         fst (tokens.refresh_token old_token token_hex now w) = Ok (Some r)
         /\ fst (token_routes.refresh_token old_token token_hex now w) = Ok r
     | _ =>
         fst (tokens.refresh_token old_token token_hex now w) = Ok None
         /\ fst (token_routes.refresh_token old_token token_hex now w)
            = Raise (HTTPException 401 "Invalid or expired token")
     end.
Proof.
  intros Hnd. unfold token_routes.refresh_token, tokens.refresh_token.
  unfold bind, try_except.
  destruct (tokens.verify_token old_token now w) as [o w1] eqn:Hverify.
  destruct (verify_token_cases _ _ _ _ _ Hverify) as [Hstored Hcase].
  destruct o as [[d|]|e]; simpl; [| now split | contradiction].
  assert (Hkeys : api_keys w1 = api_keys w) by (unfold stored in Hstored; congruence).
  destruct (find_first_of_active _ _ _ Hnd Hcase) as (Hfirst & Hact & Hid).
  rewrite create_token_run, Hkeys, Hfirst, Hact. simpl.
  split; [exact Hstored|]. now split.
Qed.

End TokenIssueProperties.

Section TokenExchangeProperties.
Context `{Env}.

(** The key manager without Redis goes to the store. *)
Lemma verify_api_key_without_redis key w :
  utils_auth.verify_api_key (utils_auth.mkManager false) key w
  = (Ok (loaded <$> active_row_with_hash (sha256_hexdigest key) w),
     log_read (SelectActiveKeyByHash (sha256_hexdigest key)) w).
Proof.
  unfold utils_auth.verify_api_key, query_active_key_by_hash, active_row_with_hash.
  run. destruct (List.find _ (api_keys w)); reflexivity.
Qed.

(** X4. The token exchange never consults the cache: when the store has no
    active row for the presented secret the route answers 401 "Invalid API
    key", whatever Redis holds, and changes nothing that is stored. *)
Theorem token_exchange_refuses_key_not_active_in_store
    (request : token_routes.TokenRequest) (token_hex : string) (now : datetime)
    (w : world) :
  active_row_with_hash (sha256_hexdigest (token_routes.api_key request)) w = None ->
  fst (token_routes.create_token request token_hex now w)
  = Raise (HTTPException 401 "Invalid API key")
  /\ stored (snd (token_routes.create_token request token_hex now w)) = stored w.
Proof.
  intros Hnone. unfold token_routes.create_token. unfold try_except, bind.
  rewrite verify_api_key_without_redis, Hnone. simpl. now split.
Qed.

(** X5. For a request that passed the validation of [TokenRequest]
    ([expires_in_hours] between 1 and 168, or null): when the store has an
    active row for the presented secret (ids being a primary key), the
    exchange with [hours] hours succeeds: the token is signed for that key
    with expiry [now + hours * 3600], which is between one hour and one
    week ahead, the key's [usage_count] is written as its loaded value
    plus one, and usage rows and cache are left alone.  With
    [expires_in_hours] null the route answers 500 and counts nothing. *)
Theorem token_exchange_issues_for_active_key
    (request : token_routes.TokenRequest) (token_hex : string) (now : datetime)
    (w : world) (k : APIKey.t) :
  token_routes.valid_hours (token_routes.expires_in_hours request) = true ->
  active_row_with_hash (sha256_hexdigest (token_routes.api_key request)) w = Some k ->
  List.NoDup (List.map APIKey.id (api_keys w)) ->
  let res := token_routes.create_token request token_hex now w in
  match token_routes.expires_in_hours request with
  | Some hours =>
      fst res
      = Ok (tokens.mkTokenResponse
              (jwt_encode (issued_claims (APIKey.id k) (APIKey.name k) now
                             (now + hours * 3600) token_hex)
                          (secret_key settings) tokens.algorithm)
              "bearer" (hours * 3600) (now + hours * 3600)
              (APIKey.id k) (APIKey.name k))
      /\ now + 3600 <= now + hours * 3600 <= now + 604800
      /\ api_keys (snd res)
         = List.map (fun r => if String.eqb (APIKey.id r) (APIKey.id k)
                              then APIKey.set_usage_count (APIKey.usage_count k + 1) r
                              else r) (api_keys w)
      /\ Callers.usage_of (APIKey.id k) (snd res) = Some (APIKey.usage_count k + 1)
  | None =>
      (exists detail, fst res = Raise (HTTPException 500 detail))
      /\ api_keys (snd res) = api_keys w
  end
  /\ usage_logs (snd res) = usage_logs w
  /\ redis_store (snd res) = redis_store w.
Proof.
  intros Hvalid Hrow Hnd. cbv zeta. unfold token_routes.create_token.
  unfold try_except, bind.
  rewrite verify_api_key_without_redis, Hrow. simpl.
  assert (Hin : In k (api_keys w) /\ APIKey.is_active k = true).
  { unfold active_row_with_hash in Hrow. apply find_some in Hrow as [Hin Hk].
    apply andb_prop in Hk as [_ Hact]. now split. }
  destruct Hin as [Hin Hact]. rewrite Hact. simpl.
  destruct (token_routes.expires_in_hours request) as [hours|]; simpl;
    [|repeat split; eauto].
  unfold token_routes.valid_hours in Hvalid.
  apply andb_prop in Hvalid as [Hlo Hhi].
  apply Z.leb_le in Hlo. apply Z.leb_le in Hhi.
  rewrite create_token_run. simpl.
  rewrite (find_by_id_unique _ _ Hnd Hin), Hact. simpl.
  repeat split; try reflexivity; try lia.
  unfold Callers.usage_of. simpl.
  rewrite (find_map_same (fun r => String.eqb (APIKey.id r) (APIKey.id k))).
  - rewrite (find_by_id_unique _ _ Hnd Hin). simpl. now rewrite String.eqb_refl.
  - intros x. destruct (String.eqb (APIKey.id x) (APIKey.id k)) eqn:E; simpl; exact E.
Qed.

End TokenExchangeProperties.

Section TokenIssueRuns.
#[local] Existing Instance Demo.env.

Lemma issued_token_verifies_witness :
  let created := tokens.create_token "ak_alice" None "jti-1" 0 Demo.active_world in
  fst created
  = Ok (tokens.mkTokenResponse "alice.jwt" "bearer" 86400 86400 "ak_alice" "alice")
  /\ exists d,
       fst (tokens.verify_token "alice.jwt" 10 (snd created)) = Ok (Some d)
       /\ tokens.api_key_id d = "ak_alice"
       /\ tokens.td_expires_at d = Some 86400.
Proof.
  cbv zeta. split; [reflexivity|].
  destruct (issued_token_verifies "ak_alice" None "jti-1" 0 10 Demo.active_world
              (tokens.mkTokenResponse "alice.jwt" "bearer" 86400 86400 "ak_alice" "alice")
              (snd (tokens.create_token "ak_alice" None "jti-1" 0 Demo.active_world)))
    as (_ & _ & _ & d & Hd & Hid & _ & _ & Hexp & _);
    [reflexivity | discriminate | reflexivity |].
  exists d. repeat split; assumption.
Defined.

Lemma refresh_token_default_window_witness :
  fst (tokens.refresh_token "alice.jwt" "jti-2" 3600 Demo.active_world)
  = Ok (Some (tokens.mkTokenResponse "alice.jwt" "bearer" 86400 90000 "ak_alice" "alice")).
Proof.
  destruct (refresh_token_same_subject_default_window "alice.jwt" "jti-2" 3600
              Demo.active_world) as [_ Hres].
  - repeat constructor. simpl. intros [].
  - exact (proj1 Hres).
Defined.

Lemma token_exchange_refuses_witness :
  redis_store Demo.revoked_world
    !! utils_auth.cache_key (sha256_hexdigest Demo.alice_secret)
  = Some (3600, "ak_alice:alice:True")
  /\ fst (token_routes.create_token
            (token_routes.mkTokenRequest Demo.alice_secret (Some 24)) "jti-1" 0
            Demo.revoked_world)
     = Raise (HTTPException 401 "Invalid API key").
Proof.
  split; [reflexivity|].
  apply (token_exchange_refuses_key_not_active_in_store
           (token_routes.mkTokenRequest Demo.alice_secret (Some 24)) "jti-1" 0
           Demo.revoked_world).
  reflexivity.
Defined.

Lemma token_exchange_issues_witness :
  let res := token_routes.create_token
               (token_routes.mkTokenRequest Demo.alice_secret (Some 2)) "jti-1" 0
               Demo.active_world in
  fst res = Ok (tokens.mkTokenResponse "alice.jwt" "bearer" 7200 7200 "ak_alice" "alice")
  /\ Callers.usage_of "ak_alice" (snd res) = Some 1.
Proof.
  cbv zeta.
  destruct (token_exchange_issues_for_active_key
              (token_routes.mkTokenRequest Demo.alice_secret (Some 2)) "jti-1" 0
              Demo.active_world (Demo.alice_row true 0))
    as [(Hres & _ & _ & Hcount) _].
  - reflexivity.
  - reflexivity.
  - repeat constructor. simpl. intros [].
  - split; [exact Hres|exact Hcount].
Defined.

End TokenIssueRuns.

(** ** The credential dependency, its effects *)

Section DependencyEffects.
Context `{Env}.
#[local] Arguments Py.split : simpl never.

(** Everything a call of the manager's [verify_api_key] can have done: it
    never raises, never writes a table, and writes the cache only for the
    active row it found by hash. *)
Lemma verify_api_key_cases self key w o w1 :
  utils_auth.verify_api_key self key w = (o, w1) ->
  api_keys w1 = api_keys w /\ usage_logs w1 = usage_logs w
  /\ redis_client w1 = redis_client w
  /\ match o with
     | Raise _ => False
     | Ok None => redis_store w1 = redis_store w
     | Ok (Some k) =>
         In (columns k) (api_keys w) /\ last_used_at k = None
         /\ (redis_store w1 = redis_store w
             \/ (APIKey.is_active (columns k) = true
                 /\ APIKey.key_hash (columns k) = sha256_hexdigest key
                 /\ redis_store w1
                    = <[utils_auth.cache_key (sha256_hexdigest key)
                        := (3600, utils_auth.cache_value (columns k))]> (redis_store w)))
     end.
Proof.
  assert (Hstore : forall w0 : world,
    api_keys w0 = api_keys w -> usage_logs w0 = usage_logs w ->
    redis_client w0 = redis_client w -> redis_store w0 = redis_store w ->
    (api_key <- query_active_key_by_hash (sha256_hexdigest key) ;;
     match api_key with
     | Some k =>
         (if utils_auth.self_redis self
          then try_except
                 (redis_setex (utils_auth.cache_key (sha256_hexdigest key)) 3600
                    (utils_auth.cache_value (columns k)))
                 (fun _ => ret tt)
          else ret tt) ;;; ret api_key
     | None => ret api_key
     end) w0 = (o, w1) ->
    api_keys w1 = api_keys w /\ usage_logs w1 = usage_logs w
    /\ redis_client w1 = redis_client w
    /\ match o with
       | Raise _ => False
       | Ok None => redis_store w1 = redis_store w
       | Ok (Some k) =>
           In (columns k) (api_keys w) /\ last_used_at k = None
           /\ (redis_store w1 = redis_store w
               \/ (APIKey.is_active (columns k) = true
                   /\ APIKey.key_hash (columns k) = sha256_hexdigest key
                   /\ redis_store w1
                      = <[utils_auth.cache_key (sha256_hexdigest key)
                          := (3600, utils_auth.cache_value (columns k))]>
                          (redis_store w)))
       end).
  { intros w0 Hk Hu Hc Hs. unfold query_active_key_by_hash, redis_setex. run.
    rewrite Hk.
    destruct (List.find _ (api_keys w)) as [r|] eqn:Hfind; simpl.
    - apply find_some in Hfind as [Hin Hr]. apply andb_prop in Hr as [Hh Hact].
      apply String.eqb_eq in Hh.
      destruct (utils_auth.self_redis self); simpl; intros [= <- <-]; simpl;
        rewrite ?Hs; repeat split; auto.
    - intros [= <- <-]. simpl. auto. }
  unfold utils_auth.verify_api_key, redis_get, query_key_by_id. run.
  destruct (utils_auth.self_redis self) eqn:Hredis; simpl; [|now apply Hstore].
  destruct (redis_store w !! _) as [[ttl cached]|]; simpl; [|now apply Hstore].
  destruct (Py.truthy cached); [|now apply Hstore].
  destruct (Py.unpack3 _) as [[[key_id name] flag]|]; [|now apply Hstore].
  destruct (String.eqb flag "True"); [|now apply Hstore].
  simpl. destruct (List.find _ (api_keys w)) as [r|] eqn:Hfind; simpl;
    intros [= <- <-]; simpl; repeat split; auto.
  apply find_some in Hfind as [Hin _]. exact Hin.
Qed.

(** What a run of the dependency can have done. *)
Lemma dependency_outcomes request authorization api_key now w o w' :
  dependencies.verify_api_key request authorization api_key now w = (o, w') ->
  usage_logs w' = usage_logs w /\ redis_client w' = redis_client w
  /\ match o with
     | Raise e => (exists detail, e = HTTPException 401 detail) /\ stored w' = stored w
     | Ok r =>
         APIKey.is_active (columns r) = true
         /\ exists k,
              In k (api_keys w) /\ APIKey.id k = APIKey.id (columns r)
              /\ APIKey.key_hash k = APIKey.key_hash (columns r)
              /\ api_keys w'
                 = List.map (fun r0 => if String.eqb (APIKey.id r0) (APIKey.id k)
                                       then APIKey.set_usage_count (APIKey.usage_count k + 1) r0
                                       else r0)
                            (api_keys w)
     end.
Proof.
  unfold dependencies.verify_api_key.
  destruct (negb (Py.truthy_opt _)); [intros [= <- <-]; eauto 6|].
  destruct (dependencies.find_auth_header _ _ _) as [h|]; [|intros [= <- <-]; eauto 6].
  destruct (dependencies.extract_api_key_value h) as [v|]; [|intros [= <- <-]; eauto 6].
  destruct (negb (Py.truthy v)); [intros [= <- <-]; eauto 6|].
  unfold try_except, bind, get_world.
  destruct (utils_auth.verify_api_key _ v w) as [o1 w1] eqn:Hverify.
  destruct (verify_api_key_cases _ _ _ _ _ Hverify) as (Hk & Hu & Hc & Hcase).
  destruct o1 as [[k|]|e0]; [| |contradiction].
  - destruct (APIKey.is_active (columns k)) eqn:Hact; simpl.
    + intros [= <- <-]. simpl. repeat split; auto.
      exists (columns k). destruct Hcase as (Hin & _ & _). rewrite Hk.
      repeat split; auto.
    + intros [= <- <-]. repeat split; auto; [eauto|].
      destruct Hcase as (_ & _ & [Hs|(Hact' & _)]); [|congruence].
      unfold stored. congruence.
  - simpl. intros [= <- <-]. repeat split; auto; [eauto|]. unfold stored. congruence.
Qed.

(** X6. A request that the credential dependency turns away leaves no
    trace: the error is a 401 and keys, usage rows and cache are as
    before. *)
Theorem rejected_request_changes_nothing
    (request : dependencies.Request) (authorization api_key : option string)
    (now : datetime) (w : world) (e : exn) (w' : world) :
  dependencies.verify_api_key request authorization api_key now w = (Raise e, w') ->
  (exists detail, e = HTTPException 401 detail) /\ stored w' = stored w.
Proof.
  intros Hrun.
  destruct (dependency_outcomes _ _ _ _ _ _ _ Hrun) as (_ & _ & Hcase). exact Hcase.
Qed.

(** X7. A request that the dependency lets through counts once: with ids
    a primary key, the stored [usage_count] of the authenticated key goes
    up by exactly one, the record handed on shows the new count, and no
    other key's count, no [is_active] flag and no usage row changes. *)
Theorem authenticated_request_counts_once
    (request : dependencies.Request) (authorization api_key : option string)
    (now : datetime) (w : world) (r : APIKeyObj) (w' : world) :
  dependencies.verify_api_key request authorization api_key now w = (Ok r, w') ->
  List.NoDup (List.map APIKey.id (api_keys w)) ->
  exists c,
    Callers.usage_of (APIKey.id (columns r)) w = Some c
    /\ Callers.usage_of (APIKey.id (columns r)) w' = Some (c + 1)
    /\ APIKey.usage_count (columns r) = c + 1
    /\ (forall key_id, key_id <> APIKey.id (columns r) ->
          Callers.usage_of key_id w' = Callers.usage_of key_id w)
    /\ List.map APIKey.is_active (api_keys w') = List.map APIKey.is_active (api_keys w)
    /\ List.map APIKey.id (api_keys w') = List.map APIKey.id (api_keys w)
    /\ usage_logs w' = usage_logs w.
Proof.
  unfold dependencies.verify_api_key.
  destruct (negb (Py.truthy_opt _)); [discriminate|].
  destruct (dependencies.find_auth_header _ _ _) as [h|]; [|discriminate].
  destruct (dependencies.extract_api_key_value h) as [v|]; [|discriminate].
  destruct (negb (Py.truthy v)); [discriminate|].
  unfold try_except, bind, get_world.
  destruct (utils_auth.verify_api_key _ v w) as [o w1] eqn:Hverify.
  destruct (verify_api_key_cases _ _ _ _ _ Hverify) as (Hk & Hu & Hc & Hcase).
  destruct o as [[k|]|e0]; [| discriminate |contradiction].
  destruct (APIKey.is_active (columns k)) eqn:Hact; simpl; [|discriminate].
  intros [= <- <-] Hnd. simpl.
  destruct Hcase as (Hin & _ & _). rewrite Hk.
  set (k0 := columns k) in *.
  set (g := fun r0 : APIKey.t =>
              if String.eqb (APIKey.id r0) (APIKey.id k0)
              then APIKey.set_usage_count (APIKey.usage_count k0 + 1) r0 else r0).
  assert (Hg_id : forall x, APIKey.id (g x) = APIKey.id x)
    by (intros x; unfold g; now destruct (String.eqb _ _)).
  assert (Hg_act : forall x, APIKey.is_active (g x) = APIKey.is_active x)
    by (intros x; unfold g; now destruct (String.eqb _ _)).
  exists (APIKey.usage_count k0). unfold Callers.usage_of. simpl.
  split; [now rewrite (find_by_id_unique _ _ Hnd Hin)|].
  split.
  { rewrite (find_map_same (fun r0 => String.eqb (APIKey.id r0) (APIKey.id k0)) g)
      by (intros x; now rewrite Hg_id).
    rewrite (find_by_id_unique _ _ Hnd Hin). simpl. unfold g.
    now rewrite String.eqb_refl. }
  split; [reflexivity|]. split.
  { intros key_id Hne.
    rewrite (find_map_same (fun r0 => String.eqb (APIKey.id r0) key_id) g)
      by (intros x; now rewrite Hg_id).
    destruct (List.find _ (api_keys w)) as [x|] eqn:Hfind; [|reflexivity].
    apply find_some in Hfind as [_ Hx]. apply String.eqb_eq in Hx. simpl. unfold g.
    destruct (String.eqb_spec (APIKey.id x) (APIKey.id k0)); [congruence|reflexivity]. }
  split; [rewrite List.map_map; now apply List.map_ext|].
  split; [rewrite List.map_map; now apply List.map_ext|]. exact Hu.
Qed.

End DependencyEffects.

(** ** Presenting the key in a header *)

Section HeaderFormats.
Context `{Env}.

Lemma no_space_app s1 s2 : no_space (s1 +:+ s2) = no_space s1 && no_space s2.
Proof.
  induction s1 as [|c s1 IH]; [reflexivity|].
  change (String c s1 +:+ s2) with (String c (s1 +:+ s2)). simpl.
  rewrite IH. now rewrite andb_assoc.
Qed.

Lemma prefix_app (p s : string) :
  String.prefix p s = true -> exists rest, s = p +:+ rest.
Proof.
  revert s. induction p as [|a p IH]; intros s; [exists s; reflexivity|].
  destruct s as [|b s]; simpl; [discriminate|].
  destruct (ascii_dec a b) as [->|]; [|discriminate].
  intros Hp. destruct (IH s Hp) as [rest ->]. now exists rest.
Qed.

Lemma lstrip_no_space s : no_space s = true -> Py.lstrip s = s.
Proof.
  destruct s as [|c s]; [reflexivity|]. simpl.
  destruct (Py.isspace c); [discriminate|reflexivity].
Qed.

Lemma rstrip_cons c s : Py.isspace c = false -> Py.rstrip (String c s) = String c (Py.rstrip s).
Proof. intros Hc. simpl. rewrite Hc. now destruct (Py.rstrip s). Qed.

Lemma rstrip_no_space s : no_space s = true -> Py.rstrip s = s.
Proof.
  induction s as [|c s IH]; [reflexivity|]. simpl no_space.
  intros Hs. apply andb_prop in Hs as [Hc Hs]. apply negb_true_iff in Hc.
  now rewrite (rstrip_cons _ _ Hc), (IH Hs).
Qed.

Lemma strip_no_space s : no_space s = true -> Py.strip s = s.
Proof.
  intros Hs. unfold Py.strip. now rewrite (lstrip_no_space _ Hs), (rstrip_no_space _ Hs).
Qed.

(** A string without white space has no occurrence of ["Bearer "]. *)
Lemma replace_bearer_no_space s :
  no_space s = true -> Py.replace s "Bearer " "" = s.
Proof.
  unfold Py.replace. induction s as [|c s IH]; [reflexivity|].
  intros Hs. cbn [Py.replace_from].
  destruct (String.prefix "Bearer " (String c s)) eqn:Hp.
  - apply prefix_app in Hp as [rest Hrest]. rewrite Hrest, no_space_app in Hs.
    discriminate Hs.
  - simpl in Hs. apply andb_prop in Hs as [_ Hs]. now rewrite (IH Hs).
Qed.

Lemma prefix_of_app (p s : string) : String.prefix p (p +:+ s) = true.
Proof.
  induction p as [|a p IH]; [now destruct s|].
  change (String a p +:+ s) with (String a (p +:+ s)). simpl.
  destruct (ascii_dec a a); [exact IH|contradiction].
Qed.

Lemma replace_bearer_prefix s :
  Py.replace ("Bearer " +:+ s) "Bearer " "" = Py.replace s "Bearer " "".
Proof.
  unfold Py.replace.
  change (Py.replace_from "Bearer " "" 0 ("Bearer " +:+ s))
    with (if String.prefix "Bearer " ("Bearer " +:+ s)
          then "" +:+ Py.replace_from "Bearer " "" 0 s
          else String "B" (Py.replace_from "Bearer " "" 0
                             (String "e" (String "a" (String "r" (String "e"
                                (String "r" (String " " s)))))))).
  now rewrite prefix_of_app.
Qed.

Lemma substring_all s : String.substring 0 (String.length s) s = s.
Proof. induction s as [|c s IH]; [reflexivity|]. simpl. now rewrite IH. Qed.

(** [s[i:]] starts with [sub] when [i] is where [find] found it. *)
Lemma slice_from_find (s sub : string) (i : nat) :
  Py.find s sub = Some i -> exists rest, Py.slice_from s i = sub +:+ rest.
Proof.
  unfold Py.find, Py.slice_from. revert i.
  induction s as [|b s IH]; intros i.
  - simpl. destruct sub; [|discriminate]. intros [= <-]. now exists "".
  - cbn [String.index].
    destruct (String.prefix sub (String b s)) eqn:Hp.
    + intros [= <-]. rewrite Nat.sub_0_r, substring_all. now apply prefix_app.
    + destruct (String.index 0 sub s) as [n|]; [|discriminate].
      intros [= <-]. simpl. now apply IH.
Qed.

(** An [authorization] parameter that is not empty is the header used. *)
Lemma find_auth_header_given request (h : string) other :
  h <> "" -> dependencies.find_auth_header request (Some h) other = Some h.
Proof.
  intros Hne. unfold dependencies.find_auth_header.
  destruct h as [|c h]; [contradiction|]. reflexivity.
Qed.

(** Without that parameter, an [x-api-key] value that begins with the
    prefix is used as it is. *)
Lemma find_auth_header_x_api_key request (k : string) :
  Py.startswith k "llm-router-" = true ->
  dependencies.find_auth_header request None (Some k) = Some k.
Proof.
  intros Hp. unfold dependencies.find_auth_header.
  destruct k as [|c k]; [discriminate|].
  change (Py.truthy_opt None) with false.
  change (Py.truthy_opt (Some (String c k))) with true.
  cbn [negb andb]. rewrite Hp.
  change (Py.truthy_opt (Some (String c k))) with true. reflexivity.
Qed.

(** X8. A generated key can be presented in three ways with the same
    result: for a key that begins with the prefix and holds no white
    space, [Authorization: Bearer key], [Authorization: key] and
    [x-api-key: key] make the dependency behave identically, whatever the
    other header parameter holds in the first two cases. *)
Theorem key_presentations_agree (key : string) :
  Py.startswith key "llm-router-" = true ->
  no_space key = true ->
  forall (request : dependencies.Request) (other : option string)
         (now : datetime) (w : world),
    dependencies.verify_api_key request (Some ("Bearer " +:+ key)) other now w
    = dependencies.verify_api_key request (Some key) other now w
    /\ dependencies.verify_api_key request None (Some key) now w
       = dependencies.verify_api_key request (Some key) other now w
    /\ dependencies.extract_api_key_value ("Bearer " +:+ key) = Some key.
Proof.
  intros Hprefix Hns request other now w.
  assert (Hkey : exists c key', key = String c key').
  { destruct key; [discriminate|eauto]. }
  destruct Hkey as (c & key' & Hkey).
  assert (Hb : dependencies.extract_api_key_value ("Bearer " +:+ key) = Some key).
  { unfold dependencies.extract_api_key_value.
    unfold Py.startswith. rewrite prefix_of_app.
    now rewrite replace_bearer_prefix, (replace_bearer_no_space _ Hns),
      (strip_no_space _ Hns). }
  assert (Hd : dependencies.extract_api_key_value key = Some key).
  { unfold dependencies.extract_api_key_value.
    destruct (Py.startswith key "Bearer ") eqn:Hbear.
    - apply prefix_app in Hbear as [rest ->]. rewrite no_space_app in Hns.
      discriminate Hns.
    - now rewrite Hprefix, (strip_no_space _ Hns). }
  unfold dependencies.verify_api_key.
  rewrite (find_auth_header_given request ("Bearer " +:+ key) other) by discriminate.
  rewrite (find_auth_header_given request key other) by (rewrite Hkey; discriminate).
  rewrite (find_auth_header_x_api_key request key Hprefix).
  split; [|split; [|exact Hb]].
  - change (Py.truthy_opt (Some ("Bearer " +:+ key))) with true.
    rewrite Hb, Hd. rewrite Hkey. reflexivity.
  - reflexivity.
Qed.

(** X9. The key prefix is enforced outside the Bearer format only: from a
    header that does not begin with ["Bearer "], the value passed to the
    key manager begins with ["llm-router-"], and a header without the
    prefix anywhere is answered 401 "Invalid authorization format" with
    nothing touched; a Bearer value without white space is passed on as it
    is, prefix or not. *)
Theorem prefix_enforced_outside_bearer_only (h : string) :
  (Py.startswith h "Bearer " = false ->
   match dependencies.extract_api_key_value h with
   | Some v => Py.startswith v "llm-router-" = true
   | None =>
       Py.find h "llm-router-" = None
       /\ forall request other now w,
            h <> "" ->
            dependencies.verify_api_key request (Some h) other now w
            = (Raise (HTTPException 401 "Invalid authorization format"), w)
   end)
  /\ (no_space h = true ->
      dependencies.extract_api_key_value ("Bearer " +:+ h) = Some h).
Proof.
  split.
  - intros Hbear. unfold dependencies.extract_api_key_value at 1. rewrite Hbear.
    assert (Hstrip : forall rest,
              Py.startswith (Py.strip ("llm-router-" +:+ rest)) "llm-router-" = true).
    { intros rest. unfold Py.strip.
      change (Py.lstrip ("llm-router-" +:+ rest)) with ("llm-router-" +:+ rest).
      change ("llm-router-" +:+ rest)
        with (String "l" (String "l" (String "m" (String "-" (String "r" (String "o"
             (String "u" (String "t" (String "e" (String "r" (String "-" rest))))))))))).
      rewrite !rstrip_cons by reflexivity.
      exact (prefix_of_app "llm-router-" (Py.rstrip rest)). }
    destruct (Py.startswith h "llm-router-") eqn:Hp.
    + apply prefix_app in Hp as [rest ->]. apply Hstrip.
    + destruct (Py.find h "llm-router-") as [i|] eqn:Hfind.
      * destruct (slice_from_find _ _ _ Hfind) as [rest ->]. apply Hstrip.
      * split; [reflexivity|]. intros request other now w Hne.
        unfold dependencies.verify_api_key.
        rewrite (find_auth_header_given request h other Hne).
        destruct h as [|c h]; [contradiction|].
        change (Py.truthy_opt (Some (String c h))) with true. cbn [negb].
        unfold dependencies.extract_api_key_value. now rewrite Hbear, Hp, Hfind.
  - intros Hns. unfold dependencies.extract_api_key_value.
    unfold Py.startswith. rewrite prefix_of_app.
    now rewrite replace_bearer_prefix, (replace_bearer_no_space _ Hns),
      (strip_no_space _ Hns).
Qed.

End HeaderFormats.

Section DependencyEffectRuns.
#[local] Existing Instance Demo.env.

Lemma rejected_request_changes_nothing_witness :
  let res := dependencies.verify_api_key (dependencies.mkRequest [])
               (Some ("Bearer " +:+ Demo.alice_secret)) None 5 Demo.revoked_world in
  fst res = Raise (HTTPException 401 "API key is disabled")
  /\ stored (snd res) = stored Demo.revoked_world.
Proof.
  cbv zeta. split; [reflexivity|].
  destruct (rejected_request_changes_nothing (dependencies.mkRequest [])
              (Some ("Bearer " +:+ Demo.alice_secret)) None 5 Demo.revoked_world
              (HTTPException 401 "API key is disabled")
              (snd (dependencies.verify_api_key (dependencies.mkRequest [])
                      (Some ("Bearer " +:+ Demo.alice_secret)) None 5
                      Demo.revoked_world)))
    as [_ Hstored]; [reflexivity|exact Hstored].
Defined.

Lemma authenticated_request_counts_once_witness :
  let res := dependencies.verify_api_key (dependencies.mkRequest [])
               None (Some Demo.alice_secret) 5 Demo.active_world in
  fst res = Ok (mkObj (Demo.alice_row true 1) (Some 5))
  /\ Callers.usage_of "ak_alice" (snd res) = Some 1.
Proof.
  cbv zeta. split; [reflexivity|].
  destruct (authenticated_request_counts_once (dependencies.mkRequest [])
              None (Some Demo.alice_secret) 5 Demo.active_world
              (mkObj (Demo.alice_row true 1) (Some 5))
              (snd (dependencies.verify_api_key (dependencies.mkRequest [])
                      None (Some Demo.alice_secret) 5 Demo.active_world)))
    as (c & Hc & Hc' & _).
  - reflexivity.
  - repeat constructor. simpl. intros [].
  - simpl in Hc. injection Hc as <-. exact Hc'.
Defined.

Lemma key_presentations_agree_witness :
  dependencies.verify_api_key (dependencies.mkRequest [])
    (Some ("Bearer " +:+ Demo.alice_secret)) None 5 Demo.active_world
  = dependencies.verify_api_key (dependencies.mkRequest [])
      None (Some Demo.alice_secret) 5 Demo.active_world.
Proof.
  destruct (key_presentations_agree Demo.alice_secret) with
    (request := dependencies.mkRequest []) (other := @None string)
    (now := 5) (w := Demo.active_world) as (Hbearer & Hx & _);
    [reflexivity | reflexivity |].
  now rewrite Hbearer, Hx.
Defined.

End DependencyEffectRuns.

(** ** The client manager *)

Section ClientManagerProperties.

Lemma setup_provider_placed init_ok name key full minimal models models_minimal self :
  exists st,
    clients.setup_provider init_ok name key full minimal models models_minimal self
    = placed name st models models_minimal self.
Proof.
  unfold clients.setup_provider.
  destruct key as [key|]; [|now exists NotSet].
  destruct (Py.truthy key); [|now exists NotSet].
  destruct (init_ok (full key)); [now exists (Full (full key))|].
  destruct (init_ok (minimal key)); [now exists (Minimal (minimal key))|now exists NotSet].
Qed.

(** Every manager built at start-up is one of the shapes of [built]. *)
Lemma new_is_built importable init_ok settings :
  exists o g q, clients.new importable init_ok settings = built o g q.
Proof.
  unfold clients.new, clients.setup_clients.
  destruct importable; simpl; [|now exists NotSet, NotSet, NotSet].
  destruct (setup_provider_placed init_ok "openai" (clients.openai_api_key settings)
              (fun key => clients.mkAsyncOpenAI None key (Some 60%Q) (Some 2))
              (fun key => clients.mkAsyncOpenAI None key None None)
              clients.openai_models clients.openai_models_minimal
              (clients.mkClientManager [] [] [])) as [o ->].
  destruct (setup_provider_placed init_ok "gemini" (clients.gemini_api_key settings)
              (fun key => clients.mkAsyncOpenAI (Some (clients.gemini_base_url settings))
                            key (Some 60%Q) (Some 2))
              (fun key => clients.mkAsyncOpenAI (Some (clients.gemini_base_url settings))
                            key None None)
              clients.gemini_models clients.gemini_models_minimal
              (placed "openai" o clients.openai_models clients.openai_models_minimal
                 (clients.mkClientManager [] [] []))) as [g ->].
  destruct (setup_provider_placed init_ok "groq" (clients.groq_api_key settings)
              (fun key => clients.mkAsyncOpenAI (Some (clients.groq_base_url settings))
                            key (Some 60%Q) (Some 2))
              (fun key => clients.mkAsyncOpenAI (Some (clients.groq_base_url settings))
                            key None None)
              clients.groq_models clients.groq_models_minimal
              (placed "gemini" g clients.gemini_models clients.gemini_models_minimal
                 (placed "openai" o clients.openai_models clients.openai_models_minimal
                    (clients.mkClientManager [] [] [])))) as [q ->].
  now exists o, g, q.
Qed.

#[local] Arguments String.eqb : simpl never.

Ltac case_eqb :=
  repeat match goal with
         | H : context [String.eqb ?a ?b] |- _ =>
             destruct (String.eqb_spec a b); subst; simpl in H;
             try discriminate; try contradiction
         | |- context [String.eqb ?a ?b] =>
             destruct (String.eqb_spec a b); subst; simpl;
             try discriminate; try contradiction
         end.

(** The index of a start-up manager maps a model to a provider exactly when
    the provider's catalogue lists it. *)
Lemma built_index o g q model provider :
  clients.dict_get (clients.model_to_provider (built o g q)) model = Some provider
  <-> lists (built o g q) provider model = true.
Proof.
  unfold lists.
  destruct o, g, q; cbn; split; intros Hx.
  all: try discriminate.
  all: case_eqb; try congruence; try reflexivity.
  all: try (injection Hx as <-); vm_compute; congruence.
Qed.

(** A provider with a catalogue has a client, and its name is not empty. *)
Lemma built_listing_has_client o g q provider model :
  lists (built o g q) provider model = true ->
  Py.truthy provider = true
  /\ exists client, clients.dict_get (clients.clients (built o g q)) provider = Some client.
Proof.
  unfold lists.
  destruct o, g, q; cbn; intros Hx.
  all: try discriminate.
  all: case_eqb; eauto.
Qed.

(** A provider with a client has its name in the catalogue dictionary. *)
Lemma built_client_has_catalogue o g q provider client :
  clients.dict_get (clients.clients (built o g q)) provider = Some client ->
  clients.dict_in provider (clients.provider_models (built o g q)) = true.
Proof.
  unfold clients.dict_in.
  destruct o, g, q; cbn; intros Hx.
  all: try discriminate.
  all: case_eqb; eauto.
Qed.

(** Auto-detection on a start-up manager, in terms of the catalogues. *)
Lemma auto_detect_built o g q model :
  match clients.get_client_for_model (built o g q) model None with
  | Ok (client, provider) =>
      clients.dict_get (clients.clients (built o g q)) provider = Some client
      /\ Py.truthy provider = true
      /\ forall p, lists (built o g q) p model = true <-> p = provider
  | Raise e =>
      e = HTTPException 400
            ("Model '" +:+ model +:+ "' not available. Available models: "
             +:+ clients.repr_list
                   (clients.dict_keys (clients.model_to_provider (built o g q))))
      /\ forall p, lists (built o g q) p model = false
  end.
Proof.
  unfold clients.get_client_for_model.
  change (Py.truthy_opt None) with false. cbv iota zeta.
  destruct (clients.dict_get (clients.model_to_provider (built o g q)) model)
    as [provider|] eqn:Hindex.
  - pose proof (proj1 (built_index o g q model provider) Hindex) as Hlists.
    destruct (built_listing_has_client _ _ _ _ _ Hlists) as [Htruthy [client Hclient]].
    change (Py.truthy_opt (Some provider)) with (Py.truthy provider).
    change (default "" (Some provider)) with provider.
    rewrite Htruthy, Hclient. split; [exact Hclient|]. split; [exact Htruthy|].
    intros p. split.
    + intros Hp. apply built_index in Hp. congruence.
    + now intros ->.
  - change (Py.truthy_opt None) with false. cbv iota.
    split; [reflexivity|]. intros p.
    destruct (lists (built o g q) p model) eqn:Hp; [|reflexivity].
    apply built_index in Hp. congruence.
Qed.

(** X10. Auto-detection is sound and complete for the manager built at
    start-up, whatever the settings and whichever constructor calls fail: a
    model is routed to the one configured provider whose catalogue lists
    it, with that provider's client; a model that no catalogue of a
    configured provider lists is answered 400 with the list of the models
    known. *)
Theorem auto_detection_routes_to_the_listing_provider
    (importable : bool) (init_ok : clients.AsyncOpenAI -> bool)
    (settings : clients.ProviderSettings) (model : string) :
  let self := clients.new importable init_ok settings in
  match clients.get_client_for_model self model None with
  | Ok (client, provider) =>
      clients.dict_get (clients.clients self) provider = Some client
      /\ (forall p, lists self p model = true <-> p = provider)
  | Raise e =>
      e = HTTPException 400
            ("Model '" +:+ model +:+ "' not available. Available models: "
             +:+ clients.repr_list (clients.dict_keys (clients.model_to_provider self)))
      /\ forall p, lists self p model = false
  end.
Proof.
  cbv zeta. destruct (new_is_built importable init_ok settings) as (o & g & q & ->).
  pose proof (auto_detect_built o g q model) as Hauto.
  destruct (clients.get_client_for_model (built o g q) model None) as [[client provider]|e].
  - destruct Hauto as (Hclient & _ & Hlists). now split.
  - exact Hauto.
Qed.

(** X11. Naming the provider never changes where a model goes: on the
    manager built at start-up, a request that names provider [p] succeeds
    exactly when auto-detection routes the model to [p], and with the same
    client; a named provider is never replaced by another one; and every
    refusal, with or without a named provider, is a 400. *)
Theorem naming_the_provider_agrees_with_auto_detection
    (importable : bool) (init_ok : clients.AsyncOpenAI -> bool)
    (settings : clients.ProviderSettings) (model : string) :
  let self := clients.new importable init_ok settings in
  (forall p client,
     clients.get_client_for_model self model (Some p) = Ok (client, p)
     <-> clients.get_client_for_model self model None = Ok (client, p))
  /\ (forall p client p',
        p <> "" ->
        clients.get_client_for_model self model (Some p) = Ok (client, p') -> p' = p)
  /\ (forall preferred e,
        clients.get_client_for_model self model preferred = Raise e ->
        exists detail, e = HTTPException 400 detail).
Proof.
  cbv zeta. destruct (new_is_built importable init_ok settings) as (o & g & q & ->).
  pose proof (auto_detect_built o g q model) as Hauto.
  assert (Hnamed : forall p, Py.truthy p = true ->
            clients.get_client_for_model (built o g q) model (Some p)
            = match clients.dict_get (clients.clients (built o g q)) p with
              | Some client =>
                  if lists (built o g q) p model then Ok (client, p)
                  else Raise (HTTPException 400
                                ("Model '" +:+ model +:+ "' not available for provider '"
                                 +:+ p +:+ "'. Available: "
                                 +:+ clients.repr_list
                                       (default [] (clients.dict_get
                                          (clients.provider_models (built o g q)) p))))
              | None =>
                  Raise (HTTPException 400
                           ("Provider '" +:+ p +:+ "' not configured or available"))
              end).
  { intros p Hp. unfold clients.get_client_for_model. simpl Py.truthy_opt.
    rewrite Hp. reflexivity. }
  assert (Hempty : clients.get_client_for_model (built o g q) model (Some "")
                   = clients.get_client_for_model (built o g q) model None)
    by reflexivity.
  split; [|split].
  - intros p client. destruct (Py.truthy p) eqn:Hp.
    + rewrite (Hnamed p Hp).
      destruct (clients.get_client_for_model (built o g q) model None)
        as [[client' provider]|e].
      * destruct Hauto as (Hclient & _ & Hlists). split.
        -- destruct (clients.dict_get (clients.clients (built o g q)) p) as [c|] eqn:Hc;
             [|discriminate].
           destruct (lists (built o g q) p model) eqn:Hl; [|discriminate].
           intros [= ->]. apply Hlists in Hl. subst provider. congruence.
        -- intros [= -> ->]. rewrite Hclient.
           now rewrite (proj2 (Hlists p) eq_refl).
      * destruct Hauto as [_ Hnone]. rewrite (Hnone p).
        split; [|discriminate].
        now destruct (clients.dict_get (clients.clients (built o g q)) p).
    + destruct p; [|discriminate]. now rewrite Hempty.
  - intros p client p' Hne. destruct p as [|a p]; [contradiction|].
    rewrite (Hnamed (String a p) eq_refl).
    destruct (clients.dict_get _ _); [|discriminate].
    destruct (lists _ _ _); [|discriminate]. now intros [= _ <-].
  - intros preferred e.
    destruct preferred as [[|a p]|].
    + rewrite Hempty.
      destruct (clients.get_client_for_model (built o g q) model None) as [[? ?]|e'];
        [discriminate|].
      destruct Hauto as [-> _]. intros [= <-]. eauto.
    + rewrite (Hnamed (String a p) eq_refl).
      destruct (clients.dict_get _ _); [|intros [= <-]; eauto].
      destruct (lists _ _ _); [discriminate|intros [= <-]; eauto].
    + destruct (clients.get_client_for_model (built o g q) model None) as [[? ?]|e'];
        [discriminate|].
      destruct Hauto as [-> _]. intros [= <-]. eauto.
Qed.

Lemma dict_get_In {V} (d : clients.pydict V) (k : string) (v : V) :
  List.NoDup (clients.dict_keys d) ->
  In (k, v) d <-> clients.dict_get d k = Some v.
Proof.
  induction d as [|[k' v'] d IH]; simpl; intros Hnd; [split; [tauto|discriminate]|].
  apply List.NoDup_cons_iff in Hnd as [Hnotin Hnd].
  destruct (String.eqb_spec k' k) as [->|Hne].
  - split.
    + intros [[= ->]|Hin]; [reflexivity|].
      exfalso. apply Hnotin. apply in_map_iff. now exists (k, v).
    + intros [= ->]. now left.
  - rewrite <- (IH Hnd). split; [|tauto].
    intros [[= Hk _]|Hin]; [contradiction|exact Hin].
Qed.

Lemma built_catalogue_keys o g q :
  List.NoDup (clients.dict_keys (clients.provider_models (built o g q)))
  /\ clients.get_available_models (built o g q) = clients.provider_models (built o g q).
Proof.
  destruct o, g, q; split; try reflexivity; cbn;
    repeat constructor; simpl; intuition discriminate.
Qed.

Lemma lists_iff self provider model :
  lists self provider model = true
  <-> exists models,
        clients.dict_get (clients.provider_models self) provider = Some models
        /\ In model models.
Proof.
  unfold lists, clients.list_in.
  destruct (clients.dict_get (clients.provider_models self) provider) as [models|]; simpl.
  - rewrite existsb_exists. split.
    + intros (x & Hin & Hx). apply String.eqb_eq in Hx. subst x. eauto.
    + intros (models' & [= <-] & Hin). exists model. split; [exact Hin|].
      apply String.eqb_refl.
  - split; [discriminate|]. now intros (models & [=] & _).
Qed.

Lemma auto_detect_iff o g q model provider :
  (exists client,
     clients.get_client_for_model (built o g q) model None = Ok (client, provider))
  <-> lists (built o g q) provider model = true.
Proof.
  pose proof (auto_detect_built o g q model) as Hauto.
  destruct (clients.get_client_for_model (built o g q) model None) as [[client p]|e].
  - destruct Hauto as (_ & _ & Hlists). rewrite Hlists. split.
    + now intros (c & [= _ ->]).
    + intros ->. eauto.
  - destruct Hauto as [_ Hnone]. rewrite Hnone. split; [|discriminate].
    now intros (c & [=]).
Qed.

End ClientManagerProperties.

Section ModelRoutesProperties.
Context `{Env}.

(** X12. The model list shows what the router serves: for the manager
    built at start-up, an authenticated [GET /v1/models/] lists a model
    under a provider exactly when a chat request for that model, without a
    named provider, is routed to that provider; a request that the
    credential dependency refuses gets the dependency's error. *)
Theorem list_models_lists_what_is_routed
    (importable : bool) (init_ok : clients.AsyncOpenAI -> bool)
    (settings : clients.ProviderSettings)
    (request : dependencies.Request) (authorization api_key : option string)
    (now : datetime) (w : world) :
  let self := clients.new importable init_ok settings in
  match dependencies.verify_api_key request authorization api_key now w with
  | (Raise e, w') =>
      models_api.list_models self request authorization api_key now w = (Raise e, w')
  | (Ok _, w') =>
      exists data,
        models_api.list_models self request authorization api_key now w = (Ok data, w')
        /\ forall info,
             In info data
             <-> models_api.object info = "model"
                 /\ models_api.owned_by info = models_api.provider info
                 /\ exists client,
                      clients.get_client_for_model self (models_api.id info) None
                      = Ok (client, models_api.provider info)
  end.
Proof.
  cbv zeta. destruct (new_is_built importable init_ok settings) as (o & g & q & ->).
  unfold models_api.list_models, dependencies.get_current_api_key, bind, try_except, ret.
  destruct (dependencies.verify_api_key request authorization api_key now w)
    as [[r|e] w']; [|reflexivity].
  eexists. split; [reflexivity|].
  destruct (built_catalogue_keys o g q) as [Hnd ->].
  intros info. rewrite auto_detect_iff, lists_iff, in_flat_map. split.
  - intros ([p models] & Hin & Hinfo). apply in_map_iff in Hinfo as (m & <- & Hm).
    simpl. repeat split. exists models. split; [|exact Hm].
    now apply dict_get_In.
  - intros (Hobj & Hown & models & Hget & Hm).
    exists (models_api.provider info, models). split; [now apply dict_get_In|].
    apply in_map_iff. exists (models_api.id info). split; [|exact Hm].
    destruct info as [i ob p ow]. simpl in *. now subst.
Qed.

(** [get_model_info] for the manager built at start-up, step by step. *)
Lemma get_model_info_run
    (importable : bool) (init_ok : clients.AsyncOpenAI -> bool)
    (settings : clients.ProviderSettings) (model_id : string)
    (request : dependencies.Request) (authorization api_key : option string)
    (now : datetime) (w : world) :
  let self := clients.new importable init_ok settings in
  models_api.get_model_info self model_id request authorization api_key now w
  = match dependencies.verify_api_key request authorization api_key now w with
    | (Raise e, w') => (Raise e, w')
    | (Ok _, w') =>
        (match clients.get_client_for_model self model_id None with
         | Ok (_, provider) =>
             Ok (models_api.mkModelInfo model_id "model" provider provider)
         | Raise _ =>
             Raise (HTTPException 404
                      ("Model '" +:+ model_id +:+ "' not found. Available models: "
                       +:+ clients.repr_list
                             (clients.dict_keys (clients.model_to_provider self))))
         end, w')
    end.
Proof.
  cbv zeta. destruct (new_is_built importable init_ok settings) as (o & g & q & ->).
  unfold models_api.get_model_info, dependencies.get_current_api_key, bind, try_except.
  destruct (dependencies.verify_api_key request authorization api_key now w)
    as [[r|e] w']; [|reflexivity].
  pose proof (auto_detect_built o g q model_id) as Hauto.
  unfold clients.get_model_provider.
  destruct (clients.get_client_for_model (built o g q) model_id None)
    as [[client provider]|e] eqn:Hget.
  - destruct Hauto as (_ & Htruthy & Hlists).
    pose proof (proj2 (Hlists provider) eq_refl) as Hl.
    apply built_index in Hl. rewrite Hl. simpl. now rewrite Htruthy.
  - destruct Hauto as [_ Hnone].
    destruct (clients.dict_get (clients.model_to_provider (built o g q)) model_id)
      as [p|] eqn:Hindex; [|reflexivity].
    apply built_index in Hindex. now rewrite Hnone in Hindex.
Qed.

(** X13. The route function of [GET /v1/models/{model_id}] gives model
    information exactly for the models that are routed.  For the manager
    built at start-up and a path segment other than [providers] (that path
    belongs to the route declared before this one and never reaches this
    function): when the credential dependency refuses, the function raises
    what the dependency raised; when it accepts, the function leaves the
    world as the dependency left it and either returns the model with the
    provider that auto-detection routes it to, named as [provider] and as
    [owned_by], or, for every model that auto-detection refuses, raises an
    [HTTPException] with status 404.  (The body that goes with a 404 is
    chosen by the application's handler for that status, in [main.py]; the
    statement is on the status only.) *)
Theorem model_info_names_the_routing_provider
    (importable : bool) (init_ok : clients.AsyncOpenAI -> bool)
    (settings : clients.ProviderSettings) (model_id : string)
    (request : dependencies.Request) (authorization api_key : option string)
    (now : datetime) (w : world) :
  model_id <> "providers" ->
  let self := clients.new importable init_ok settings in
  let res := models_api.get_model_info self model_id request authorization api_key now w in
  match dependencies.verify_api_key request authorization api_key now w with
  | (Raise e, w') => res = (Raise e, w')
  | (Ok _, w') =>
      snd res = w'
      /\ match clients.get_client_for_model self model_id None with
         | Ok (_, provider) =>
             fst res = Ok (models_api.mkModelInfo model_id "model" provider provider)
         | Raise _ => exists detail, fst res = Raise (HTTPException 404 detail)
         end
  end.
Proof.
  intros _. cbv zeta. rewrite get_model_info_run.
  destruct (dependencies.verify_api_key request authorization api_key now w)
    as [[r|e] w']; [|reflexivity].
  simpl. split; [reflexivity|].
  destruct (clients.get_client_for_model _ model_id None) as [[client provider]|e];
    simpl; [reflexivity|eauto].
Qed.

End ModelRoutesProperties.

Section ModelRoutesRuns.
#[local] Existing Instance Demo.env.

Lemma model_info_names_the_routing_provider_witness :
  fst (models_api.get_model_info DemoChat.manager "gpt-4o" (dependencies.mkRequest [])
         None (Some Demo.alice_secret) 5 Demo.active_world)
  = Ok (models_api.mkModelInfo "gpt-4o" "model" "openai" "openai")
  /\ exists detail,
       fst (models_api.get_model_info DemoChat.manager "gemini-pro"
              (dependencies.mkRequest []) None (Some Demo.alice_secret) 5
              Demo.active_world)
       = Raise (HTTPException 404 detail).
Proof.
  split.
  - assert (Hpath : "gpt-4o" <> "providers") by discriminate.
    pose proof (model_info_names_the_routing_provider true (fun _ => true)
                  DemoChat.provider_settings "gpt-4o" (dependencies.mkRequest [])
                  None (Some Demo.alice_secret) 5 Demo.active_world Hpath) as Hrun.
    vm_compute in Hrun. destruct Hrun as [_ Hrun]. vm_compute. exact Hrun.
  - assert (Hpath : "gemini-pro" <> "providers") by discriminate.
    pose proof (model_info_names_the_routing_provider true (fun _ => true)
                  DemoChat.provider_settings "gemini-pro" (dependencies.mkRequest [])
                  None (Some Demo.alice_secret) 5 Demo.active_world Hpath) as Hrun.
    vm_compute in Hrun. destruct Hrun as [_ [detail Hrun]].
    exists detail. vm_compute. exact Hrun.
Defined.

End ModelRoutesRuns.

(** ** The chat route *)

Section ChatRouteProperties.
Context `{Env}.
Variable client_manager : clients.ClientManager.
Variable create : clients.AsyncOpenAI -> chat_api.OpenAIRequest -> chat_api.CompletionResult.
Variable create_stream : clients.AsyncOpenAI -> chat_api.OpenAIRequest -> chat.CreateResult.

(** The router refuses with 400 only. *)
Lemma get_client_for_model_raises self model preferred e :
  clients.get_client_for_model self model preferred = Raise e ->
  exists detail, e = HTTPException 400 detail.
Proof.
  unfold clients.get_client_for_model.
  destruct (Py.truthy_opt preferred).
  - destruct (clients.dict_get _ _); [|intros [= <-]; eauto].
    destruct (clients.list_in _ _); [discriminate|intros [= <-]; eauto].
  - destruct (if Py.truthy_opt _ then _ else _); [discriminate|intros [= <-]; eauto].
Qed.

(** The generator never raises, and writes at most one usage row. *)
Lemma stream_chat_completion_returns cr model provider key uuid now w :
  exists body w',
    chat.stream_chat_completion cr model provider key uuid now w = (Ok body, w')
    /\ api_keys w' = api_keys w /\ redis_store w' = redis_store w.
Proof.
  unfold chat.stream_chat_completion.
  destruct cr as [e|s]; [now eexists _, _|].
  destruct (chat.stream_loop provider s 0) as [yielded [t|e]]; [|now eexists _, _].
  unfold try_except, bind, ret.
  destruct (0 <? t).
  - destruct (log_usage_returns key provider model (chat.streamed_usage t) uuid now w)
      as (w' & -> & Hk & Hr & _).
    now eexists _, _.
  - now eexists _, _.
Qed.

Lemma log_usage_fresh key provider model u uuid now w :
  fresh_log_id uuid w = true ->
  chat.log_usage key provider model (chat.UsageObj u) uuid now w
  = (Ok tt, set_usage_logs (usage_logs w ++ [usage_row key provider model u uuid now]) w).
Proof.
  unfold fresh_log_id, chat.log_usage, insert_usage_log, try_except. simpl.
  intros Hfresh. apply negb_true_iff in Hfresh. now rewrite Hfresh.
Qed.

(** X14. A chat request that is refused is refused in one of three ways:
    with 401 by the credential dependency, the store untouched; with 400
    by the router, after the key was counted by the dependency and with
    nothing else written; or with 500, which happens to requests that are
    not streamed only. *)
Theorem chat_request_refusals
    (request : chat_api.ChatCompletionRequest) (http_request : dependencies.Request)
    (authorization api_key : option string) (uuid_hex : string) (now : datetime)
    (w : world) (e : exn) (w' : world) :
  chat_api.create_chat_completion client_manager create create_stream request
    http_request authorization api_key uuid_hex now w = (Raise e, w') ->
  exists status detail,
    e = HTTPException status detail
    /\ ((status = 401 /\ stored w' = stored w)
        \/ (status = 400
            /\ exists key,
                 dependencies.verify_api_key http_request authorization api_key now w
                 = (Ok key, w'))
        \/ (status = 500 /\ default false (chat_api.stream request) = false)).
Proof.
  unfold chat_api.create_chat_completion, dependencies.get_current_api_key.
  unfold bind at 1.
  destruct (dependencies.verify_api_key http_request authorization api_key now w)
    as [[key|e0] w0] eqn:Hdep.
  2:{ intros [= <- <-].
      destruct (dependency_outcomes _ _ _ _ _ _ _ Hdep) as (_ & _ & (detail & ->) & Hst).
      exists 401, detail. split; [reflexivity|]. left. now split. }
  unfold try_except.
  destruct (clients.get_client_for_model client_manager (chat_api.model request)
              (chat_api.provider request)) as [[client provider]|e1] eqn:Hget.
  2:{ destruct (get_client_for_model_raises _ _ _ _ Hget) as [detail ->].
      simpl. intros [= <- <-]. exists 400, detail. split; [reflexivity|].
      right. left. split; [reflexivity|]. now exists key. }
  destruct (default false (chat_api.stream request)) eqn:Hstream.
  { unfold bind.
    destruct (stream_chat_completion_returns
                (create_stream client (chat_api.openai_request_of request))
                (chat_api.openai_model (chat_api.openai_request_of request))
                provider (APIKey.id (columns key)) uuid_hex now w0)
      as (body & w1 & -> & _). discriminate. }
  assert (H500 : forall d, exists status detail : _,
            HTTPException 500 d = HTTPException status detail
            /\ ((status = 401 /\ stored w' = stored w)
                \/ (status = 400
                    /\ exists key0 : APIKeyObj, (Ok key, w0) = (Ok key0, w'))
                \/ (status = 500 /\ false = false))).
  { intros d. exists 500, d. split; [reflexivity|]. right. right. now split. }
  destruct (create client (chat_api.openai_request_of request)) as [e2|response].
  { simpl. intros [= <- <-]. apply H500. }
  unfold bind.
  destruct (match chat_api.upstream_usage response with
            | Some usage =>
                chat.log_usage (APIKey.id (columns key)) provider
                  (chat_api.model request) (chat.UsageObj usage) uuid_hex now
            | None => ret tt
            end w0) as [[[]|e3] w1] eqn:Hlog.
  2:{ destruct (chat_api.upstream_usage response) as [u|]; [|discriminate Hlog].
      destruct (log_usage_returns (APIKey.id (columns key)) provider
                  (chat_api.model request) (chat.UsageObj u) uuid_hex now w0)
        as (w2 & Hlog' & _). congruence. }
  destruct (chat_api.convert_choices (chat_api.upstream_choices response)).
  - destruct (chat_api.upstream_usage response); [discriminate|].
    simpl. intros [= <- <-]. apply H500.
  - simpl. intros [= <- <-]. apply H500.
Qed.

(** All that a completed request that is not streamed has done. *)
Lemma completed_chat_request_effects
    (request : chat_api.ChatCompletionRequest) (http_request : dependencies.Request)
    (authorization api_key : option string) (uuid_hex : string) (now : datetime)
    (w : world) (response : chat_api.ChatCompletionResponse) (w' : world) :
  chat_api.create_chat_completion client_manager create create_stream request
    http_request authorization api_key uuid_hex now w
  = (Ok (chat_api.Completed response), w') ->
  fresh_log_id uuid_hex w = true ->
  exists key w0,
    dependencies.verify_api_key http_request authorization api_key now w = (Ok key, w0)
    /\ w' = set_usage_logs
              (usage_logs w
               ++ [usage_row (APIKey.id (columns key))
                     (chat_api.response_provider response) (chat_api.model request)
                     (chat.mkUsage (chat_api.total_tokens (chat_api.usage response))
                                   (chat_api.prompt_tokens (chat_api.usage response))
                                   (chat_api.completion_tokens (chat_api.usage response)))
                     uuid_hex now]) w0.
Proof.
  unfold chat_api.create_chat_completion, dependencies.get_current_api_key.
  unfold bind at 1.
  destruct (dependencies.verify_api_key http_request authorization api_key now w)
    as [[key|e0] w0] eqn:Hdep; [|discriminate].
  destruct (dependency_outcomes _ _ _ _ _ _ _ Hdep) as (Hlogs & _).
  unfold try_except.
  destruct (clients.get_client_for_model client_manager (chat_api.model request)
              (chat_api.provider request)) as [[client provider]|e1] eqn:Hget.
  2:{ destruct (get_client_for_model_raises _ _ _ _ Hget) as [detail ->]. discriminate. }
  destruct (default false (chat_api.stream request)) eqn:Hstream.
  { unfold bind.
    destruct (stream_chat_completion_returns
                (create_stream client (chat_api.openai_request_of request))
                (chat_api.openai_model (chat_api.openai_request_of request))
                provider (APIKey.id (columns key)) uuid_hex now w0)
      as (body & w1 & -> & _). discriminate. }
  destruct (create client (chat_api.openai_request_of request)) as [e2|upstream].
  { discriminate. }
  intros Hrun Hfresh.
  assert (Hfresh0 : fresh_log_id uuid_hex w0 = true).
  { unfold fresh_log_id in *. now rewrite Hlogs. }
  destruct (chat_api.upstream_usage upstream) as [[total prompt completion]|].
  - unfold bind in Hrun. rewrite (log_usage_fresh _ _ _ _ _ _ _ Hfresh0) in Hrun.
    destruct (chat_api.convert_choices (chat_api.upstream_choices upstream));
      [|discriminate].
    injection Hrun as <- <-. exists key, w0. simpl. rewrite Hlogs. now split.
  - unfold bind, ret in Hrun.
    destruct (chat_api.convert_choices (chat_api.upstream_choices upstream));
      discriminate.
Qed.

(** X15. A completed chat request is metered once, with the figures the
    caller is given: when the route returns the response object and the
    row id is not taken, the usage table has grown by exactly one row; the
    row belongs to the authenticated key, names the provider and the usage
    of the response and the model of the request, and carries the cost of
    these; the key table is as the dependency left it. *)
Theorem completed_chat_request_is_metered_once
    (request : chat_api.ChatCompletionRequest) (http_request : dependencies.Request)
    (authorization api_key : option string) (uuid_hex : string) (now : datetime)
    (w : world) (response : chat_api.ChatCompletionResponse) (w' : world) :
  chat_api.create_chat_completion client_manager create create_stream request
    http_request authorization api_key uuid_hex now w
  = (Ok (chat_api.Completed response), w') ->
  fresh_log_id uuid_hex w = true ->
  exists key w0,
    dependencies.verify_api_key http_request authorization api_key now w = (Ok key, w0)
    /\ api_keys w' = api_keys w0
    /\ usage_logs w'
       = usage_logs w
         ++ [usage_row (APIKey.id (columns key)) (chat_api.response_provider response)
               (chat_api.model request)
               (chat.mkUsage (chat_api.total_tokens (chat_api.usage response))
                             (chat_api.prompt_tokens (chat_api.usage response))
                             (chat_api.completion_tokens (chat_api.usage response)))
               uuid_hex now].
Proof.
  intros Hrun Hfresh.
  destruct (completed_chat_request_effects _ _ _ _ _ _ _ _ _ Hrun Hfresh)
    as (key & w0 & Hdep & ->).
  now exists key, w0.
Qed.

(** X16. A completion is metered before it is converted: when the key is
    accepted, the model is routed, the upstream answers with a usage, and
    one of its choices has no content or no finish reason, the request
    fails with 500 and its usage row is written all the same. *)
Theorem unconvertible_completion_is_metered_and_fails
    (request : chat_api.ChatCompletionRequest) (http_request : dependencies.Request)
    (authorization api_key : option string) (uuid_hex : string) (now : datetime)
    (w : world) (key : APIKeyObj) (w0 : world)
    (client : clients.AsyncOpenAI) (provider : string)
    (upstream : chat_api.ChatCompletion) (u : chat.CompletionUsage) :
  dependencies.verify_api_key http_request authorization api_key now w = (Ok key, w0) ->
  clients.get_client_for_model client_manager (chat_api.model request)
    (chat_api.provider request) = Ok (client, provider) ->
  default false (chat_api.stream request) = false ->
  create client (chat_api.openai_request_of request) = chat_api.CompletionReturns upstream ->
  chat_api.upstream_usage upstream = Some u ->
  chat_api.convert_choices (chat_api.upstream_choices upstream) = None ->
  fresh_log_id uuid_hex w = true ->
  exists detail,
    chat_api.create_chat_completion client_manager create create_stream request
      http_request authorization api_key uuid_hex now w
    = (Raise (HTTPException 500 detail),
       set_usage_logs
         (usage_logs w
          ++ [usage_row (APIKey.id (columns key)) provider (chat_api.model request) u
                uuid_hex now]) w0).
Proof.
  intros Hdep Hget Hstream Hcreate Husage Hconv Hfresh. eexists.
  destruct (dependency_outcomes _ _ _ _ _ _ _ Hdep) as (Hlogs & _).
  assert (Hfresh0 : fresh_log_id uuid_hex w0 = true).
  { unfold fresh_log_id in *. now rewrite Hlogs. }
  unfold chat_api.create_chat_completion, dependencies.get_current_api_key.
  unfold bind at 1. rewrite Hdep. unfold try_except.
  rewrite Hget, Hstream, Hcreate, Husage, Hconv. unfold bind.
  rewrite (log_usage_fresh _ _ _ _ _ _ _ Hfresh0). simpl. now rewrite Hlogs.
Qed.

End ChatRouteProperties.

Section ChatRouteRuns.
#[local] Existing Instance Demo.env.

Lemma chat_request_refusals_witness :
  let res := chat_api.create_chat_completion DemoChat.manager DemoChat.create
               DemoChat.create_stream (DemoChat.ask "gpt-4" (Some "groq"))
               (dependencies.mkRequest []) None (Some Demo.alice_secret)
               "0123456789abcdef0123" 5 Demo.active_world in
  exists status detail,
    fst res = Raise (HTTPException status detail)
    /\ ((status = 401 /\ stored (snd res) = stored Demo.active_world)
        \/ (status = 400
            /\ exists key,
                 dependencies.verify_api_key (dependencies.mkRequest []) None
                   (Some Demo.alice_secret) 5 Demo.active_world = (Ok key, snd res))
        \/ (status = 500 /\ default false (Some false) = false)).
Proof.
  cbv zeta.
  destruct (chat_request_refusals DemoChat.manager DemoChat.create DemoChat.create_stream
              (DemoChat.ask "gpt-4" (Some "groq")) (dependencies.mkRequest []) None
              (Some Demo.alice_secret) "0123456789abcdef0123" 5 Demo.active_world
              (HTTPException 400
                 "Model 'gpt-4' not available for provider 'groq'. Available: ['llama3-8b-8192', 'llama3-70b-8192', 'mixtral-8x7b-32768', 'gemma-7b-it', 'llama2-70b-4096']")
              (snd (chat_api.create_chat_completion DemoChat.manager DemoChat.create
                      DemoChat.create_stream (DemoChat.ask "gpt-4" (Some "groq"))
                      (dependencies.mkRequest []) None (Some Demo.alice_secret)
                      "0123456789abcdef0123" 5 Demo.active_world)))
    as (status & detail & He & Hcases); [reflexivity|].
  exists status, detail. split; [now rewrite <- He|exact Hcases].
Defined.

Lemma completed_chat_request_is_metered_once_witness :
  let res := chat_api.create_chat_completion DemoChat.manager DemoChat.create
               DemoChat.create_stream (DemoChat.ask "gpt-4o" None)
               (dependencies.mkRequest []) None (Some Demo.alice_secret)
               "0123456789abcdef0123" 5 Demo.active_world in
  usage_logs (snd res)
  = [UsageLog.mk "log_0123456789abcdef" "ak_alice" "openai" "gpt-4o"
       "/v1/chat/completions" 30 10 20
       (chat.calculate_cost "openai" "gpt-4o" (chat.UsageObj (chat.mkUsage 30 10 20)))
       None (Some 5)].
Proof.
  cbv zeta.
  destruct (completed_chat_request_is_metered_once DemoChat.manager DemoChat.create
              DemoChat.create_stream (DemoChat.ask "gpt-4o" None)
              (dependencies.mkRequest []) None (Some Demo.alice_secret)
              "0123456789abcdef0123" 5 Demo.active_world
              (chat_api.mkChatCompletionResponse "chatcmpl-1" "chat.completion" 100
                 "gpt-4o-2024" "openai"
                 [chat_api.mkChatCompletionChoice 0
                    (chat_api.mkChatMessage "assistant" "Hello") "stop"]
                 (chat_api.mkChatCompletionUsage 10 20 30))
              (snd (chat_api.create_chat_completion DemoChat.manager DemoChat.create
                      DemoChat.create_stream (DemoChat.ask "gpt-4o" None)
                      (dependencies.mkRequest []) None (Some Demo.alice_secret)
                      "0123456789abcdef0123" 5 Demo.active_world)))
    as (key & w0 & Hdep & _ & Hlogs); [reflexivity | reflexivity |].
  injection Hdep as <- _. exact Hlogs.
Defined.

Lemma unconvertible_completion_is_metered_witness :
  exists detail,
    chat_api.create_chat_completion DemoChat.manager DemoChat.create
      DemoChat.create_stream (DemoChat.ask "gpt-4" (Some "openai"))
      (dependencies.mkRequest []) None (Some Demo.alice_secret)
      "0123456789abcdef0123" 5 Demo.active_world
    = (Raise (HTTPException 500 detail),
       set_usage_logs
         [usage_row "ak_alice" "openai" "gpt-4" (chat.mkUsage 30 10 20)
            "0123456789abcdef0123" 5]
         (snd (dependencies.verify_api_key (dependencies.mkRequest []) None
                 (Some Demo.alice_secret) 5 Demo.active_world))).
Proof.
  apply (unconvertible_completion_is_metered_and_fails DemoChat.manager DemoChat.create
           DemoChat.create_stream (DemoChat.ask "gpt-4" (Some "openai"))
           (dependencies.mkRequest []) None (Some Demo.alice_secret)
           "0123456789abcdef0123" 5 Demo.active_world
           (mkObj (Demo.alice_row true 1) (Some 5))
           (snd (dependencies.verify_api_key (dependencies.mkRequest []) None
                   (Some Demo.alice_secret) 5 Demo.active_world))
           (clients.mkAsyncOpenAI None "sk-openai" (Some 60%Q) (Some 2)) "openai"
           (DemoChat.answer None) (chat.mkUsage 30 10 20));
    reflexivity.
Defined.

End ChatRouteRuns.

(** ** Keys through their life: creation, use, deactivation *)

Section KeyLifeProperties.
Context `{Env}.
#[local] Arguments Py.split : simpl never.

(** [verify_api_key], step by step. *)
Lemma verify_api_key_run self key w :
  utils_auth.verify_api_key self key w
  = match cache_hit (utils_auth.self_redis self) (sha256_hexdigest key) (redis_store w) with
    | Some key_id =>
        (Ok (loaded <$> List.find (fun r => String.eqb (APIKey.id r) key_id) (api_keys w)),
         log_read (SelectKeyById key_id) w)
    | None =>
        match active_row_with_hash (sha256_hexdigest key) w with
        | Some k =>
            (Ok (Some (loaded k)),
             if utils_auth.self_redis self
             then set_redis_store
                    (<[utils_auth.cache_key (sha256_hexdigest key)
                       := (3600, utils_auth.cache_value k)]> (redis_store w))
                    (log_read (SelectActiveKeyByHash (sha256_hexdigest key)) w)
             else log_read (SelectActiveKeyByHash (sha256_hexdigest key)) w)
        | None => (Ok None, log_read (SelectActiveKeyByHash (sha256_hexdigest key)) w)
        end
    end.
Proof.
  assert (Hstore :
    (api_key <- query_active_key_by_hash (sha256_hexdigest key) ;;
     match api_key with
     | Some k =>
         (if utils_auth.self_redis self
          then try_except
                 (redis_setex (utils_auth.cache_key (sha256_hexdigest key)) 3600
                    (utils_auth.cache_value (columns k)))
                 (fun _ => ret tt)
          else ret tt) ;;; ret api_key
     | None => ret api_key
     end) w
    = match active_row_with_hash (sha256_hexdigest key) w with
      | Some k =>
          (Ok (Some (loaded k)),
           if utils_auth.self_redis self
           then set_redis_store
                  (<[utils_auth.cache_key (sha256_hexdigest key)
                     := (3600, utils_auth.cache_value k)]> (redis_store w))
                  (log_read (SelectActiveKeyByHash (sha256_hexdigest key)) w)
           else log_read (SelectActiveKeyByHash (sha256_hexdigest key)) w)
      | None => (Ok None, log_read (SelectActiveKeyByHash (sha256_hexdigest key)) w)
      end).
  { unfold query_active_key_by_hash, redis_setex, active_row_with_hash. run.
    destruct (List.find _ (api_keys w)) as [r|]; simpl; [|reflexivity].
    destruct (utils_auth.self_redis self); reflexivity. }
  unfold utils_auth.verify_api_key, cache_hit, redis_get, query_key_by_id.
  unfold utils_auth.cache_key at 1.
  destruct (utils_auth.self_redis self) eqn:Hredis.
  - unfold bind at 1. unfold try_except, bind at 1.
    destruct (redis_store w !! _) as [[ttl cached]|]; simpl; [|exact Hstore].
    destruct (Py.truthy cached); [|exact Hstore].
    destruct (Py.unpack3 _) as [[[key_id name] flag]|]; [|exact Hstore].
    destruct (String.eqb flag "True"); [reflexivity|exact Hstore].
  - exact Hstore.
Qed.

(** The dependency, step by step, once it has extracted a key value. *)
Lemma dependency_run request authorization api_key now w v :
  presented_key request authorization api_key = Some v ->
  dependencies.verify_api_key request authorization api_key now w
  = let w1 := snd (utils_auth.verify_api_key (utils_auth.mkManager (redis_client w)) v w) in
    match looked_up v w with
    | Some k =>
        if APIKey.is_active k then
          (Ok (mkObj (APIKey.set_usage_count (APIKey.usage_count k + 1) k) (Some now)),
           set_api_keys
             (List.map (fun r => if String.eqb (APIKey.id r) (APIKey.id k)
                                 then APIKey.set_usage_count (APIKey.usage_count k + 1) r
                                 else r)
                       (api_keys w)) w1)
        else (Raise (HTTPException 401 "API key is disabled"), w1)
    | None => (Raise (HTTPException 401 "Invalid or expired API key"), w1)
    end.
Proof.
  unfold presented_key, dependencies.verify_api_key.
  destruct (dependencies.find_auth_header request authorization api_key) as [[|c h]|];
    [discriminate| |discriminate].
  cbn [Py.truthy Py.truthy_opt negb].
  destruct (dependencies.extract_api_key_value (String c h)) as [v'|]; [|discriminate].
  destruct (Py.truthy v') eqn:Hv; [|discriminate]. intros [= ->].
  cbv zeta. cbn [negb]. unfold try_except, bind, get_world.
  pose proof (verify_api_key_tables (utils_auth.mkManager (redis_client w)) v w)
    as (Hkeys & _).
  rewrite verify_api_key_run in *. unfold looked_up. simpl utils_auth.self_redis in *.
  destruct (cache_hit (redis_client w) (sha256_hexdigest v) (redis_store w)) as [key_id|].
  - simpl in *. destruct (List.find _ (api_keys w)) as [k|]; simpl; [|reflexivity].
    destruct (APIKey.is_active k); reflexivity.
  - destruct (active_row_with_hash (sha256_hexdigest v) w) as [k|]; simpl in *;
      [|reflexivity].
    destruct (APIKey.is_active k); simpl; [|reflexivity].
    now rewrite Hkeys.
Qed.

(** Without a key value the dependency refuses at once. *)
Lemma dependency_without_key request authorization api_key now w :
  presented_key request authorization api_key = None ->
  exists detail,
    dependencies.verify_api_key request authorization api_key now w
    = (Raise (HTTPException 401 detail), w).
Proof.
  unfold presented_key, dependencies.verify_api_key.
  destruct (dependencies.find_auth_header request authorization api_key) as [[|c h]|];
    [eauto| |eauto].
  cbn [Py.truthy Py.truthy_opt negb].
  destruct (dependencies.extract_api_key_value (String c h)) as [v'|]; [|eauto].
  destruct (Py.truthy v') eqn:Hv; [discriminate|]. simpl. eauto.
Qed.

(** The cache after a run of [verify_api_key]. *)
Lemma verify_api_key_cache self key w :
  redis_store (snd (utils_auth.verify_api_key self key w))
  = match cache_hit (utils_auth.self_redis self) (sha256_hexdigest key) (redis_store w),
          active_row_with_hash (sha256_hexdigest key) w with
    | None, Some k =>
        if utils_auth.self_redis self
        then <[utils_auth.cache_key (sha256_hexdigest key)
               := (3600, utils_auth.cache_value k)]> (redis_store w)
        else redis_store w
    | _, _ => redis_store w
    end.
Proof.
  rewrite verify_api_key_run.
  destruct (cache_hit _ _ _); [reflexivity|].
  destruct (active_row_with_hash _ _); [|reflexivity].
  now destruct (utils_auth.self_redis self).
Qed.

(** An entry written by the manager for a row names the id of that row if
    it is read as a hit. *)
Lemma cache_hit_written h k store key_id :
  cache_hit true h (<[utils_auth.cache_key h := (3600, utils_auth.cache_value k)]> store)
  = Some key_id ->
  key_id = APIKey.id k.
Proof.
  unfold cache_hit. change ("api_key:" +:+ h) with (utils_auth.cache_key h).
  rewrite lookup_insert_eq.
  destruct (Py.truthy _); [|discriminate].
  destruct (Py.unpack3 _) as [[[a b] c]|] eqn:Hsplit; [|discriminate].
  destruct (String.eqb_spec c "True") as [->|]; [|discriminate].
  intros [= <-]. unfold utils_auth.cache_value in Hsplit.
  now apply (unpack3_first_part _ _ _ _ _ _ Hsplit).
Qed.

Lemma nodup_map_inj {A B} (f : A -> B) (l : list A) (x y : A) :
  List.NoDup (List.map f l) -> In x l -> In y l -> f x = f y -> x = y.
Proof.
  induction l as [|a l IH]; simpl; intros Hnd Hx Hy Hf; [contradiction|].
  apply List.NoDup_cons_iff in Hnd as [Hnotin Hnd].
  destruct Hx as [->|Hx], Hy as [->|Hy]; auto.
  - exfalso. apply Hnotin. rewrite Hf. now apply in_map.
  - exfalso. apply Hnotin. rewrite <- Hf. now apply in_map.
Qed.

(** What an accepted request tells about the world it was accepted in, and
    the world it leaves. *)
Lemma dependency_accepts request authorization api_key now w r w0 :
  dependencies.verify_api_key request authorization api_key now w = (Ok r, w0) ->
  exists v k,
    presented_key request authorization api_key = Some v
    /\ looked_up v w = Some k /\ In k (api_keys w) /\ APIKey.is_active k = true
    /\ APIKey.id (columns r) = APIKey.id k
    /\ api_keys w0
       = List.map (fun r0 => if String.eqb (APIKey.id r0) (APIKey.id k)
                             then APIKey.set_usage_count (APIKey.usage_count k + 1) r0
                             else r0)
                  (api_keys w)
    /\ usage_logs w0 = usage_logs w
    /\ redis_client w0 = redis_client w
    /\ (forall key_id,
          cache_hit (redis_client w) (sha256_hexdigest v) (redis_store w0) = Some key_id ->
          key_id = APIKey.id k)
    /\ (cache_hit (redis_client w) (sha256_hexdigest v) (redis_store w0) = None ->
        active_row_with_hash (sha256_hexdigest v) w = Some k).
Proof.
  intros Hrun.
  destruct (presented_key request authorization api_key) as [v|] eqn:Hv.
  2:{ destruct (dependency_without_key _ _ _ now w Hv) as [detail Hno]. congruence. }
  rewrite (dependency_run _ _ _ _ _ _ Hv) in Hrun. cbv zeta in Hrun.
  pose proof (verify_api_key_tables (utils_auth.mkManager (redis_client w)) v w)
    as (Hkeys & Hlogs & Hclient).
  pose proof (verify_api_key_cache (utils_auth.mkManager (redis_client w)) v w) as Hcache.
  simpl utils_auth.self_redis in Hcache.
  destruct (looked_up v w) as [k|] eqn:Hlook; [|discriminate].
  destruct (APIKey.is_active k) eqn:Hact; [|discriminate].
  injection Hrun as <- <-. exists v, k. simpl.
  assert (Hin : In k (api_keys w)).
  { unfold looked_up, active_row_with_hash in Hlook.
    destruct (cache_hit _ _ _); now apply find_some in Hlook as [Hin _]. }
  repeat split; auto.
  - intros key_id. rewrite Hcache. unfold looked_up in Hlook.
    destruct (cache_hit (redis_client w) (sha256_hexdigest v) (redis_store w))
      as [kid|] eqn:Hhit.
    + rewrite Hhit. intros [= <-]. apply find_some in Hlook as [_ Hid].
      now apply String.eqb_eq in Hid.
    + rewrite Hlook. destruct (redis_client w); [apply cache_hit_written|].
      discriminate.
  - rewrite Hcache. unfold looked_up in Hlook.
    destruct (cache_hit (redis_client w) (sha256_hexdigest v) (redis_store w))
      as [kid|] eqn:Hhit; [now rewrite Hhit|].
    intros _. exact Hlook.
Qed.

Lemma active_row_with_hash_hash h w k :
  active_row_with_hash h w = Some k -> APIKey.key_hash k = h.
Proof.
  unfold active_row_with_hash. intros Hfind.
  apply find_some in Hfind as [_ Hk]. apply andb_prop in Hk as [Hh _].
  now apply String.eqb_eq in Hh.
Qed.

(** X17. Deactivation takes effect at once: after a successful
    [DELETE /v1/api-keys/{key_id}], the credentials that were accepted for
    it are refused with 401 by the dependency, on the fast path and on the
    store path alike, and the refusal changes nothing; hashes are unique
    in the key table, as its index has it. *)
Theorem deactivated_key_is_refused_afterwards
    (key_id : string) (request : dependencies.Request)
    (authorization api_key : option string) (now now' : datetime)
    (w : world) (msg : string) (w1 : world) :
  api_auth.delete_api_key key_id request authorization api_key now w = (Ok msg, w1) ->
  List.NoDup (List.map APIKey.key_hash (api_keys w)) ->
  exists detail w2,
    dependencies.verify_api_key request authorization api_key now' w1
    = (Raise (HTTPException 401 detail), w2)
    /\ stored w2 = stored w1.
Proof.
  intros Hdelete Hnd.
  pose proof (delete_api_key_deactivates _ _ _ _ _ _ _ _ Hdelete) as Hinactive.
  unfold api_auth.delete_api_key, dependencies.get_current_api_key in Hdelete.
  unfold bind at 1 in Hdelete.
  destruct (dependencies.verify_api_key request authorization api_key now w)
    as [[cur|e] w0] eqn:Hdep; [|discriminate].
  unfold try_except in Hdelete.
  destruct (String.eqb_spec key_id (APIKey.id (columns cur))) as [->|Hne];
    [|discriminate].
  unfold update_key in Hdelete. simpl in Hdelete. injection Hdelete as _ <-.
  destruct (dependency_accepts _ _ _ _ _ _ _ Hdep)
    as (v & k & Hv & Hlook & Hin & Hact & Hid & Hkeys & _ & Hclient & Hhit & Hmiss).
  rewrite Hid in *.
  set (w1 := set_api_keys _ w0) in *.
  assert (Hrefused : forall x, looked_up v w1 = Some x -> APIKey.is_active x = false).
  { intros x. unfold looked_up. subst w1. simpl. rewrite Hclient.
    destruct (cache_hit (redis_client w) (sha256_hexdigest v) (redis_store w0))
      as [kid|] eqn:Hcache.
    - rewrite (Hhit kid eq_refl). intros Hfind.
      apply find_some in Hfind as [Hx Hidx]. apply String.eqb_eq in Hidx.
      now apply Hinactive.
    - unfold active_row_with_hash. simpl. intros Hfind.
      apply find_some in Hfind as [Hx Hhx]. apply andb_prop in Hhx as [Hhash Hactive].
      apply String.eqb_eq in Hhash.
      assert (Hidx : APIKey.id x = APIKey.id k).
      { apply in_map_iff in Hx as (y0 & <- & Hy0). rewrite Hkeys in Hy0.
        apply in_map_iff in Hy0 as (y & <- & Hy).
        assert (Hy_hash : APIKey.key_hash y = sha256_hexdigest v).
        { rewrite <- Hhash.
          destruct (String.eqb (APIKey.id y) (APIKey.id k)); simpl;
            destruct (String.eqb _ (APIKey.id k)); reflexivity. }
        assert (y = k).
        { apply (nodup_map_inj APIKey.key_hash (api_keys w)); auto.
          rewrite Hy_hash. symmetry.
          apply (active_row_with_hash_hash _ w). now apply Hmiss. }
        subst y. rewrite String.eqb_refl. simpl. now rewrite String.eqb_refl. }
      rewrite (Hinactive x Hx Hidx) in Hactive. discriminate. }
  destruct (dependencies.verify_api_key request authorization api_key now' w1)
    as [[r|e] w2] eqn:Hagain.
  - exfalso. rewrite (dependency_run _ _ _ _ _ _ Hv) in Hagain. cbv zeta in Hagain.
    destruct (looked_up v w1) as [x|]; [|discriminate].
    rewrite (Hrefused x eq_refl) in Hagain. discriminate.
  - destruct (dependency_outcomes _ _ _ _ _ _ _ Hagain) as (_ & _ & (detail & ->) & Hst).
    now exists detail, w2.
Qed.

(** Credentials that were accepted are accepted again, for the same key,
    in every world that holds the key table and the cache as the first
    acceptance left them. *)
Lemma dependency_again request authorization api_key now now' w r w0 w1 :
  dependencies.verify_api_key request authorization api_key now w = (Ok r, w0) ->
  List.NoDup (List.map APIKey.id (api_keys w)) ->
  api_keys w1 = api_keys w0 -> redis_store w1 = redis_store w0 ->
  redis_client w1 = redis_client w0 ->
  exists r' w2,
    dependencies.verify_api_key request authorization api_key now' w1 = (Ok r', w2)
    /\ APIKey.id (columns r') = APIKey.id (columns r)
    /\ APIKey.usage_count (columns r') = APIKey.usage_count (columns r) + 1
    /\ usage_logs w2 = usage_logs w1.
Proof.
  intros Hdep Hnd Hk1 Hs1 Hc1.
  destruct (dependency_accepts _ _ _ _ _ _ _ Hdep)
    as (v & k & Hv & Hlook & Hin & Hact & Hid & Hkeys & _ & Hclient & Hhit & Hmiss).
  assert (Hr : columns r = APIKey.set_usage_count (APIKey.usage_count k + 1) k).
  { rewrite (dependency_run _ _ _ _ _ _ Hv) in Hdep. cbv zeta in Hdep.
    rewrite Hlook, Hact in Hdep. now injection Hdep as <- _. }
  set (g := fun r0 : APIKey.t =>
              if String.eqb (APIKey.id r0) (APIKey.id k)
              then APIKey.set_usage_count (APIKey.usage_count k + 1) r0 else r0) in *.
  assert (Hg_id : forall x, APIKey.id (g x) = APIKey.id x)
    by (intros x; unfold g; now destruct (String.eqb _ _)).
  assert (Hg_act : forall x, APIKey.is_active (g x) = APIKey.is_active x)
    by (intros x; unfold g; now destruct (String.eqb _ _)).
  assert (Hg_hash : forall x, APIKey.key_hash (g x) = APIKey.key_hash x)
    by (intros x; unfold g; now destruct (String.eqb _ _)).
  assert (Hgk : g k = APIKey.set_usage_count (APIKey.usage_count k + 1) k)
    by (unfold g; now rewrite String.eqb_refl).
  assert (Hlook1 : looked_up v w1 = Some (g k)).
  { unfold looked_up. rewrite Hc1, Hs1, Hk1, Hclient, Hkeys.
    destruct (cache_hit (redis_client w) (sha256_hexdigest v) (redis_store w0))
      as [kid|] eqn:Hcache.
    - rewrite (Hhit kid eq_refl).
      rewrite (find_map_same (fun r0 => String.eqb (APIKey.id r0) (APIKey.id k)) g)
        by (intros x; now rewrite Hg_id).
      now rewrite (find_by_id_unique _ _ Hnd Hin).
    - unfold active_row_with_hash. rewrite Hk1, Hkeys.
      rewrite (find_map_same
                 (fun r0 => String.eqb (APIKey.key_hash r0) (sha256_hexdigest v)
                            && APIKey.is_active r0) g)
        by (intros x; now rewrite Hg_hash, Hg_act).
      specialize (Hmiss eq_refl). unfold active_row_with_hash in Hmiss.
      now rewrite Hmiss. }
  rewrite (dependency_run _ _ _ now' w1 _ Hv). cbv zeta.
  rewrite Hlook1, Hg_act, Hact.
  eexists _, _. split; [reflexivity|]. simpl.
  rewrite Hg_id, Hid, Hgk, Hr. simpl. repeat split.
  apply verify_api_key_tables.
Qed.

(** X18. Use does not wear a key out: credentials that the dependency has
    accepted are accepted again on the next request, whatever was cached in
    between, as the same key and with the count one higher; ids are unique
    in the key table, being its primary key. *)
Theorem accepted_credentials_are_accepted_again
    (request : dependencies.Request) (authorization api_key : option string)
    (now now' : datetime) (w : world) (r : APIKeyObj) (w0 : world) :
  dependencies.verify_api_key request authorization api_key now w = (Ok r, w0) ->
  List.NoDup (List.map APIKey.id (api_keys w)) ->
  exists r' w1,
    dependencies.verify_api_key request authorization api_key now' w0 = (Ok r', w1)
    /\ APIKey.id (columns r') = APIKey.id (columns r)
    /\ APIKey.usage_count (columns r') = APIKey.usage_count (columns r) + 1.
Proof.
  intros Hdep Hnd.
  destruct (dependency_again _ _ _ now now' w r w0 w0 Hdep Hnd eq_refl eq_refl eq_refl)
    as (r' & w1 & Hagain & Hid & Hcount & _).
  now exists r', w1.
Qed.

End KeyLifeProperties.

(** ** Creating keys through the route *)

Section KeyCreationProperties.
Context `{Env}.
#[local] Arguments Py.split : simpl never.

(** The route passes on what the manager returns, and turns what it raises
    into a 500. *)
Lemma create_route_run request token uuid now w :
  api_keys.create_api_key request token uuid now w
  = match utils_auth.create_api_key (utils_auth.mkManager (redis_client w))
            request token uuid now w with
    | (Ok resp, w1) => (Ok resp, w1)
    | (Raise e, w1) =>
        (Raise (HTTPException 500 ("Failed to create API key: " +:+ exn_str e)), w1)
    end.
Proof.
  unfold api_keys.create_api_key, try_except, bind, get_world, ret.
  now destruct (utils_auth.create_api_key _ request token uuid now w) as [[resp|e] w1].
Qed.

(** A Bearer header hands its key on as it is, when the key is not empty
    and holds no white space. *)
Lemma presented_bearer request (key : string) other :
  key <> "" -> no_space key = true ->
  presented_key request (Some ("Bearer " +:+ key)) other = Some key.
Proof.
  intros Hne Hns. unfold presented_key.
  rewrite (find_auth_header_given request ("Bearer " +:+ key) other) by discriminate.
  change (Py.truthy ("Bearer " +:+ key)) with true. cbv iota.
  unfold dependencies.extract_api_key_value, Py.startswith.
  rewrite prefix_of_app, replace_bearer_prefix, (replace_bearer_no_space _ Hns),
    (strip_no_space _ Hns).
  destruct key; [contradiction|reflexivity].
Qed.

(** X19. A key can be stored by a creation that fails: when the request
    carries no description (JSON [null]) and id and hash are not taken,
    [POST /v1/api-keys/] answers 500, yet the new row is in the key table,
    active, and the secret, which the caller was never given, verifies. *)
Theorem creation_without_description_fails_after_storing
    (request : APIKeyRequest) (token uuid : string) (now : datetime) (w : world) :
  req_description request = None ->
  (forall r, In r (api_keys w) ->
     APIKey.id r <> APIKey.id (new_row request token uuid now)
     /\ APIKey.key_hash r <> APIKey.key_hash (new_row request token uuid now)) ->
  exists detail w1,
    api_keys.create_api_key request token uuid now w
    = (Raise (HTTPException 500 detail), w1)
    /\ api_keys w1 = api_keys w ++ [new_row request token uuid now]
    /\ active_row_with_hash (sha256_hexdigest (api_key_prefix settings +:+ token)) w1
       = Some (new_row request token uuid now)
    /\ APIKey.is_active (new_row request token uuid now) = true.
Proof.
  intros Hdesc Hfresh. destruct request as [name description].
  simpl in Hdesc. subst description. rewrite create_route_run.
  unfold utils_auth.create_api_key, utils_auth.generate_api_key, insert_key,
    redis_setex, bind, try_except, modify, ret, raise.
  set (row := new_row (mkAPIKeyRequest name None) token uuid now) in *.
  assert (Hex : existsb (fun r' => String.eqb (APIKey.id r') (APIKey.id row)
                                   || String.eqb (APIKey.key_hash r') (APIKey.key_hash row))
                        (api_keys w) = false).
  { apply not_true_is_false. intros Hex. apply existsb_exists in Hex as (r & Hr & Hclash).
    destruct (Hfresh r Hr) as [Hid Hhash].
    apply orb_prop in Hclash as [E|E]; apply String.eqb_eq in E; contradiction. }
  unfold row, new_row in Hex. rewrite Hex.
  assert (Hfind : forall keys, keys = api_keys w ->
            List.find (fun r => String.eqb (APIKey.key_hash r)
                                  (sha256_hexdigest (api_key_prefix settings +:+ token))
                                && APIKey.is_active r) (keys ++ [row]) = Some row).
  { intros keys ->. apply find_app_last.
    - intros y Hy. destruct (Hfresh y Hy) as [_ Hhash].
      apply String.eqb_neq in Hhash. unfold row, new_row in Hhash. simpl in Hhash.
      now rewrite Hhash.
    - unfold row, new_row. simpl. now rewrite String.eqb_refl. }
  unfold active_row_with_hash.
  destruct (redis_client w); simpl; eexists _, _; (split; [reflexivity|]); simpl;
    repeat split; auto; now apply Hfind.
Qed.

(** X20. A created key works at once: the secret that
    [POST /v1/api-keys/] returns, presented as a Bearer header on the next
    request, is accepted by the dependency as the key that was created,
    with a usage count of one; the configured prefix is the default one
    and the random part holds no white space. *)
Theorem created_key_authenticates
    (request : APIKeyRequest) (token uuid : string) (now : datetime) (w : world)
    (resp : APIKeyResponse) (w1 : world) :
  api_keys.create_api_key request token uuid now w = (Ok resp, w1) ->
  api_key_prefix settings = "llm-router-" ->
  no_space token = true ->
  forall (http_request : dependencies.Request) (other : option string) (now' : datetime),
    exists r w2,
      dependencies.verify_api_key http_request (Some ("Bearer " +:+ resp_key resp))
        other now' w1 = (Ok r, w2)
      /\ APIKey.id (columns r) = resp_id resp
      /\ APIKey.usage_count (columns r) = 1.
Proof.
  intros Hroute Hprefix Hns http_request other now'.
  rewrite create_route_run in Hroute.
  destruct (utils_auth.create_api_key (utils_auth.mkManager (redis_client w))
              request token uuid now w) as [[resp'|e] w1'] eqn:Hcreate;
    [|discriminate].
  injection Hroute as -> ->.
  destruct (create_api_key_ok _ _ _ _ _ _ _ _ Hcreate)
    as (Hkey & Hid & Hfresh & Hkeys & Hcache).
  set (row := new_row request token uuid now) in *.
  assert (Hclient : redis_client w1 = redis_client w).
  { clear - Hcreate. unfold utils_auth.create_api_key, utils_auth.generate_api_key,
      insert_key, redis_setex in Hcreate. revert Hcreate. run.
    destruct (existsb _ _); [discriminate|].
    destruct (redis_client w) eqn:Hrc; simpl;
      (destruct (req_description request); simpl; [|discriminate]);
      intros [= _ <-]; exact Hrc. }
  destruct (verify_created_key (utils_auth.mkManager (redis_client w))
              (utils_auth.mkManager (redis_client w1)) request token uuid now w resp w1
              Hcreate) as (r & w2 & Hverify & Hrid).
  { simpl. rewrite Hclient. congruence. }
  assert (Hpresented : presented_key http_request (Some ("Bearer " +:+ resp_key resp)) other
                       = Some (resp_key resp)).
  { apply presented_bearer; rewrite Hkey, Hprefix; [discriminate|].
    now rewrite no_space_app, Hns. }
  assert (Hlook : looked_up (resp_key resp) w1 = Some (columns r)).
  { rewrite verify_api_key_run in Hverify. unfold looked_up.
    simpl utils_auth.self_redis in Hverify.
    destruct (cache_hit _ _ _).
    - injection Hverify as Hfound _.
      destruct (List.find _ _); [now injection Hfound as <-|discriminate].
    - destruct (active_row_with_hash _ _); [|discriminate].
      now injection Hverify as <- _. }
  assert (Hrow : columns r = row).
  { assert (Hin : In (columns r) (api_keys w1)).
    { unfold looked_up, active_row_with_hash in Hlook.
      destruct (cache_hit _ _ _); now apply find_some in Hlook as [Hin _]. }
    rewrite Hkeys in Hin. apply in_app_or in Hin as [Hold|[<-|[]]]; [|reflexivity].
    destruct (Hfresh _ Hold) as [Hne _]. apply String.eqb_neq in Hne.
    rewrite Hrid, Hid in Hne. contradiction. }
  rewrite (dependency_run _ _ _ now' w1 _ Hpresented). cbv zeta.
  rewrite Hlook, Hrow. simpl. eexists _, _. split; [reflexivity|]. simpl.
  split; [now rewrite Hid|reflexivity].
Qed.

End KeyCreationProperties.

(** ** The usage report *)

Section UsageProperties.
Context `{Env}.

Lemma fold_left_add_sum (rows : list UsageLog.t) (a : Z) :
  fold_left Z.add (List.map UsageLog.tokens_used rows) a = a + sum_tokens rows.
Proof.
  revert a. induction rows as [|l rows IH]; intros a; simpl; [lia|].
  rewrite IH. lia.
Qed.

Lemma sum_tokens_app rows1 rows2 :
  sum_tokens (rows1 ++ rows2) = sum_tokens rows1 + sum_tokens rows2.
Proof. induction rows1 as [|l rows1 IH]; simpl; [reflexivity|]. rewrite IH. lia. Qed.

(** One more row in a group adds its figures to the sums over the groups. *)
Lemma sum_over_add_to_group (f : usage_api.ProviderUsage -> Z) (delta : UsageLog.t -> Z)
    (m : gmap string usage_api.ProviderUsage) (l : UsageLog.t) :
  (forall s, f (usage_api.mkProviderUsage
                  (usage_api.requests s + 1)
                  (usage_api.tokens s + UsageLog.tokens_used l)
                  (usage_api.cost s + UsageLog.cost l)%Q)
             = f s + delta l) ->
  f (usage_api.mkProviderUsage 0 0 0%Q) = 0 ->
  sum_over f (usage_api.add_to_group m l) = sum_over f m + delta l.
Proof.
  intros Hf Hf0. unfold usage_api.add_to_group, sum_over.
  assert (Hcomm : forall (m' : gmap string usage_api.ProviderUsage)
                         (j1 j2 : string) (z1 z2 : usage_api.ProviderUsage) (y : Z),
             j1 <> j2 -> m' !! j1 = Some z1 -> m' !! j2 = Some z2 ->
             y + f z2 + f z1 = y + f z1 + f z2) by (intros; lia).
  destruct (m !! UsageLog.provider l) as [s|] eqn:Hlook; simpl.
  - rewrite <- insert_delete_eq.
    rewrite map_fold_insert_L; [|apply Hcomm|apply lookup_delete_eq].
    rewrite (map_fold_delete_L _ _ _ _ m (Hcomm m) Hlook).
    rewrite Hf. lia.
  - rewrite map_fold_insert_L; [|apply Hcomm|exact Hlook].
    pose proof (Hf (usage_api.mkProviderUsage 0 0 0%Q)) as Hz.
    cbn [usage_api.requests usage_api.tokens usage_api.cost] in Hz.
    rewrite Hz, Hf0. lia.
Qed.

Lemma sum_over_groups (f : usage_api.ProviderUsage -> Z) (delta : UsageLog.t -> Z)
    (rows : list UsageLog.t) (m : gmap string usage_api.ProviderUsage) :
  (forall s l, f (usage_api.mkProviderUsage
                    (usage_api.requests s + 1)
                    (usage_api.tokens s + UsageLog.tokens_used l)
                    (usage_api.cost s + UsageLog.cost l)%Q)
               = f s + delta l) ->
  f (usage_api.mkProviderUsage 0 0 0%Q) = 0 ->
  sum_over f (fold_left usage_api.add_to_group rows m)
  = sum_over f m + fold_right (fun l acc => delta l + acc) 0 rows.
Proof.
  intros Hf Hf0. revert m. induction rows as [|l rows IH]; intros m; simpl; [lia|].
  rewrite IH, (sum_over_add_to_group f delta); [lia|auto|auto].
Qed.

Lemma groups_keys (rows : list UsageLog.t) (m : gmap string usage_api.ProviderUsage)
    (p : string) :
  is_Some (fold_left usage_api.add_to_group rows m !! p)
  <-> is_Some (m !! p) \/ exists l, In l rows /\ UsageLog.provider l = p.
Proof.
  revert m. induction rows as [|l rows IH]; intros m; simpl.
  - split; [auto|]. intros [Hm|(l & [] & _)]. exact Hm.
  - rewrite IH. unfold usage_api.add_to_group.
    destruct (String.eqb_spec (UsageLog.provider l) p) as [<-|Hne].
    + rewrite lookup_insert_eq. split; [|eauto]. intros _. right. eauto.
    + rewrite lookup_insert_ne by exact Hne. split.
      * intros [Hm|(l' & Hin & Hp)]; [auto|eauto].
      * intros [Hm|(l' & [->|Hin] & Hp)]; [auto|contradiction|eauto].
Qed.

Lemma length_as_sum (rows : list UsageLog.t) :
  fold_right (fun _ acc => 1 + acc) 0 rows = Z.of_nat (List.length rows).
Proof. induction rows as [|l rows IH]; simpl length; simpl fold_right; [reflexivity|]. lia. Qed.

(** [GET /v1/usage/], step by step, for accepted credentials. *)
Lemma get_usage_run request authorization api_key now w key w0 :
  dependencies.verify_api_key request authorization api_key now w = (Ok key, w0) ->
  usage_api.get_usage request authorization api_key now w
  = (Ok (usage_api.mkUsageResponse
           (APIKey.id (columns key))
           (Z.of_nat (List.length (rows_of (APIKey.id (columns key)) w0)))
           (fold_left Z.add
              (List.map UsageLog.tokens_used (rows_of (APIKey.id (columns key)) w0)) 0)
           (fold_left Qplus
              (List.map UsageLog.cost (rows_of (APIKey.id (columns key)) w0)) 0%Q)
           (fold_left usage_api.add_to_group (rows_of (APIKey.id (columns key)) w0) ∅)),
     w0).
Proof.
  intros Hdep. unfold usage_api.get_usage. unfold bind at 1. rewrite Hdep. reflexivity.
Qed.

(** The report of [GET /v1/usage/] against the usage rows of the key it names. *)
Lemma usage_report_totals
    (request : dependencies.Request) (authorization api_key : option string)
    (now : datetime) (w : world) (report : usage_api.UsageResponse) (w' : world) :
  usage_api.get_usage request authorization api_key now w = (Ok report, w') ->
  let rows := rows_of (usage_api.api_key_id report) w in
  usage_api.total_requests report = Z.of_nat (List.length rows)
  /\ usage_api.total_tokens report = sum_tokens rows
  /\ sum_over usage_api.requests (usage_api.provider_breakdown report)
     = usage_api.total_requests report
  /\ sum_over usage_api.tokens (usage_api.provider_breakdown report)
     = usage_api.total_tokens report
  /\ (forall p, is_Some (usage_api.provider_breakdown report !! p)
                <-> exists l, In l rows /\ UsageLog.provider l = p)
  /\ usage_logs w' = usage_logs w.
Proof.
  intros Hrun. cbv zeta.
  destruct (dependencies.verify_api_key request authorization api_key now w)
    as [[key|e] w0] eqn:Hdep.
  2:{ unfold usage_api.get_usage in Hrun. unfold bind at 1 in Hrun.
      rewrite Hdep in Hrun. discriminate. }
  rewrite (get_usage_run _ _ _ _ _ _ _ Hdep) in Hrun. injection Hrun as <- <-.
  destruct (dependency_outcomes _ _ _ _ _ _ _ Hdep) as (Hlogs & _).
  simpl. unfold rows_of. rewrite Hlogs.
  set (rows := List.filter _ (usage_logs w)).
  rewrite fold_left_add_sum.
  rewrite (sum_over_groups usage_api.requests (fun _ => 1)) by reflexivity.
  rewrite (sum_over_groups usage_api.tokens UsageLog.tokens_used) by reflexivity.
  rewrite length_as_sum.
  repeat split; try reflexivity.
  - intros Hp. apply groups_keys in Hp as [Hp|Hp]; [|exact Hp].
    rewrite lookup_empty in Hp. now destruct Hp.
  - intros Hp. apply groups_keys. now right.
Qed.

(** X21. The usage report adds up, and it is the report of the
    authenticated key: for accepted credentials, the totals count the
    usage rows of one key and only those, the requests and the tokens of
    the provider breakdown sum to the totals, the breakdown has an entry
    for exactly the providers of those rows, the report writes no usage
    row, and the key it reports on is the key the credential dependency
    returned, which is the active row of the store that the presented
    secret was looked up to; the rows counted are the usage rows that
    carry the id of that key, so no row of another key is counted. *)
Theorem usage_report_adds_up
    (request : dependencies.Request) (authorization api_key : option string)
    (now : datetime) (w : world) (report : usage_api.UsageResponse) (w' : world) :
  usage_api.get_usage request authorization api_key now w = (Ok report, w') ->
  let rows := rows_of (usage_api.api_key_id report) w in
  usage_api.total_requests report = Z.of_nat (List.length rows)
  /\ usage_api.total_tokens report = sum_tokens rows
  /\ sum_over usage_api.requests (usage_api.provider_breakdown report)
     = usage_api.total_requests report
  /\ sum_over usage_api.tokens (usage_api.provider_breakdown report)
     = usage_api.total_tokens report
  /\ (forall p, is_Some (usage_api.provider_breakdown report !! p)
                <-> exists l, In l rows /\ UsageLog.provider l = p)
  /\ usage_logs w' = usage_logs w
  /\ (exists key v k,
        dependencies.verify_api_key request authorization api_key now w = (Ok key, w')
        /\ usage_api.api_key_id report = APIKey.id (columns key)
        /\ presented_key request authorization api_key = Some v
        /\ looked_up v w = Some k /\ In k (api_keys w) /\ APIKey.is_active k = true
        /\ APIKey.id k = APIKey.id (columns key)
        /\ forall l, In l rows
                     <-> In l (usage_logs w) /\ UsageLog.api_key_id l = APIKey.id k).
Proof.
  intros Hrun. cbv zeta.
  pose proof (usage_report_totals _ _ _ _ _ _ _ Hrun) as Htotals. cbv zeta in Htotals.
  destruct Htotals as (H1 & H2 & H3 & H4 & H5 & H6).
  repeat (split; [assumption|]).
  destruct (dependencies.verify_api_key request authorization api_key now w)
    as [[key|e] w0] eqn:Hdep.
  2:{ unfold usage_api.get_usage in Hrun. unfold bind at 1 in Hrun.
      rewrite Hdep in Hrun. discriminate. }
  rewrite (get_usage_run _ _ _ _ _ _ _ Hdep) in Hrun. injection Hrun as <- <-.
  destruct (dependency_accepts _ _ _ _ _ _ _ Hdep)
    as (v & k & Hv & Hlook & Hin & Hact & Hid & _).
  exists key, v, k. simpl.
  split; [reflexivity|]. split; [reflexivity|]. split; [exact Hv|].
  split; [exact Hlook|]. split; [exact Hin|]. split; [exact Hact|].
  split; [now rewrite Hid|].
  intros l. unfold rows_of. rewrite filter_In, String.eqb_eq, Hid. reflexivity.
Qed.

End UsageProperties.

Section MeteringShowsProperties.
Context `{Env}.
Variable client_manager : clients.ClientManager.
Variable create : clients.AsyncOpenAI -> chat_api.OpenAIRequest -> chat_api.CompletionResult.
Variable create_stream : clients.AsyncOpenAI -> chat_api.OpenAIRequest -> chat.CreateResult.

(** X22. A completed chat request shows in the usage report: when the
    route has returned the response object, the next report for the same
    credentials is for the same key and counts one request more and the
    tokens of the response more than the usage rows of that key held
    before, and it has an entry for the provider of the response; ids are
    unique in the key table and the row id was not taken. *)
Theorem completed_chat_request_shows_in_usage
    (request : chat_api.ChatCompletionRequest) (http_request : dependencies.Request)
    (authorization api_key : option string) (uuid_hex : string) (now now' : datetime)
    (w : world) (response : chat_api.ChatCompletionResponse) (w1 : world) :
  chat_api.create_chat_completion client_manager create create_stream request
    http_request authorization api_key uuid_hex now w
  = (Ok (chat_api.Completed response), w1) ->
  fresh_log_id uuid_hex w = true ->
  List.NoDup (List.map APIKey.id (api_keys w)) ->
  exists report w2,
    usage_api.get_usage http_request authorization api_key now' w1 = (Ok report, w2)
    /\ usage_api.total_requests report
       = Z.of_nat (List.length (rows_of (usage_api.api_key_id report) w)) + 1
    /\ usage_api.total_tokens report
       = sum_tokens (rows_of (usage_api.api_key_id report) w)
         + chat_api.total_tokens (chat_api.usage response)
    /\ is_Some (usage_api.provider_breakdown report
                !! chat_api.response_provider response).
Proof.
  intros Hrun Hfresh Hnd.
  destruct (completed_chat_request_effects _ _ _ _ _ _ _ _ _ _ _ _ Hrun Hfresh)
    as (key & w0 & Hdep & ->).
  set (row := usage_row _ _ _ _ _ _).
  destruct (dependency_again http_request authorization api_key now now' w key w0
              (set_usage_logs (usage_logs w ++ [row]) w0) Hdep Hnd
              eq_refl eq_refl eq_refl)
    as (r' & w2 & Hagain & Hid & _ & Hlogs).
  rewrite (get_usage_run _ _ _ _ _ _ _ Hagain).
  eexists _, _. split; [reflexivity|]. simpl.
  unfold rows_of. rewrite Hlogs. simpl. rewrite List.filter_app. simpl.
  rewrite Hid, String.eqb_refl.
  rewrite fold_left_add_sum, sum_tokens_app, List.length_app. simpl.
  split; [lia|]. split; [lia|].
  apply groups_keys. right. exists row. split; [apply in_or_app; right; now left|].
  reflexivity.
Qed.

End MeteringShowsProperties.

Section FurtherRuns.
#[local] Existing Instance Demo.env.

Lemma usage_report_adds_up_witness :
  let res := usage_api.get_usage (dependencies.mkRequest []) None
               (Some Demo.alice_secret) 9 DemoChat.shared_world in
  List.length (usage_logs DemoChat.shared_world) = 3%nat
  /\ exists report,
       fst res = Ok report
       /\ usage_api.api_key_id report = "ak_alice"
       /\ usage_api.total_requests report = 1
       /\ usage_api.total_tokens report = 30
       /\ sum_over usage_api.requests (usage_api.provider_breakdown report) = 1
       /\ sum_over usage_api.tokens (usage_api.provider_breakdown report) = 30
       /\ ~ is_Some (usage_api.provider_breakdown report !! "groq").
Proof.
  cbv zeta. split; [reflexivity|].
  set (report := usage_api.mkUsageResponse "ak_alice" 1 30
                   (0 + UsageLog.cost DemoChat.row)%Q
                   (usage_api.add_to_group ∅ DemoChat.row)).
  destruct (usage_report_adds_up (dependencies.mkRequest []) None
              (Some Demo.alice_secret) 9 DemoChat.shared_world report
              (snd (usage_api.get_usage (dependencies.mkRequest []) None
                      (Some Demo.alice_secret) 9 DemoChat.shared_world)))
    as (Hreq & Htok & Hsumr & Hsumt & Hproviders & _ & Hkey); [reflexivity|].
  exists report. split; [reflexivity|]. split; [reflexivity|].
  split; [exact Hreq|]. split; [exact Htok|].
  split; [rewrite Hsumr; reflexivity|]. split; [rewrite Hsumt; reflexivity|].
  intros Hgroq. apply Hproviders in Hgroq. destruct Hgroq as (l & Hl & Hprovider).
  destruct Hl as [<-|[]]. discriminate Hprovider.
Defined.

Lemma completed_chat_request_shows_in_usage_witness :
  exists report w2,
    usage_api.get_usage (dependencies.mkRequest []) None (Some Demo.alice_secret) 9
      (snd (chat_api.create_chat_completion DemoChat.manager DemoChat.create
              DemoChat.create_stream (DemoChat.ask "gpt-4o" None)
              (dependencies.mkRequest []) None (Some Demo.alice_secret)
              "0123456789abcdef0123" 5 Demo.active_world))
    = (Ok report, w2)
    /\ usage_api.total_requests report = 1
    /\ usage_api.total_tokens report = 30.
Proof.
  destruct (completed_chat_request_shows_in_usage DemoChat.manager DemoChat.create
              DemoChat.create_stream (DemoChat.ask "gpt-4o" None)
              (dependencies.mkRequest []) None (Some Demo.alice_secret)
              "0123456789abcdef0123" 5 9 Demo.active_world
              (chat_api.mkChatCompletionResponse "chatcmpl-1" "chat.completion" 100
                 "gpt-4o-2024" "openai"
                 [chat_api.mkChatCompletionChoice 0
                    (chat_api.mkChatMessage "assistant" "Hello") "stop"]
                 (chat_api.mkChatCompletionUsage 10 20 30))
              (snd (chat_api.create_chat_completion DemoChat.manager DemoChat.create
                      DemoChat.create_stream (DemoChat.ask "gpt-4o" None)
                      (dependencies.mkRequest []) None (Some Demo.alice_secret)
                      "0123456789abcdef0123" 5 Demo.active_world)))
    as (report & w2 & Hrun & Hreq & Htok & _).
  - reflexivity.
  - reflexivity.
  - repeat constructor. simpl. intros [].
  - exists report, w2. split; [exact Hrun|]. split; [exact Hreq|exact Htok].
Defined.

Lemma deactivated_key_is_refused_witness :
  let w1 := snd (api_auth.delete_api_key "ak_alice" (dependencies.mkRequest []) None
                   (Some Demo.alice_secret) 5 Demo.active_world) in
  exists detail w2,
    dependencies.verify_api_key (dependencies.mkRequest []) None
      (Some Demo.alice_secret) 6 w1
    = (Raise (HTTPException 401 detail), w2)
    /\ stored w2 = stored w1.
Proof.
  cbv zeta.
  apply (deactivated_key_is_refused_afterwards "ak_alice" (dependencies.mkRequest [])
           None (Some Demo.alice_secret) 5 6 Demo.active_world
           "API key deactivated successfully").
  - reflexivity.
  - repeat constructor. simpl. intros [].
Defined.

Lemma accepted_credentials_are_accepted_again_witness :
  let first := dependencies.verify_api_key (dependencies.mkRequest []) None
                 (Some Demo.alice_secret) 5 Demo.active_world in
  exists r' w1,
    dependencies.verify_api_key (dependencies.mkRequest []) None
      (Some Demo.alice_secret) 6 (snd first) = (Ok r', w1)
    /\ APIKey.id (columns r') = "ak_alice"
    /\ APIKey.usage_count (columns r') = 2.
Proof.
  cbv zeta.
  apply (accepted_credentials_are_accepted_again (dependencies.mkRequest []) None
           (Some Demo.alice_secret) 5 6 Demo.active_world
           (mkObj (Demo.alice_row true 1) (Some 5))).
  - reflexivity.
  - repeat constructor. simpl. intros [].
Defined.

Lemma creation_without_description_witness :
  exists detail w1,
    api_keys.create_api_key (mkAPIKeyRequest "bob" None) "tok" "0123456789abcdef0123" 7
      DemoChat.empty_world
    = (Raise (HTTPException 500 detail), w1)
    /\ api_keys w1
       = [APIKey.mk "ak_0123456789abcdef" "sha256(llm-router-tok)" "bob" None (Some 7)
            None true 1000 0].
Proof.
  destruct (creation_without_description_fails_after_storing
              (mkAPIKeyRequest "bob" None) "tok" "0123456789abcdef0123" 7
              DemoChat.empty_world)
    as (detail & w1 & Hrun & Hkeys & _).
  - reflexivity.
  - intros r [].
  - exists detail, w1. split; [exact Hrun|exact Hkeys].
Defined.

Lemma created_key_authenticates_witness :
  let created := api_keys.create_api_key (mkAPIKeyRequest "bob" (Some "d")) "tok"
                   "0123456789abcdef0123" 7 DemoChat.empty_world in
  exists r w2,
    dependencies.verify_api_key (dependencies.mkRequest [])
      (Some "Bearer llm-router-tok") None 8 (snd created) = (Ok r, w2)
    /\ APIKey.id (columns r) = "ak_0123456789abcdef"
    /\ APIKey.usage_count (columns r) = 1.
Proof.
  cbv zeta.
  destruct (created_key_authenticates (mkAPIKeyRequest "bob" (Some "d")) "tok"
              "0123456789abcdef0123" 7 DemoChat.empty_world
              (mkAPIKeyResponse "ak_0123456789abcdef" "bob" "llm-router-tok" "d" (Some 7)
                 1000 0)
              (snd (api_keys.create_api_key (mkAPIKeyRequest "bob" (Some "d")) "tok"
                      "0123456789abcdef0123" 7 DemoChat.empty_world)))
    with (http_request := dependencies.mkRequest []) (other := @None string) (now' := 8)
    as (r & w2 & Hrun & Hid & Hcount); [reflexivity | reflexivity | reflexivity |].
  now exists r, w2.
Defined.

End FurtherRuns.

(** ** Along any sequence of calls *)

Section SequenceProperties.
Context `{Env}.

Lemma tables_grow_refl w w' :
  api_keys w' = api_keys w -> usage_logs w' = usage_logs w -> tables_grow w w'.
Proof.
  intros Hk Hl. exists (fun r => r), [], []. rewrite Hk, Hl, List.map_id, !app_nil_r.
  repeat split; auto; try (intros n r []).
Qed.

Lemma tables_grow_trans w1 w2 w3 :
  tables_grow w1 w2 -> tables_grow w2 w3 -> tables_grow w1 w3.
Proof.
  intros (f & nk & nl & Hk & Hf & Hfresh & Hl) (f' & nk' & nl' & Hk' & Hf' & Hfresh' & Hl').
  exists (fun r => f' (f r)), (List.map f' nk ++ nk'), (nl ++ nl').
  split; [|split; [|split]].
  - rewrite Hk', Hk, List.map_app, List.map_map, <- app_assoc. reflexivity.
  - intros r. destruct (Hf r) as (Hi & Hh & Hn & Ha).
    destruct (Hf' (f r)) as (Hi' & Hh' & Hn' & Ha').
    repeat split; try congruence. auto.
  - intros n r Hn Hr. apply in_app_or in Hn as [Hn|Hn].
    + apply in_map_iff in Hn as (n0 & <- & Hn0).
      destruct (Hf' n0) as (-> & _). now apply Hfresh.
    + destruct (Hf r) as (<- & _). apply Hfresh'; [exact Hn|].
      rewrite Hk. apply in_or_app. left. now apply in_map.
  - rewrite Hl', Hl, <- app_assoc. reflexivity.
Qed.

(** A rewriting of the key table in place, by a function that keeps id,
    hash and name and does not activate. *)
Lemma tables_grow_map (g : APIKey.t -> APIKey.t) w w' :
  api_keys w' = List.map g (api_keys w) -> usage_logs w' = usage_logs w ->
  (forall r, APIKey.id (g r) = APIKey.id r
             /\ APIKey.key_hash (g r) = APIKey.key_hash r
             /\ APIKey.name (g r) = APIKey.name r
             /\ (APIKey.is_active (g r) = true -> APIKey.is_active r = true)) ->
  tables_grow w w'.
Proof.
  intros Hk Hl Hg. exists g, [], []. rewrite Hk, Hl, !app_nil_r.
  repeat split; auto; try apply Hg; try (intros n r []).
Qed.

Lemma stored_tables w w' : stored w' = stored w -> tables_grow w w'.
Proof. unfold stored. intros [= Hk Hl _ _]. now apply tables_grow_refl. Qed.

Lemma dependency_grows request authorization api_key now w :
  tables_grow w (snd (dependencies.verify_api_key request authorization api_key now w)).
Proof.
  destruct (dependencies.verify_api_key request authorization api_key now w)
    as [o w'] eqn:Hdep.
  destruct (dependency_outcomes _ _ _ _ _ _ _ Hdep) as (Hlogs & _ & Hcase). simpl.
  destruct o as [r|e].
  - destruct Hcase as (_ & k & _ & _ & _ & Hkeys).
    apply (tables_grow_map _ _ _ Hkeys Hlogs).
    intros r0. now destruct (String.eqb _ _).
  - destruct Hcase as [_ Hst]. now apply stored_tables.
Qed.

(** A route that does nothing to the tables after its dependency. *)
Lemma after_dependency_grows (A : Type) request authorization api_key now w
    (body : APIKeyObj -> M A) :
  (forall key w0, tables_grow w0 (snd (body key w0))) ->
  tables_grow w
    (snd ((current_key <- dependencies.verify_api_key request authorization api_key now ;;
           body current_key) w)).
Proof.
  intros Hbody. unfold bind.
  pose proof (dependency_grows request authorization api_key now w) as Hdep.
  destruct (dependencies.verify_api_key request authorization api_key now w)
    as [[key|e] w0]; simpl in *; [|exact Hdep].
  exact (tables_grow_trans _ _ _ Hdep (Hbody key w0)).
Qed.

Lemma create_key_grows request token uuid now w :
  tables_grow w (snd (api_keys.create_api_key request token uuid now w)).
Proof.
  rewrite create_route_run.
  unfold utils_auth.create_api_key, utils_auth.generate_api_key, insert_key, redis_setex.
  run.
  destruct (existsb _ (api_keys w)) eqn:Hex; simpl; [now apply tables_grow_refl|].
  assert (Hgrow : forall row w',
            api_keys w' = api_keys w ++ [row] -> usage_logs w' = usage_logs w ->
            APIKey.id row = "ak_" +:+ Py.slice_to uuid 16 -> tables_grow w w').
  { intros row w' Hk Hl Hrow. exists (fun r => r), [row], [].
    rewrite Hk, Hl, List.map_id, app_nil_r. repeat split; auto.
    intros n r [<-|[]] Hr Heq.
    pose proof (existsb_false_forall _ _ Hex r Hr) as Hf. simpl in Hf.
    apply orb_false_elim in Hf as [Hid _]. apply String.eqb_neq in Hid.
    apply Hid. congruence. }
  destruct (redis_client w); simpl; destruct (req_description request); simpl;
    (eapply Hgrow; reflexivity).
Qed.

Lemma delete_key_grows key_id request authorization api_key now w :
  tables_grow w (snd (api_auth.delete_api_key key_id request authorization api_key now w)).
Proof.
  unfold api_auth.delete_api_key, dependencies.get_current_api_key.
  apply (after_dependency_grows string). intros key w0. unfold try_except.
  destruct (negb (String.eqb key_id (APIKey.id (columns key)))); simpl;
    [now apply tables_grow_refl|].
  apply (tables_grow_map
           (fun r => if String.eqb (APIKey.id r) (APIKey.id (columns key))
                     then APIKey.set_is_active false r else r)); try reflexivity.
  intros r. destruct (String.eqb _ _); simpl; repeat split; auto; discriminate.
Qed.

Lemma create_token_stored key_id expires_in token_hex now w :
  stored (snd (tokens.create_token key_id expires_in token_hex now w)) = stored w.
Proof. now rewrite create_token_run. Qed.

Lemma exchange_token_grows request token_hex now w :
  tables_grow w (snd (token_routes.create_token request token_hex now w)).
Proof.
  unfold token_routes.create_token, try_except, bind.
  rewrite verify_api_key_without_redis.
  set (w1 := log_read _ w).
  assert (H1 : tables_grow w w1) by now apply tables_grow_refl.
  destruct (active_row_with_hash _ w) as [k|]; simpl; [|exact H1].
  destruct (APIKey.is_active k); simpl; [|exact H1].
  destruct (token_routes.expires_in_hours request) as [hours|]; simpl; [|exact H1].
  pose proof (create_token_stored (APIKey.id k) (Some (hours * 3600)) token_hex now w1)
    as Hst.
  destruct (tokens.create_token (APIKey.id k) (Some (hours * 3600)) token_hex now w1)
    as [[r|e] w2]; simpl in *.
  - apply (tables_grow_trans _ w2); [apply (tables_grow_trans _ w1); auto;
                                     now apply stored_tables|].
    apply (tables_grow_map
             (fun r0 => if String.eqb (APIKey.id r0) (APIKey.id k)
                        then APIKey.set_usage_count (APIKey.usage_count k + 1) r0
                        else r0)); try reflexivity.
    intros r0. now destruct (String.eqb _ _).
  - assert (H2 : tables_grow w w2).
    { apply (tables_grow_trans _ w1); auto. now apply stored_tables. }
    now destruct (is_http e).
Qed.

Lemma refresh_token_grows token token_hex now w :
  tables_grow w (snd (token_routes.refresh_token token token_hex now w)).
Proof.
  unfold token_routes.refresh_token, tokens.refresh_token, try_except, bind.
  pose proof (verify_token_stored token now w) as Hv.
  destruct (tokens.verify_token token now w) as [[[d|]|e] w1]; simpl in *.
  - pose proof (create_token_stored (tokens.api_key_id d) None token_hex now w1) as Hc.
    assert (H2 : tables_grow w
                   (snd (tokens.create_token (tokens.api_key_id d) None token_hex now w1))).
    { apply (tables_grow_trans _ w1); now apply stored_tables. }
    destruct (tokens.create_token (tokens.api_key_id d) None token_hex now w1)
      as [[r|e] w2]; simpl in *; [exact H2|].
    now destruct (is_http e).
  - now apply stored_tables.
  - destruct (is_http e); now apply stored_tables.
Qed.

Lemma verify_token_route_grows token now w :
  tables_grow w (snd (token_auth.verify_token token now w)).
Proof.
  unfold token_auth.verify_token, try_except, bind.
  pose proof (verify_token_stored token now w) as Hv.
  destruct (tokens.verify_token token now w) as [[[d|]|e] w1]; simpl in *;
    try (now apply stored_tables).
  destruct (is_http e); now apply stored_tables.
Qed.

Lemma chat_completion_grows client_manager create create_stream request http_request
    authorization api_key uuid_hex now w :
  tables_grow w
    (snd (chat_api.create_chat_completion client_manager create create_stream request
            http_request authorization api_key uuid_hex now w)).
Proof.
  unfold chat_api.create_chat_completion, dependencies.get_current_api_key.
  apply (after_dependency_grows chat_api.Response). intros key w0.
  unfold try_except.
  assert (Hlog : forall provider model u,
            tables_grow w0
              (snd (chat.log_usage (APIKey.id (columns key)) provider model u uuid_hex
                      now w0))).
  { intros provider model u.
    destruct (log_usage_returns (APIKey.id (columns key)) provider model u uuid_hex now w0)
      as (w1 & -> & Hk & _ & [Hl|Hl]); simpl; [now apply tables_grow_refl|].
    eexists (fun r => r), [], _. rewrite Hk, Hl, List.map_id, app_nil_r.
    repeat split; auto; try (intros n r []). }
  destruct (clients.get_client_for_model _ _ _) as [[client provider]|e] eqn:Hget.
  2:{ destruct (get_client_for_model_raises _ _ _ _ Hget) as [detail ->]. simpl.
      now apply tables_grow_refl. }
  destruct (default false (chat_api.stream request)).
  { unfold bind, chat.stream_chat_completion.
    destruct (create_stream client (chat_api.openai_request_of request)) as [e|s];
      [now apply tables_grow_refl|].
    destruct (chat.stream_loop provider s 0) as [yielded [t|e]];
      [|now apply tables_grow_refl].
    unfold try_except, bind, ret.
    destruct (0 <? t); [|now apply tables_grow_refl].
    specialize (Hlog provider
                  (chat_api.openai_model (chat_api.openai_request_of request))
                  (chat.streamed_usage t)).
    destruct (chat.log_usage _ _ _ _ _ _ w0) as [[[]|e] w1]; simpl in *; exact Hlog. }
  destruct (create client (chat_api.openai_request_of request)) as [e|response];
    [now apply tables_grow_refl|].
  unfold bind.
  assert (Hmeter : tables_grow w0
            (snd (match chat_api.upstream_usage response with
                  | Some usage =>
                      chat.log_usage (APIKey.id (columns key)) provider
                        (chat_api.model request) (chat.UsageObj usage) uuid_hex now
                  | None => ret tt
                  end w0))).
  { destruct (chat_api.upstream_usage response); [apply Hlog|now apply tables_grow_refl]. }
  destruct (match chat_api.upstream_usage response with
            | Some usage => _
            | None => ret tt
            end w0) as [[[]|e] w1]; simpl in *.
  - destruct (chat_api.convert_choices _); [|exact Hmeter].
    destruct (chat_api.upstream_usage response); exact Hmeter.
  - now destruct (is_http e).
Qed.

(** Every call of the API lets the tables grow, and no more. *)
Lemma run_call_grows call now w : tables_grow w (run_call call now w).
Proof.
  destruct call; simpl.
  - apply create_key_grows.
  - apply delete_key_grows.
  - apply exchange_token_grows.
  - unfold token_routes.create_token_form.
    destruct (token_routes.valid_hours _); [apply exchange_token_grows|].
    now apply tables_grow_refl.
  - apply refresh_token_grows.
  - apply verify_token_route_grows.
  - apply stored_tables, revoke_route_stored.
  - apply chat_completion_grows.
  - unfold models_api.list_models, dependencies.get_current_api_key.
    apply (after_dependency_grows (list models_api.ModelInfo)). intros key w0. now apply tables_grow_refl.
  - unfold models_api.get_model_info, dependencies.get_current_api_key.
    apply (after_dependency_grows models_api.ModelInfo).
    intros key w0. unfold try_except.
    destruct (negb (Py.truthy_opt _)); now apply tables_grow_refl.
  - unfold usage_api.get_usage.
    apply (after_dependency_grows usage_api.UsageResponse).
    intros key w0. now apply tables_grow_refl.
  - unfold usage_api.get_usage_summary.
    apply (after_dependency_grows (string * Z * Z)%type).
    intros key w0. now apply tables_grow_refl.
Qed.

Lemma run_calls_grow calls w : tables_grow w (run_calls calls w).
Proof.
  unfold run_calls. revert w. induction calls as [|[call now] calls IH]; intros w; simpl.
  - now apply tables_grow_refl.
  - exact (tables_grow_trans _ _ _ (run_call_grows call now w) (IH _)).
Qed.

(** X23. Keys are only ever deactivated, never removed or revived: along
    any sequence of calls of the API, every row of the key table stays in
    its place with its id, hash and name, a row that is inactive stays
    inactive, and rows that are added have ids that no earlier row had. *)
Theorem keys_are_never_removed_or_revived
    (calls : list (api_call * datetime)) (w : world) :
  exists (f : APIKey.t -> APIKey.t) (new_keys : list APIKey.t),
    api_keys (run_calls calls w) = List.map f (api_keys w) ++ new_keys
    /\ (forall r, APIKey.id (f r) = APIKey.id r
                  /\ APIKey.key_hash (f r) = APIKey.key_hash r
                  /\ APIKey.name (f r) = APIKey.name r
                  /\ (APIKey.is_active r = false -> APIKey.is_active (f r) = false))
    /\ (forall n r, In n new_keys -> In r (api_keys w) -> APIKey.id n <> APIKey.id r).
Proof.
  destruct (run_calls_grow calls w) as (f & nk & nl & Hk & Hf & Hfresh & _).
  exists f, nk. split; [exact Hk|]. split; [|exact Hfresh].
  intros r. destruct (Hf r) as (Hi & Hh & Hn & Ha). repeat split; auto.
  intros Hr. destruct (APIKey.is_active (f r)) eqn:E; [|reflexivity].
  rewrite (Ha eq_refl) in Hr. discriminate.
Qed.

(** X24. The usage table is append-only: along any sequence of calls of
    the API, the usage rows that were there are still there, unchanged and
    in the same order, followed by the rows added since. *)
Theorem usage_rows_are_append_only
    (calls : list (api_call * datetime)) (w : world) :
  exists new_logs, usage_logs (run_calls calls w) = usage_logs w ++ new_logs.
Proof.
  destruct (run_calls_grow calls w) as (_ & _ & nl & _ & _ & _ & Hl). now exists nl.
Qed.

(** X25. A deactivated key stays deactivated: when the key table has a row
    with a given id and every row with that id is inactive, then after any
    sequence of calls of the API every row with that id is still
    inactive. *)
Theorem deactivated_key_stays_deactivated
    (calls : list (api_call * datetime)) (w : world) (key_id : string) :
  (exists r, In r (api_keys w) /\ APIKey.id r = key_id) ->
  (forall r, In r (api_keys w) -> APIKey.id r = key_id -> APIKey.is_active r = false) ->
  forall r, In r (api_keys (run_calls calls w)) -> APIKey.id r = key_id ->
            APIKey.is_active r = false.
Proof.
  intros (r0 & Hr0 & Hid0) Hinactive r Hr Hid.
  destruct (run_calls_grow calls w) as (f & nk & nl & Hk & Hf & Hfresh & _).
  rewrite Hk in Hr. apply in_app_or in Hr as [Hr|Hr].
  - apply in_map_iff in Hr as (r1 & <- & Hr1).
    destruct (Hf r1) as (Hi & _ & _ & Ha). rewrite Hi in Hid.
    destruct (APIKey.is_active (f r1)) eqn:E; [|reflexivity].
    rewrite (Hinactive r1 Hr1 Hid) in Ha. now specialize (Ha eq_refl).
  - exfalso. apply (Hfresh r r0 Hr Hr0). congruence.
Qed.

End SequenceProperties.

Section SequenceRuns.
#[local] Existing Instance Demo.env.

Lemma deactivated_key_stays_deactivated_witness :
  forallb (fun r => negb (String.eqb (APIKey.id r) "ak_alice") || negb (APIKey.is_active r))
    (api_keys (run_calls calls_after_deactivation Demo.revoked_world))
  = true.
Proof.
  apply forallb_forall. intros r Hr.
  destruct (String.eqb_spec (APIKey.id r) "ak_alice") as [Hid|Hne]; [|reflexivity].
  assert (Hinactive : APIKey.is_active r = false).
  { apply (deactivated_key_stays_deactivated calls_after_deactivation
             Demo.revoked_world "ak_alice").
    - exists (Demo.alice_row false 0). split; [left; reflexivity|reflexivity].
    - intros r0 [<-|[]] _. reflexivity.
    - exact Hr.
    - exact Hid. }
  rewrite Hinactive. reflexivity.
Defined.

End SequenceRuns.
